(** * Edvanta backend: roadmap routes and quiz helper

    A shallow embedding of [server/app/routes/roadmap.py] and
    [server/app/utils/ai_utils.py], and the properties of the roadmap
    store, the response normaliser and the quiz generator.

    Python values are modelled as they are at run time: a [str] is a
    sequence of Unicode code points, a [dict] keeps its insertion order,
    an [int] is unbounded.  The collaborators of the handlers (the
    interpreter with its recursion and digit limits, the standard output,
    the generative model, the MongoDB driver and the other clients of its
    server, the other request threads, the clock, [uuid4]) are oracles:
    each request comes with a record of what they answer, exceptions
    included. *)

From Stdlib Require Import String Ascii.
From Stdlib Require Import List NArith ZArith Bool Lia.
From Stdlib Require Import Numbers.DecimalString.
From Stdlib Require Import Sorting.Sorted Sorting.Permutation.
Import ListNotations.

Set Implicit Arguments.
Set Warnings "-register-all".

(** ** Python strings *)

(** A [str] is the list of its code points. *)
Definition str := list N.

(** [py "abc"] is the [str] with the characters of an ASCII literal. *)
Definition py (s : string) : str :=
  map N_of_ascii (list_ascii_of_string s).

(** [a == b] *)
Fixpoint str_eqb (a b : str) : bool :=
  match a, b with
  | [], [] => true
  | x :: a', y :: b' => (x =? y)%N && str_eqb a' b'
  | _, _ => false
  end.

(** [str(n)] for an [int]. *)
Definition str_of_int (n : Z) : str :=
  py (NilEmpty.string_of_int (Z.to_int n)).

Module Str.

(** [s.startswith(prefix)] *)
Fixpoint startswith (s prefix : str) : bool :=
  match prefix, s with
  | [], _ => true
  | p :: prefix', c :: s' => (c =? p)%N && startswith s' prefix'
  | _ :: _, [] => false
  end.

(** [s.endswith(suffix)] *)
Definition endswith (s suffix : str) : bool :=
  startswith (rev s) (rev suffix).

(** [sub in s] *)
Fixpoint contains (sub s : str) : bool :=
  startswith s sub
  || match s with
     | [] => false
     | _ :: s' => contains sub s'
     end.

(** The scan of [s.replace(old, new)] for a non-empty [old]: left to
    right, every occurrence that does not overlap the previous one.
    [skip] counts the characters of a matched occurrence that are still
    to be dropped. *)
Fixpoint replace_from (old new : str) (skip : nat) (s : str) : str :=
  match s with
  | [] => []
  | c :: s' =>
      match skip with
      | S k => replace_from old new k s'
      | O =>
          if startswith s old
          then new ++ replace_from old new (length old - 1) s'
          else c :: replace_from old new 0 s'
      end
  end.

(** [s.replace(old, new)]; an empty [old] matches between any two
    characters and at both ends. *)
Definition replace (s old new : str) : str :=
  match old with
  | [] => new ++ flat_map (fun c => c :: new) s
  | _ :: _ => replace_from old new 0 s
  end.

(** The characters [str.strip()] removes: those for which
    [str.isspace] holds. *)
Definition isspace (c : N) : bool :=
  ((9 <=? c) && (c <=? 13) || (28 <=? c) && (c <=? 32)
   || (c =? 133) || (c =? 160) || (c =? 5760)
   || (8192 <=? c) && (c <=? 8202)
   || (c =? 8232) || (c =? 8233) || (c =? 8239) || (c =? 8287)
   || (c =? 12288))%N.

Fixpoint lstrip (s : str) : str :=
  match s with
  | [] => []
  | c :: s' => if isspace c then lstrip s' else s
  end.

Definition rstrip (s : str) : str := rev (lstrip (rev s)).

(** [s.strip()] *)
Definition strip (s : str) : str := rstrip (lstrip s).

(** [s[n:]] and [s[:-n]] for [n >= 0] *)
Definition drop (n : nat) (s : str) : str := skipn n s.
Definition drop_end (n : nat) (s : str) : str := firstn (length s - n) s.

(** [s.count(c, 0, stop)] and [s.rindex(c, 0, stop)] for one character,
    as the decoder uses them to turn a position into line and column. *)
Definition count_before (c : N) (stop : nat) (s : str) : nat :=
  length (filter (N.eqb c) (firstn stop s)).

Fixpoint column_from (c : N) (col : nat) (s : str) : nat :=
  match s with
  | [] => col
  | d :: s' => column_from c (if (d =? c)%N then 1 else S col) s'
  end.

End Str.

(** ** Python values *)

(** A naive [datetime], as [datetime.utcnow()] returns it. *)
Record datetime := {
  year : nat; month : nat; day : nat;
  hour : nat; minute : nat; second : nat; microsecond : nat
}.

(** The values the handlers hold: what [json.loads] returns, and the two
    driver and clock types a roadmap document contains.  A float is kept
    as the literal text it was read from. *)
Inductive pyval : Type :=
| PNone
| PBool (b : bool)
| PInt (n : Z)
| PFloat (literal : str)
| PStr (s : str)
| PList (l : list pyval)
| PDict (d : list (str * pyval))
| PDatetime (t : datetime)
| PObjectId (hex : str).

(** A Python [dict] with [str] keys: its items, in insertion order. *)
Module Dict.

Section Ops.
Variable V : Type.

Definition t := list (str * V).

(** [d.get(k)] *)
Fixpoint get (d : t) (k : str) : option V :=
  match d with
  | [] => None
  | (k', v) :: d' => if str_eqb k' k then Some v else get d' k
  end.

(** [k in d] *)
Definition mem (k : str) (d : t) : bool :=
  match get d k with Some _ => true | None => false end.

(** [d[k] = v]: an existing key keeps its place. *)
Fixpoint set (d : t) (k : str) (v : V) : t :=
  match d with
  | [] => [(k, v)]
  | (k', v') :: d' =>
      if str_eqb k' k then (k', v) :: d' else (k', v') :: set d' k v
  end.

(** [d.pop(k, None)], without the value. *)
Fixpoint pop (d : t) (k : str) : t :=
  match d with
  | [] => []
  | (k', v) :: d' => if str_eqb k' k then d' else (k', v) :: pop d' k
  end.

(** [d.values()] *)
Definition values (d : t) : list V := map snd d.

Definition keys (d : t) : list str := map fst d.

End Ops.

End Dict.

(** The content of a [dict] of values. *)
Definition dict := Dict.t pyval.

(** [v == s] for a value that [dict.get] returned and a [str]. *)
Definition eq_str (v : option pyval) (s : str) : bool :=
  match v with
  | Some (PStr t) => str_eqb t s
  | _ => false
  end.

(** ** Exceptions *)

Inductive exn : Type :=
| JSONDecodeError (msg : str) (doc : str) (pos : nat)
| RecursionError (msg : str)
| ValueError (msg : str)
| TypeError (msg : str)
| AttributeError (msg : str)
| Raised (text : str).  (* raised by a collaborator; [text] is [str(e)] *)

Definition str_of_nat (n : nat) : str := str_of_int (Z.of_nat n).

(** [str(e)].  A [JSONDecodeError] renders its position as line and
    column of the document it carries. *)
Definition str_of_exn (e : exn) : str :=
  match e with
  | JSONDecodeError msg doc pos =>
      let lineno := Str.count_before 10 pos doc + 1 in
      let colno := Str.column_from 10 1 (firstn pos doc) in
      msg ++ py ": line " ++ str_of_nat lineno
          ++ py " column " ++ str_of_nat colno
          ++ py " (char " ++ str_of_nat pos ++ py ")"
  | RecursionError msg => msg
  | ValueError msg => msg
  | TypeError msg => msg
  | AttributeError msg => msg
  | Raised text => text
  end.

(** A computation that returns or raises. *)
Definition result (A : Type) : Type := (exn + A)%type.

Definition bind {A B : Type} (m : result A) (k : A -> result B) : result B :=
  match m with
  | inl e => inl e
  | inr a => k a
  end.

Notation "x <- m ;; k" := (bind m (fun x => k))
  (at level 61, m at next level, right associativity).

(** ** The interpreter

    What the running interpreter allows [json.loads].  Whether the
    recursion limit is reached while a document is decoded depends on
    the version of the interpreter and on the stack of the call:
    [recursion_error] gives the message of the [RecursionError] that is
    raised for a document, when one is.  [int_max_str_digits] is
    [sys.get_int_max_str_digits()], [4300] by default and [0] where there
    is no limit. *)
Record interpreter := {
  recursion_error : str -> option str;
  int_max_str_digits : nat
}.

(** ** The JSON decoder

    [json.loads] for a [str] document, after CPython's scanner
    ([Modules/_json.c], with [json/decoder.py] around it): the values,
    the messages and the positions it reports, and the [ValueError] of
    an integer of more digits than the interpreter converts.  The
    scanner recurses on [fuel]; [decode] gives it more than a document
    can use ([scan_fuel] below), so that it is the scanner of an
    interpreter whose recursion limit is not reached; [json_loads]
    below raises the [RecursionError] of one where it is. *)
Module Json.

Inductive scanned (A : Type) : Type :=
| Scanned (v : A) (rest : str) (idx : nat)
| StopIteration (idx : nat)
| DecodeError (msg : str) (pos : nat)
| Raises (e : exn)
| OutOfFuel.
Arguments StopIteration {A} idx.
Arguments DecodeError {A} msg pos.
Arguments Raises {A} e.
Arguments OutOfFuel {A}.

Definition is_whitespace (c : N) : bool :=
  ((c =? 32) || (c =? 9) || (c =? 10) || (c =? 13))%N.

Fixpoint skip_ws (s : str) (idx : nat) : str * nat :=
  match s with
  | c :: s' => if is_whitespace c then skip_ws s' (S idx) else (s, idx)
  | [] => ([], idx)
  end.

Definition hex_digit (c : N) : option N :=
  (if (48 <=? c) && (c <=? 57) then Some (c - 48)
   else if (97 <=? c) && (c <=? 102) then Some (c - 97 + 10)
   else if (65 <=? c) && (c <=? 70) then Some (c - 65 + 10)
   else None)%N.

Definition hex4 (a b c d : N) : option N :=
  match hex_digit a, hex_digit b, hex_digit c, hex_digit d with
  | Some x, Some y, Some z, Some w => Some (((x * 16 + y) * 16 + z) * 16 + w)%N
  | _, _, _, _ => None
  end.

(** The character a one-letter escape stands for. *)
Definition unescape (c : N) : option N :=
  (if (c =? 34) || (c =? 92) || (c =? 47) then Some c
   else if c =? 98 then Some 8
   else if c =? 102 then Some 12
   else if c =? 110 then Some 10
   else if c =? 114 then Some 13
   else if c =? 116 then Some 9
   else None)%N.

Definition is_high_surrogate (c : N) : bool := ((55296 <=? c) && (c <=? 56319))%N.
Definition is_low_surrogate (c : N) : bool := ((56320 <=? c) && (c <=? 57343))%N.
Definition join_surrogates (hi lo : N) : N :=
  (65536 + N.lor (N.shiftl (hi - 55296) 10) (lo - 56320))%N.

(** [scanstring]: [s] starts after the opening quote, at index [idx];
    [begin] is the index of the quote and [acc] the characters read so
    far, last first. *)
Fixpoint scanstring (s : str) (idx begin : nat) (acc : str) : scanned str :=
  match s with
  | [] => DecodeError (py "Unterminated string starting at") begin
  | c :: s1 =>
      if (c =? 34)%N then Scanned (rev acc) s1 (S idx)
      else if (c =? 92)%N then
        match s1 with
        | [] => DecodeError (py "Unterminated string starting at") begin
        | e :: s2 =>
            if (e =? 117)%N then
              match s2 with
              | h1 :: h2 :: h3 :: h4 :: ((_ :: _) as s3) =>
                  match hex4 h1 h2 h3 h4 with
                  | None => DecodeError (py "Invalid \uXXXX escape") (S idx)
                  | Some u =>
                      match s3 with
                      | b :: e' :: g1 :: g2 :: g3 :: g4 :: ((_ :: _) as s4) =>
                          if is_high_surrogate u && (b =? 92)%N && (e' =? 117)%N then
                            match hex4 g1 g2 g3 g4 with
                            | None =>
                                DecodeError (py "Invalid \uXXXX escape") (idx + 7)
                            | Some u2 =>
                                if is_low_surrogate u2
                                then scanstring s4 (idx + 12) begin
                                       (join_surrogates u u2 :: acc)
                                else scanstring s3 (idx + 6) begin (u :: acc)
                            end
                          else scanstring s3 (idx + 6) begin (u :: acc)
                      | _ => scanstring s3 (idx + 6) begin (u :: acc)
                      end
                  end
              | _ => DecodeError (py "Invalid \uXXXX escape") (S idx)
              end
            else
              match unescape e with
              | Some ch => scanstring s2 (idx + 2) begin (ch :: acc)
              | None => DecodeError (py "Invalid \escape") idx
              end
        end
      else if (c <=? 31)%N then DecodeError (py "Invalid control character at") idx
      else scanstring s1 (S idx) begin (c :: acc)
  end.

Definition is_digit (c : N) : bool := ((48 <=? c) && (c <=? 57))%N.

(** The longest run of digits at the head of [s], and what follows. *)
Fixpoint digits (s : str) : str * str :=
  match s with
  | c :: s' =>
      if is_digit c then let (ds, r) := digits s' in (c :: ds, r) else ([], s)
  | [] => ([], [])
  end.

Definition int_of_digits (ds : str) : Z :=
  fold_left (fun acc c => (acc * 10 + Z.of_N (c - 48))%Z) ds 0%Z.

(** The integer part: [0], or a run of digits that does not start
    with [0]. *)
Definition integer_part (s : str) : option (str * str) :=
  match s with
  | c :: s' =>
      if (c =? 48)%N then Some ([c], s')
      else if is_digit c then Some (digits s)
      else None
  | [] => None
  end.

(** [.] and at least one digit. *)
Definition fraction_part (s : str) : str * str :=
  match s with
  | c :: s' =>
      if (c =? 46)%N then
        match digits s' with
        | ([], _) => ([], s)
        | (ds, r) => (c :: ds, r)
        end
      else ([], s)
  | [] => ([], s)
  end.

(** [e] or [E], an optional sign and at least one digit. *)
Definition exponent_part (s : str) : str * str :=
  match s with
  | c :: s' =>
      if (c =? 101)%N || (c =? 69)%N then
        let (sign, s'') :=
          match s' with
          | d :: r => if (d =? 45)%N || (d =? 43)%N then ([d], r) else ([], s')
          | [] => ([], s')
          end in
        match digits s'' with
        | ([], _) => ([], s)
        | (ds, r) => (c :: sign ++ ds, r)
        end
      else ([], s)
  | [] => ([], s)
  end.

(** [int(text)] refuses more than [max_digits] digits, when there is a
    limit; texts of up to 640 digits are never checked. *)
Definition too_many_digits (max_digits digits : nat) : bool :=
  (640 <? digits) && (0 <? max_digits) && (max_digits <? digits).

Definition digits_error (max_digits digits : nat) : exn :=
  ValueError (py "Exceeds the limit (" ++ str_of_nat max_digits
              ++ py " digits) for integer string conversion: value has "
              ++ str_of_nat digits
              ++ py " digits; use sys.set_int_max_str_digits() to increase the limit").

(** A number at index [idx]: an [int] when it has neither fraction nor
    exponent, a [float] otherwise. *)
Definition match_number (max_digits : nat) (s : str) (idx : nat) : scanned pyval :=
  let (neg, s0) :=
    match s with
    | c :: s' => if (c =? 45)%N then (true, s') else (false, s)
    | [] => (false, s)
    end in
  match integer_part s0 with
  | None => StopIteration idx
  | Some (ip, s1) =>
      let (fp, s2) := fraction_part s1 in
      let (ep, s3) := exponent_part s2 in
      let text := (if neg then [45%N] else []) ++ ip ++ fp ++ ep in
      match fp, ep with
      | [], [] =>
          if too_many_digits max_digits (length ip)
          then Raises (digits_error max_digits (length ip))
          else Scanned (PInt (if neg then - int_of_digits ip else int_of_digits ip))
                       s3 (idx + length text)
      | _, _ => Scanned (PFloat text) s3 (idx + length text)
      end
  end.

Definition on_value {A B : Type} (f : A -> B) (r : scanned A) : scanned B :=
  match r with
  | Scanned v rest idx => Scanned (f v) rest idx
  | StopIteration idx => StopIteration idx
  | DecodeError msg pos => DecodeError msg pos
  | Raises e => Raises e
  | OutOfFuel => OutOfFuel
  end.

(** A named constant at the head of [s], if there is one. *)
Definition constant (s : str) : option (pyval * nat) :=
  if Str.startswith s (py "null") then Some (PNone, 4)
  else if Str.startswith s (py "true") then Some (PBool true, 4)
  else if Str.startswith s (py "false") then Some (PBool false, 5)
  else if Str.startswith s (py "NaN") then Some (PFloat (py "NaN"), 3)
  else if Str.startswith s (py "Infinity") then Some (PFloat (py "Infinity"), 8)
  else if Str.startswith s (py "-Infinity") then Some (PFloat (py "-Infinity"), 9)
  else None.

(** [scan_once] reads one value at index [idx]; [parse_pairs] and
    [parse_items] are the loops of an object and of an array, entered
    where a key and where an item is expected. *)
Fixpoint scan_once (fuel max_digits : nat) (s : str) (idx : nat) {struct fuel}
  : scanned pyval :=
  match fuel with
  | O => OutOfFuel
  | S fuel' =>
      match s with
      | [] => StopIteration idx
      | c :: s1 =>
          if (c =? 34)%N then on_value PStr (scanstring s1 (S idx) idx [])
          else if (c =? 123)%N then
            match skip_ws s1 (S idx) with
            | (c' :: s2, i2) =>
                if (c' =? 125)%N then Scanned (PDict []) s2 (S i2)
                else parse_pairs fuel' max_digits (c' :: s2) i2 []
            | ([], i2) => parse_pairs fuel' max_digits [] i2 []
            end
          else if (c =? 91)%N then
            match skip_ws s1 (S idx) with
            | (c' :: s2, i2) =>
                if (c' =? 93)%N then Scanned (PList []) s2 (S i2)
                else parse_items fuel' max_digits (c' :: s2) i2 []
            | ([], i2) => parse_items fuel' max_digits [] i2 []
            end
          else
            match constant s with
            | Some (v, n) => Scanned v (skipn n s) (idx + n)
            | None => match_number max_digits s idx
            end
      end
  end
with parse_pairs (fuel max_digits : nat) (s : str) (idx : nat) (pairs : dict)
                 {struct fuel} : scanned pyval :=
  match fuel with
  | O => OutOfFuel
  | S fuel' =>
      match s with
      | c :: s1 =>
          if (c =? 34)%N then
            match scanstring s1 (S idx) idx [] with
            | Scanned key s2 i2 =>
                match skip_ws s2 i2 with
                | (c3 :: s4, i3) =>
                    if (c3 =? 58)%N then
                      let (s5, i5) := skip_ws s4 (S i3) in
                      match scan_once fuel' max_digits s5 i5 with
                      | Scanned v s6 i6 =>
                          let pairs' := Dict.set pairs key v in
                          match skip_ws s6 i6 with
                          | (c7 :: s8, i7) =>
                              if (c7 =? 125)%N then Scanned (PDict pairs') s8 (S i7)
                              else if (c7 =? 44)%N then
                                let (s9, i9) := skip_ws s8 (S i7) in
                                parse_pairs fuel' max_digits s9 i9 pairs'
                              else DecodeError (py "Expecting ',' delimiter") i7
                          | ([], i7) => DecodeError (py "Expecting ',' delimiter") i7
                          end
                      | StopIteration i => StopIteration i
                      | DecodeError msg pos => DecodeError msg pos
                      | Raises e => Raises e
                      | OutOfFuel => OutOfFuel
                      end
                    else DecodeError (py "Expecting ':' delimiter") i3
                | ([], i3) => DecodeError (py "Expecting ':' delimiter") i3
                end
            | StopIteration i => StopIteration i
            | DecodeError msg pos => DecodeError msg pos
            | Raises e => Raises e
            | OutOfFuel => OutOfFuel
            end
          else
            DecodeError (py "Expecting property name enclosed in double quotes") idx
      | [] =>
          DecodeError (py "Expecting property name enclosed in double quotes") idx
      end
  end
with parse_items (fuel max_digits : nat) (s : str) (idx : nat)
                 (items : list pyval) {struct fuel} : scanned pyval :=
  match fuel with
  | O => OutOfFuel
  | S fuel' =>
      match scan_once fuel' max_digits s idx with
      | Scanned v s1 i1 =>
          let items' := items ++ [v] in
          match skip_ws s1 i1 with
          | (c2 :: s3, i2) =>
              if (c2 =? 93)%N then Scanned (PList items') s3 (S i2)
              else if (c2 =? 44)%N then
                let (s4, i4) := skip_ws s3 (S i2) in
                parse_items fuel' max_digits s4 i4 items'
              else DecodeError (py "Expecting ',' delimiter") i2
          | ([], i2) => DecodeError (py "Expecting ',' delimiter") i2
          end
      | StopIteration i => StopIteration i
      | DecodeError msg pos => DecodeError msg pos
      | Raises e => Raises e
      | OutOfFuel => OutOfFuel
      end
  end.

(** [JSONDecoder.decode]: one value, with white space around it and
    nothing else. *)
Definition decode (max_digits : nat) (s : str) : result pyval :=
  let (s1, i1) := skip_ws s 0 in
  match scan_once (2 * length s + 2) max_digits s1 i1 with
  | Scanned v s2 i2 =>
      match skip_ws s2 i2 with
      | ([], _) => inr v
      | (_ :: _, i3) => inl (JSONDecodeError (py "Extra data") s i3)
      end
  | StopIteration i => inl (JSONDecodeError (py "Expecting value") s i)
  | DecodeError msg pos => inl (JSONDecodeError msg s pos)
  | Raises e => inl e
  | OutOfFuel => inl (RecursionError (py "maximum recursion depth exceeded"))
  end.

End Json.

(** Literals.  [pyq] reads an apostrophe as a double quote, for texts
    that contain double quotes. *)
Definition pyq (s : string) : str :=
  map (fun c => if (c =? 39)%N then 34%N else c) (py s).

(** [chr(10).join(ls)] *)
Definition lines (ls : list str) : str :=
  match ls with
  | [] => []
  | l :: ls' => l ++ flat_map (fun x => 10%N :: x) ls'
  end.

(** [json.loads(s)] *)
Definition json_loads (python : interpreter) (s : str) : result pyval :=
  match recursion_error python s with
  | Some msg => inl (RecursionError msg)
  | None =>
      if Str.startswith s [65279%N]
      then inl (JSONDecodeError (py "Unexpected UTF-8 BOM (decode using utf-8-sig)") s 0)
      else Json.decode (int_max_str_digits python) s
  end.

(** ** [ai_utils.create_quiz] *)

(** *** Standard output

    [print(text)] writes a line to [sys.stdout] or raises, as a stream
    does that cannot encode the text. *)
Definition stream := str -> option exn.

(** A computation that prints: the lines it has printed, and what it
    returns or raises. *)
Definition printing (A : Type) : Type := (list str * result A)%type.

Definition print (stdout : stream) (text : str) : printing unit :=
  match stdout text with
  | Some e => ([], inl e)
  | None => ([text], inr tt)
  end.

(** The escape of a character in the message of a
    [UnicodeEncodeError]. *)
Definition hex_of (n : N) : N := if (n <? 10)%N then (48 + n)%N else (87 + n)%N.

Fixpoint hex (width : nat) (n : N) : str :=
  match width with
  | O => []
  | S width' => hex width' (n / 16) ++ [hex_of (n mod 16)]
  end.

Definition escaped (c : N) : str :=
  if (c <? 256)%N then py "\x" ++ hex 2 c
  else if (c <? 65536)%N then py "\u" ++ hex 4 c
  else py "\U" ++ hex 8 c.

(** The characters at the head of a text that a codec refuses, and the
    first run of such characters in a text: where it starts, its first
    character and its length. *)
Fixpoint refused_run (refuses : N -> bool) (s : str) : nat :=
  match s with
  | c :: s' => if refuses c then S (refused_run refuses s') else 0
  | [] => 0
  end.

Fixpoint first_refused (refuses : N -> bool) (s : str) (pos : nat)
  : option (nat * N * nat) :=
  match s with
  | [] => None
  | c :: s' =>
      if refuses c then Some (pos, c, refused_run refuses s)
      else first_refused refuses s' (S pos)
  end.

(** A standard output with the error handler [strict], for a codec that
    refuses some characters: the [UnicodeEncodeError] names the first run
    of them. *)
Definition encoding (codec reason : str) (refuses : N -> bool) : stream :=
  fun text =>
    match first_refused refuses text 0 with
    | None => None
    | Some (start, c, 1) =>
        Some (Raised (py "'" ++ codec ++ py "' codec can't encode character '"
                      ++ escaped c ++ py "' in position " ++ str_of_nat start
                      ++ py ": " ++ reason))
    | Some (start, _, n) =>
        Some (Raised (py "'" ++ codec ++ py "' codec can't encode characters in position "
                      ++ str_of_nat start ++ py "-" ++ str_of_nat (start + n - 1)
                      ++ py ": " ++ reason))
    end.

(** A step that prints nothing. *)
Definition quiet {A : Type} (r : result A) : printing A := ([], r).

Definition and_then {A B : Type} (m : printing A) (k : A -> printing B)
  : printing B :=
  match m with
  | (out, inl e) => (out, inl e)
  | (out, inr a) => let (out', r) := k a in (out ++ out', r)
  end.

Notation "x <~ m ;; k" := (and_then m (fun x => k))
  (at level 61, m at next level, right associativity).

(** [try: body except Exception as e: handler(e)] *)
Definition try_except {A : Type} (body : printing A) (handler : exn -> printing A)
  : printing A :=
  match body with
  | (out, inl e) => let (out', r) := handler e in (out ++ out', r)
  | (out, inr a) => (out, inr a)
  end.

(** [len(v)] *)
Definition len (v : pyval) : result nat :=
  match v with
  | PStr s => inr (length s)
  | PList l => inr (length l)
  | PDict d => inr (length d)
  | PNone => inl (TypeError (py "object of type 'NoneType' has no len()"))
  | PBool _ => inl (TypeError (py "object of type 'bool' has no len()"))
  | PInt _ => inl (TypeError (py "object of type 'int' has no len()"))
  | PFloat _ => inl (TypeError (py "object of type 'float' has no len()"))
  | PDatetime _ =>
      inl (TypeError (py "object of type 'datetime.datetime' has no len()"))
  | PObjectId _ => inl (TypeError (py "object of type 'ObjectId' has no len()"))
  end.

(** [range(n)] *)
Definition range (n : Z) : list Z := map Z.of_nat (seq 0 (Z.to_nat n)).

(** The generative model as [create_quiz] uses it. *)
Record generative_model := {
  (* lines 29 to 33: what reading the configuration, [vertexai.init] and
     [GenerativeModel(...)] raise, when they raise *)
  setup : option exn;
  (* lines 59 and 62: [generate_content(prompt)] and [response.text] *)
  answer : str -> result str
}.

Definition quiz_prompt (topic difficulty : str) (num_questions : Z) : str :=
  lines [
    pyq "Generate a quiz about '" ++ topic ++ pyq "' with "
      ++ str_of_int num_questions ++ py " multiple choice questions.";
    py "Difficulty: " ++ difficulty;
    py "";
    py "Return ONLY valid JSON in this exact format:";
    py "{";
    pyq "  'topic': '" ++ topic ++ pyq "',";
    pyq "  'difficulty': '" ++ difficulty ++ pyq "',";
    pyq "  'questions': [";
    py "    {";
    pyq "      'id': 1,";
    pyq "      'question': 'Question text here?',";
    pyq "      'options': ['Option A', 'Option B', 'Option C', 'Option D'],";
    pyq "      'correctAnswer': 'Option A'";
    py "    }";
    py "  ]";
    py "}";
    py "";
    py "Requirements:";
    py "- Return ONLY the JSON, no markdown, no extra text";
    py "- Exactly " ++ str_of_int num_questions ++ py " questions";
    py "- Each question has exactly 4 options";
    py "- correctAnswer must match exactly one of the options"
  ].

(** The fence markers *)
Definition fence : str := py "```".
Definition json_fence : str := py "```json".

(** "Clean response text": the prefix and suffix strip of [create_quiz]. *)
Definition clean_quiz_text (text : str) : str :=
  let response_text := Str.strip text in
  let response_text :=
    if Str.startswith response_text json_fence then Str.drop 7 response_text
    else if Str.startswith response_text fence then Str.drop 3 response_text
    else response_text in
  if Str.endswith response_text fence then Str.drop_end 3 response_text
  else response_text.

(** "Basic validation": [Some quiz_data] when the [if] holds, and the
    exception [len] raises on a value without a length. *)
Definition validate_quiz (quiz_data : pyval) (num_questions : Z)
  : result (option pyval) :=
  match quiz_data with
  | PDict d =>
      if Dict.mem (py "topic") d && Dict.mem (py "difficulty") d then
        match Dict.get d (py "questions") with
        | Some questions =>
            n <- len questions ;;
            if (Z.of_nat n =? num_questions)%Z then inr (Some quiz_data)
            else inr None
        | None => inr None
        end
      else inr None
  | _ => inr None
  end.

(** One entry of the hardcoded quiz, for [i] of [range(num_questions)]. *)
Definition hardcoded_question (topic : str) (i : Z) : pyval :=
  let k := str_of_int (i + 1) in
  PDict [
    (py "id", PInt (i + 1));
    (py "question", PStr (py "Sample question " ++ k ++ py " for " ++ topic ++ py "?"));
    (py "options", PList [PStr (py "Option A " ++ k); PStr (py "Option B " ++ k);
                          PStr (py "Option C " ++ k); PStr (py "Option D " ++ k)]);
    (py "correctAnswer", PStr (py "Option A " ++ k))
  ].

Definition hardcoded_quiz (topic difficulty : str) (num_questions : Z) : pyval :=
  PDict [
    (py "topic", PStr topic);
    (py "difficulty", PStr difficulty);
    (py "questions", PList (map (hardcoded_question topic) (range num_questions)))
  ].

(** The signs the progress messages begin with. *)
Definition robot : N := 129302.
Definition arrows : N := 128260.
Definition check_mark : N := 9989.
Definition cross_mark : N := 10060.

(** Lines 22 and 23 *)
Definition creating_message (topic difficulty : str) (num_questions : Z) : str :=
  py "Creating quiz for topic: '" ++ topic ++ py "', difficulty: '" ++ difficulty
    ++ py "', questions: " ++ str_of_int num_questions.

Definition raise_if (e : option exn) : result unit :=
  match e with
  | Some e => inl e
  | None => inr tt
  end.

(** The [try] block: the value it returns, or [None] when it is left
    without a [return]. *)
Definition ai_generation (stdout : stream) (python : interpreter)
           (model : generative_model)
           (topic difficulty : str) (num_questions : Z) : printing (option pyval) :=
  _ <~ print stdout (robot :: py " Attempting AI generation...") ;;
  _ <~ quiet (raise_if (setup model)) ;;
  _ <~ print stdout (arrows :: py " Sending request to AI model...") ;;
  text <~ quiet (answer model (quiz_prompt topic difficulty num_questions)) ;;
  quiz_data <~ quiet (json_loads python (Str.strip (clean_quiz_text text))) ;;
  checked <~ quiet (validate_quiz quiz_data num_questions) ;;
  match checked with
  | Some quiz_data =>
      _ <~ print stdout (check_mark :: py " AI generation successful!") ;;
      quiet (inr (Some quiz_data))
  | None => quiet (inr None)
  end.

Definition create_quiz (stdout : stream) (python : interpreter)
           (model : generative_model)
           (topic difficulty : str) (num_questions : Z) : printing pyval :=
  _ <~ print stdout (creating_message topic difficulty num_questions) ;;
  attempt <~ try_except
               (ai_generation stdout python model topic difficulty num_questions)
               (fun e =>
                  _ <~ print stdout (cross_mark :: py " AI generation failed: "
                                     ++ str_of_exn e) ;;
                  quiet (inr None)) ;;
  match attempt with
  | Some quiz_data => quiet (inr quiz_data)
  | None =>
      _ <~ print stdout (arrows :: py " Using hardcoded quiz") ;;
      quiet (inr (hardcoded_quiz topic difficulty num_questions))
  end.

(** ** [routes/roadmap.py] *)

(** The settings [connect_to_mongodb] reads; [None] is an unset one. *)
Record Config := {
  MONGODB_URI : option str;
  MONGODB_DB_NAME : option str;
  MONGODB_ROADMAP_COLLECTION : option str
}.

(** Truth value of an optional [str]: [None] and the empty [str] are
    false. *)
Definition truthy (v : option str) : bool :=
  match v with
  | Some (_ :: _) => true
  | _ => false
  end.

(** *** Truth values *)

(** The exponent an exponent part stands for. *)
Definition exponent_of (ep : str) : Z :=
  match ep with
  | _ :: c :: ds =>
      if (c =? 45)%N then (- Json.int_of_digits ds)%Z
      else if (c =? 43)%N then Json.int_of_digits ds
      else Json.int_of_digits (c :: ds)
  | _ => 0%Z
  end.

(** [float(literal) == 0.0] for the text of a JSON number: its digits
    are all zero, or it is at most half the least positive [float],
    [2 ** -1075], and is rounded to zero. *)
Definition float_is_zero (literal : str) : bool :=
  let s0 :=
    match literal with
    | c :: s' => if (c =? 45)%N then s' else literal
    | [] => literal
    end in
  match Json.integer_part s0 with
  | None => false
  | Some (ip, s1) =>
      let (fp, s2) := Json.fraction_part s1 in
      let (ep, _) := Json.exponent_part s2 in
      let mantissa := Json.int_of_digits (ip ++ tl fp) in
      let exponent := (exponent_of ep - Z.of_nat (length (tl fp)))%Z in
      (mantissa =? 0)%Z
      || ((exponent <? 0)%Z && (mantissa * 2 ^ 1075 <=? 10 ^ (- exponent))%Z)
  end.

(** [bool(v)] *)
Definition truth (v : pyval) : bool :=
  match v with
  | PNone => false
  | PBool b => b
  | PInt n => negb (n =? 0)%Z
  | PFloat literal => negb (float_is_zero literal)
  | PStr s => match s with [] => false | _ :: _ => true end
  | PList l => match l with [] => false | _ :: _ => true end
  | PDict d => match d with [] => false | _ :: _ => true end
  | PDatetime _ => true
  | PObjectId _ => true
  end.

(** *** The database *)

(** A document of the MongoDB collection: the [ObjectId] the driver gave
    it, and its other fields. *)
Record document := {
  _id : str;
  fields : dict
}.

(** The document as the driver returns it. *)
Definition as_dict (d : document) : dict :=
  (py "_id", PObjectId (_id d)) :: fields d.

(** What the collaborators answer during one request. *)
Record env := {
  (* lines 37 to 41: [MongoClient(...)], the [ping] command and
     [client[db_name]] succeed *)
  mongo_reachable : bool;
  (* [bool(db)] for a database handle: [True] with a driver whose
     [Database] has no [__bool__], as PyMongo 3; PyMongo 4 raises
     [NotImplementedError] *)
  database_bool : result bool;
  (* the exception [db[collection_name]] raises, when it raises, as for
     a name the driver refuses *)
  collection_error : option exn;
  (* [import vertexai] and its [GenerativeModel] succeed *)
  vertexai_importable : bool;
  (* lines 107 to 129: credentials, [vertexai.init], the model, the call
     and [response.text], for a prompt *)
  generate_content : str -> result str;
  (* what an f-string makes of a value that is not a [str] *)
  format_value : pyval -> str;
  (* the interpreter, where [json.loads] is called *)
  python : interpreter;
  (* [str(uuid.uuid4())] *)
  uuid4 : str;
  (* [datetime.utcnow()] *)
  utcnow : datetime;
  (* the [ObjectId] the driver assigns in [insert_one] *)
  new_object_id : str;
  (* the exception [insert_one], [find_one], [find] or [delete_one]
     raises, when it raises *)
  insert_error : option exn;
  find_error : option exn;
  delete_error : option exn;
  (* the server had applied the write that raised *)
  insert_applied : bool;
  delete_applied : bool;
  (* another client of the database deletes the matching document
     between this handler's [find_one] and its [delete_one] *)
  delete_raced : bool;
  (* another request thread pops the roadmap from the mapping between
     this handler's loop and its [pop] *)
  memory_raced : bool
}.

(** The module's globals, and the content of the roadmap collection of
    the database. *)
Record state := {
  db : option str;
  collection_name : option str;
  _in_memory_roadmaps : Dict.t dict;
  mongo : list document
}.

Definition response : Type := pyval * nat.

(** [jsonify(body), status] *)
Definition jsonify (body : pyval) (status : nat) : response := (body, status).

Definition error (msg : str) (status : nat) : response :=
  jsonify (PDict [(py "error", PStr msg)]) status.

Definition connect_to_mongodb (cfg : Config) (w : env)
  : option str * option str :=
  let connection_string := MONGODB_URI cfg in
  let db_name := MONGODB_DB_NAME cfg in
  let dynamic_collection :=
    if truthy (MONGODB_ROADMAP_COLLECTION cfg)
    then MONGODB_ROADMAP_COLLECTION cfg else Some (py "roadmaps") in
  if negb (truthy connection_string) || negb (truthy db_name) then (None, None)
  else if mongo_reachable w then (db_name, dynamic_collection)
  else (None, None).

(** [if db is None: client, db, collection_name = connect_to_mongodb()] *)
Definition reconnect (cfg : Config) (w : env) (st : state) : state :=
  match db st with
  | Some _ => st
  | None =>
      let (d, c) := connect_to_mongodb cfg w in
      {| db := d; collection_name := c;
         _in_memory_roadmaps := _in_memory_roadmaps st; mongo := mongo st |}
  end.

(** [db and collection_name]: [None] is false without a test of the
    driver; a handle is tested with [bool(db)], which may raise. *)
Definition db_available (w : env) (st : state) : result bool :=
  match db st with
  | None => inr false
  | Some _ =>
      handle_is_true <- database_bool w ;;
      inr (handle_is_true && truthy (collection_name st))
  end.

(** [db[collection_name]] *)
Definition get_collection (w : env) : result unit :=
  match collection_error w with
  | Some e => inl e
  | None => inr tt
  end.

(** *** The collection *)

(** The equality of a query: a field matches a [str] when it is equal
    to it, or is an array with an element equal to it. *)
Definition field_matches (v : option pyval) (s : str) : bool :=
  match v with
  | Some (PStr t) => str_eqb t s
  | Some (PList l) =>
      existsb (fun x => match x with PStr t => str_eqb t s | _ => false end) l
  | _ => false
  end.

(** A filter with [str] values matches a document each of whose named
    fields matches. *)
Definition matches (filter : list (str * str)) (d : dict) : bool :=
  forallb (fun kv => field_matches (Dict.get d (fst kv)) (snd kv)) filter.

Definition find_one (coll : list document) (filter : list (str * str))
  : option document :=
  find (fun d => matches filter (as_dict d)) coll.

(** [delete_one]: the collection without the first match, and
    [deleted_count]. *)
Fixpoint delete_one (coll : list document) (filter : list (str * str))
  : list document * nat :=
  match coll with
  | [] => ([], 0)
  | d :: coll' =>
      if matches filter (as_dict d) then (coll', 1)
      else let (rest, n) := delete_one coll' filter in (d :: rest, n)
  end.

(** A date is stored in milliseconds. *)
Definition to_milliseconds (t : datetime) : datetime :=
  {| year := year t; month := month t; day := day t;
     hour := hour t; minute := minute t; second := second t;
     microsecond := microsecond t / 1000 * 1000 |}.

(** A value as it is read back after it was written. *)
Fixpoint stored (v : pyval) : pyval :=
  match v with
  | PDatetime t => PDatetime (to_milliseconds t)
  | PList l => PList (map stored l)
  | PDict d => PDict (map (fun kv => (fst kv, stored (snd kv))) d)
  | _ => v
  end.

Definition stored_fields (d : dict) : dict :=
  map (fun kv => (fst kv, stored (snd kv))) d.

Definition zero_pad (width : nat) (n : nat) : str :=
  let digits := str_of_nat n in
  repeat 48%N (width - length digits) ++ digits.

(** [t.isoformat()] *)
Definition isoformat (t : datetime) : str :=
  zero_pad 4 (year t) ++ py "-" ++ zero_pad 2 (month t) ++ py "-"
    ++ zero_pad 2 (day t) ++ py "T" ++ zero_pad 2 (hour t) ++ py ":"
    ++ zero_pad 2 (minute t) ++ py ":" ++ zero_pad 2 (second t)
    ++ match microsecond t with
       | O => []
       | us => py "." ++ zero_pad 6 us
       end.

Definition datetime_key (t : datetime) : list nat :=
  [year t; month t; day t; hour t; minute t; second t; microsecond t].

(** Lexicographic [a <= b] *)
Fixpoint key_leb (a b : list nat) : bool :=
  match a, b with
  | [], _ => true
  | _ :: _, [] => false
  | x :: a', y :: b' => (x <? y) || ((x =? y) && key_leb a' b')
  end.

(** The sort key of [.sort("created_at", -1)]; a document without a
    date sorts as the lowest. *)
Definition created_at (d : document) : list nat :=
  match Dict.get (fields d) (py "created_at") with
  | Some (PDatetime t) => 1 :: datetime_key t
  | _ => []
  end.

Fixpoint insert_desc (d : document) (l : list document) : list document :=
  match l with
  | [] => [d]
  | x :: l' =>
      if key_leb (created_at x) (created_at d) then d :: l
      else x :: insert_desc d l'
  end.

(** Newest first; documents of one date keep their order. *)
Definition sort_created_desc (l : list document) : list document :=
  fold_right insert_desc [] l.

(** *** [generate_roadmap] *)

Definition type_name (v : pyval) : str :=
  match v with
  | PNone => py "NoneType"
  | PBool _ => py "bool"
  | PInt _ => py "int"
  | PFloat _ => py "float"
  | PStr _ => py "str"
  | PList _ => py "list"
  | PDict _ => py "dict"
  | PDatetime _ => py "datetime.datetime"
  | PObjectId _ => py "ObjectId"
  end.

(** [data.get(k)]: [None] for a missing member; only a [dict] has a
    [get]. *)
Definition get_member (data : pyval) (k : str) : result pyval :=
  match data with
  | PDict d =>
      inr (match Dict.get d k with Some v => v | None => PNone end)
  | _ =>
      inl (AttributeError (py "'" ++ type_name data
                           ++ py "' object has no attribute 'get'"))
  end.

(** The members of the JSON body that lines 73 to 76 read. *)
Record generate_request := {
  goal : pyval;
  background : pyval;
  duration_weeks : pyval;
  user_email : pyval
}.

(** Lines 72 to 76, for what [request.get_json()] returns or raises. *)
Definition read_request (get_json : result pyval) : result generate_request :=
  data <- get_json ;;
  goal <- get_member data (py "goal") ;;
  background <- get_member data (py "background") ;;
  duration_weeks <- get_member data (py "duration_weeks") ;;
  user_email <- get_member data (py "user_email") ;;
  inr {| goal := goal; background := background;
         duration_weeks := duration_weeks; user_email := user_email |}.

(** [f"{v}"]: a [str] as it is, any other value as the interpreter
    formats it. *)
Definition formatted (w : env) (v : pyval) : str :=
  match v with
  | PStr s => s
  | _ => format_value w v
  end.

Definition text_of (v : option str) : str :=
  match v with Some s => s | None => [] end.

Definition node (id title : str) (description : pyval) (recommended_weeks : Z)
  : pyval :=
  PDict [
    (py "id", PStr id);
    (py "title", PStr title);
    (py "description", description);
    (py "recommended_weeks", PInt recommended_weeks);
    (py "resources", PList [])
  ].

Definition edge (from to : str) : pyval :=
  PDict [(py "from", PStr from); (py "to", PStr to)].

(** The roadmap returned when the Vertex SDK cannot be imported. *)
Definition fallback (w : env) (goal background : pyval) : pyval :=
  PDict [
    (py "nodes", PList [
       node (py "start") (py "Start: " ++ formatted w goal) background 1;
       node (py "fundamentals") (py "Fundamentals")
            (PStr (py "Core concepts and basics.")) 2;
       node (py "project") (py "Project Work")
            (PStr (py "Build a project to apply learning.")) 2;
       node (py "goal") (py "Achieve: " ++ formatted w goal)
            (PStr (py "Target goal milestone.")) 1
     ]);
    (py "edges", PList [
       edge (py "start") (py "fundamentals");
       edge (py "fundamentals") (py "project");
       edge (py "project") (py "goal")
     ])
  ].

Definition roadmap_prompt (w : env) (goal background duration_weeks : pyval) : str :=
  py "You are a career roadmap assistant. Given a user's goal and background, "
  ++ py "generate a learning roadmap as a directed graph in JSON. "
  ++ py "Each node should represent a milestone or skill, with edges showing dependencies. "
  ++ py "Each node must have: id, title, description, recommended_weeks, resources (list of links or names). "
  ++ py "The graph should have a start node and an end node (the goal). "
  ++ py "Respond ONLY with a JSON object with keys: nodes (list), edges (list of {from, to})."
  ++ [10%N; 10%N]
  ++ py "Goal: " ++ formatted w goal ++ [10%N]
  ++ py "Background: " ++ formatted w background ++ [10%N]
  ++ py "Target Duration (weeks): "
  ++ (if truth duration_weeks then formatted w duration_weeks
      else py "Not specified").

(** Lines 131 to 139: "clean up the response if it contains markdown
    formatting", then "remove any backticks that might be left". *)
Definition clean_response (roadmap_json : str) : str :=
  let roadmap_json :=
    if Str.contains json_fence roadmap_json then
      Str.strip (Str.replace (Str.replace roadmap_json json_fence []) fence [])
    else if Str.contains fence roadmap_json then
      Str.strip (Str.replace roadmap_json fence [])
    else roadmap_json in
  Str.replace roadmap_json (py "`") [].

(** Lines 131 to 142: the normaliser, cleaning and parsing. *)
Definition normalize (python : interpreter) (roadmap_json : str) : result pyval :=
  json_loads python (clean_response roadmap_json).

Definition roadmap_document (w : env) (req : generate_request) (roadmap_data : pyval)
  : dict :=
  [ (py "id", PStr (uuid4 w));
    (py "user_email", user_email req);
    (py "title", goal req);
    (py "description", background req);
    (py "duration_weeks", duration_weeks req);
    (py "created_at", PDatetime (utcnow w));
    (py "data", roadmap_data) ].

Definition with_mongo (st : state) (coll : list document) : state :=
  {| db := db st; collection_name := collection_name st;
     _in_memory_roadmaps := _in_memory_roadmaps st; mongo := coll |}.

Definition with_memory (st : state) (store : Dict.t dict) : state :=
  {| db := db st; collection_name := collection_name st;
     _in_memory_roadmaps := store; mongo := mongo st |}.

(** [_in_memory_roadmaps[doc["id"]] = {**doc, "created_at": ...isoformat()}] *)
Definition store_in_memory (w : env) (doc : dict) (st : state) : state :=
  with_memory st
    (Dict.set (_in_memory_roadmaps st) (uuid4 w)
              (Dict.set doc (py "created_at") (PStr (isoformat (utcnow w))))).

(** [insert_one] gives the dict its [_id], then writes the document or
    raises; the server may have applied a write that raises. *)
Definition insert_one (w : env) (doc : dict) (st : state) : option exn * state :=
  let written :=
    with_mongo st
      (mongo st ++ [{| _id := new_object_id w; fields := stored_fields doc |}]) in
  match insert_error w with
  | None => (None, written)
  | Some db_error => (Some db_error, if insert_applied w then written else st)
  end.

Definition saved_with_warning (w : env) (roadmap_data : pyval) (db_error : exn)
           (doc : dict) (st : state) : response * state :=
  (jsonify (PDict [
      (py "roadmap", roadmap_data);
      (py "warning",
        PStr (py "Database save failed, stored in memory fallback: "
              ++ str_of_exn db_error))
    ]) 200,
   store_in_memory w doc st).

(** Lines 156 to 180, for a test of line 156 that has not raised. *)
Definition save (w : env) (roadmap_data : pyval) (doc : dict) (available : bool)
           (st : state) : response * state :=
  if available then
    match get_collection w with
    | inl db_error => saved_with_warning w roadmap_data db_error doc st
    | inr _ =>
        match insert_one w doc st with
        | (None, st') => (jsonify (PDict [(py "roadmap", roadmap_data)]) 200, st')
        | (Some db_error, st') =>
            (* the driver had added [_id] to the dict it was given *)
            let doc' := doc ++ [(py "_id", PObjectId (new_object_id w))] in
            saved_with_warning w roadmap_data db_error doc' st'
        end
    end
  else
    (jsonify (PDict [
        (py "roadmap", roadmap_data);
        (py "note", PStr (py "MongoDB not configured; using in-memory storage"))
      ]) 200,
     store_in_memory w doc st).

(** The handler after the lazy reconnect; [inl] is an exception the
    handler does not catch. *)
Definition generate_roadmap_body (w : env) (get_json : result pyval) (st : state)
  : result response * state :=
  match read_request get_json with
  | inl e => (inl e, st)
  | inr req =>
      if negb (truth (goal req)) || negb (truth (background req)) then
        (inr (error (py "Missing goal or background") 400), st)
      else if negb (truth (user_email req)) then
        (inr (error (py "Missing user email") 400), st)
      else
        let attempt : result (response * state) :=
          if negb (vertexai_importable w) then
            inr (jsonify (PDict [
                   (py "roadmap", fallback w (goal req) (background req));
                   (py "note", PStr (py "AI service not available; returned a basic fallback roadmap."))
                 ]) 200, st)
          else
            roadmap_json <- generate_content w
                              (roadmap_prompt w (goal req) (background req)
                                              (duration_weeks req)) ;;
            roadmap_data <- normalize (python w) roadmap_json ;;
            let doc := roadmap_document w req roadmap_data in
            available <- db_available w st ;;
            inr (save w roadmap_data doc available st) in
        match attempt with
        | inr (resp, st') => (inr resp, st')
        | inl e =>
            (inr (error (py "Roadmap generation failed: " ++ str_of_exn e) 500), st)
        end
  end.

Definition generate_roadmap (cfg : Config) (w : env) (get_json : result pyval)
           (st : state) : result response * state :=
  generate_roadmap_body w get_json (reconnect cfg w st).

(** *** [get_user_roadmaps] *)

(** [roadmap["_id"] = str(roadmap["_id"])] *)
Definition id_as_str (d : document) : pyval :=
  PDict ((py "_id", PStr (_id d)) :: fields d).

Definition get_user_roadmaps_body (w : env) (email : option str) (st : state)
  : response :=
  if negb (truthy email) then error (py "Missing user_email parameter") 400
  else
    let user_email := text_of email in
    let attempt : result response :=
      available <- db_available w st ;;
      if available then
        _ <- get_collection w ;;
        _ <- raise_if (find_error w) ;;
        let roadmaps_cursor :=
          sort_created_desc
            (filter (fun d => matches [(py "user_email", user_email)] (as_dict d))
                    (mongo st)) in
        inr (jsonify (PList (map id_as_str roadmaps_cursor)) 200)
      else
        let user_roadmaps :=
          filter (fun r => eq_str (Dict.get r (py "user_email")) user_email)
                 (Dict.values (_in_memory_roadmaps st)) in
        inr (jsonify (PList (map PDict user_roadmaps)) 200) in
    match attempt with
    | inr resp => resp
    | inl e => error (py "Failed to retrieve roadmaps: " ++ str_of_exn e) 500
    end.

Definition get_user_roadmaps (cfg : Config) (w : env) (email : option str)
           (st : state) : response * state :=
  let st := reconnect cfg w st in
  (get_user_roadmaps_body w email st, st).

(** *** [get_roadmap_by_id] *)

Inductive method := GET | DELETE.

(** The loop over [_in_memory_roadmaps.items()]: the first roadmap with
    this id and this owner. *)
Definition find_in_memory (store : Dict.t dict) (roadmap_id user_email : str)
  : option dict :=
  find (fun roadmap =>
          eq_str (Dict.get roadmap (py "id")) roadmap_id
          && eq_str (Dict.get roadmap (py "user_email")) user_email)
       (Dict.values store).

(** [_in_memory_roadmaps.pop(r.get("id"), None)] *)
Definition pop_roadmap (store : Dict.t dict) (r : dict) : Dict.t dict :=
  match Dict.get r (py "id") with
  | Some (PStr k) => Dict.pop store k
  | _ => store
  end.

Definition not_found : response :=
  error (py "Roadmap not found or access denied") 404.

Definition deleted : response :=
  jsonify (PDict [(py "success", PBool true);
                  (py "message", PStr (py "Roadmap deleted successfully"))]) 200.

Definition operation_failed (e : exn) : response :=
  error (py "Operation failed: " ++ str_of_exn e) 500.

(** Lines 240 to 262: the handler on the collection. *)
Definition by_id_in_mongo (w : env) (m : method) (roadmap_id user_email : str)
           (st : state) : response * state :=
  let filter := [(py "id", roadmap_id); (py "user_email", user_email)] in
  match get_collection w with
  | inl e => (operation_failed e, st)
  | inr _ =>
      match find_error w with
      | Some e => (operation_failed e, st)
      | None =>
          match find_one (mongo st) filter with
          | None => (not_found, st)
          | Some roadmap =>
              match m with
              | DELETE =>
                  (* what the other clients left of the collection *)
                  let coll :=
                    if delete_raced w then fst (delete_one (mongo st) filter)
                    else mongo st in
                  let (coll', deleted_count) := delete_one coll filter in
                  match delete_error w with
                  | Some e =>
                      (operation_failed e,
                       with_mongo st (if delete_applied w then coll' else coll))
                  | None =>
                      if 0 <? deleted_count then (deleted, with_mongo st coll')
                      else (error (py "Failed to delete roadmap") 500,
                            with_mongo st coll')
                  end
              | GET => (jsonify (id_as_str roadmap) 200, st)
              end
          end
      end
  end.

(** Lines 264 to 278: the handler on the mapping. *)
Definition by_id_in_memory (w : env) (m : method) (roadmap_id user_email : str)
           (st : state) : response * state :=
  match find_in_memory (_in_memory_roadmaps st) roadmap_id user_email with
  | None | Some [] => (not_found, st)
  | Some r =>
      match m with
      | DELETE =>
          (* what the other request threads left of the mapping *)
          let store :=
            if memory_raced w then pop_roadmap (_in_memory_roadmaps st) r
            else _in_memory_roadmaps st in
          (deleted, with_memory st (pop_roadmap store r))
      | GET => (jsonify (PDict r) 200, st)
      end
  end.

Definition get_roadmap_by_id_body (w : env) (m : method) (roadmap_id : str)
           (email : option str) (st : state) : response * state :=
  if negb (truthy (Some roadmap_id)) then
    (error (py "Missing roadmap_id parameter") 400, st)
  else if negb (truthy email) then
    (error (py "Missing user_email parameter") 400, st)
  else
    let user_email := text_of email in
    match db_available w st with
    | inl e => (operation_failed e, st)
    | inr true => by_id_in_mongo w m roadmap_id user_email st
    | inr false => by_id_in_memory w m roadmap_id user_email st
    end.

Definition get_roadmap_by_id (cfg : Config) (w : env) (m : method)
           (roadmap_id : str) (email : option str) (st : state)
  : response * state :=
  get_roadmap_by_id_body w m roadmap_id email (reconnect cfg w st).

(** *** Requests *)

(** A request as the application receives it: a POST of
    [/api/roadmap/generate], with what [request.get_json()] makes of its
    body; a GET of [/api/roadmap/user]; a GET or DELETE of
    [/api/roadmap/] followed by [path], with the [user_email] of the
    query. *)
Inductive request :=
| Generate (get_json : result pyval)
| UserRoadmaps (email : option str)
| RoadmapById (m : method) (path : str) (email : option str).

(** The URL converter of [<roadmap_id>] takes a segment that is not
    empty and holds no slash. *)
Definition is_segment (path : str) : bool :=
  match path with
  | [] => false
  | _ :: _ => negb (existsb (N.eqb 47) path)
  end.

(** The URL map has no view for the request. *)
Definition no_route : exn := Raised (py "404 Not Found").

Definition answered (out : response * state) : result response * state :=
  (inr (fst out), snd out).

(** Routing: [/api/roadmap/user] is the listing for a GET and a roadmap
    identifier for a DELETE. *)
Definition handle (cfg : Config) (w : env) (r : request) (st : state)
  : result response * state :=
  match r with
  | Generate get_json => generate_roadmap cfg w get_json st
  | UserRoadmaps email => answered (get_user_roadmaps cfg w email st)
  | RoadmapById m path email =>
      if negb (is_segment path) then (inl no_route, st)
      else
        match m with
        | GET =>
            if str_eqb path (py "user")
            then answered (get_user_roadmaps cfg w email st)
            else answered (get_roadmap_by_id cfg w GET path email st)
        | DELETE => answered (get_roadmap_by_id cfg w DELETE path email st)
        end
  end.

(** The state after a sequence of requests, each with what the
    collaborators answered during it. *)
Fixpoint run (cfg : Config) (trace : list (env * request)) (st : state) : state :=
  match trace with
  | [] => st
  | (w, r) :: trace' => run cfg trace' (snd (handle cfg w r st))
  end.

(** The state of a process that has just started, over a collection. *)
Definition initial (cfg : Config) (w : env) (coll : list document) : state :=
  let (d, c) := connect_to_mongodb cfg w in
  {| db := d; collection_name := c; _in_memory_roadmaps := []; mongo := coll |}.

(** ** What the properties speak of *)

(** The normaliser as the specification words it: remove the fence
    markers, tagged ones first, strip, then drop every backtick that is
    left. *)
Definition remove_marker (marker s : str) : str := Str.replace s marker [].

Definition remove_backticks (s : str) : str :=
  filter (fun c => negb (c =? 96)%N) s.

Definition normalizer_spec (text : str) : str :=
  remove_backticks
    (if Str.contains json_fence text then
       Str.strip (remove_marker fence (remove_marker json_fence text))
     else if Str.contains fence text then
       Str.strip (remove_marker fence text)
     else text).

(** What the scanners may answer on [s]: a string is read, with less
    of [s] left, or refused; a value is read, with less of [s] left, or
    refused, or an integer has too many digits, and the scanner is not
    out of fuel. *)
Definition string_scanned (s : str) (r : Json.scanned str) : Prop :=
  match r with
  | Json.Scanned _ rest _ => length rest < length s
  | Json.DecodeError _ _ => True
  | _ => False
  end.

Definition consumes (max_digits : nat) (s : str) (r : Json.scanned pyval) : Prop :=
  match r with
  | Json.Scanned _ rest _ => length rest < length s
  | Json.Raises e =>
      exists digits,
        e = Json.digits_error max_digits digits
        /\ Json.too_many_digits max_digits digits = true
  | Json.OutOfFuel => False
  | _ => True
  end.

(** The document an exception carries. *)
Definition carried_doc (e : exn) : option str :=
  match e with
  | JSONDecodeError _ doc _ => Some doc
  | _ => None
  end.

(** The identifier and the owner of a roadmap. *)
Definition str_field (r : dict) (k : str) : option str :=
  match Dict.get r k with
  | Some (PStr s) => Some s
  | _ => None
  end.

Definition record_id (r : dict) : option str := str_field r (py "id").
Definition owner (r : dict) : option str := str_field r (py "user_email").

(** The roadmaps of both stores. *)
Definition all_records (st : state) : list dict :=
  map as_dict (mongo st) ++ Dict.values (_in_memory_roadmaps st).

(** The texts a query matches a field by: the field itself, or the
    elements of an array. *)
Definition texts (v : option pyval) : list str :=
  match v with
  | Some (PStr s) => [s]
  | Some (PList l) =>
      flat_map (fun x => match x with PStr s => [s] | _ => [] end) l
  | _ => []
  end.

(** The identifiers a roadmap is found by, and those of a list of
    roadmaps. *)
Definition identifiers (r : dict) : list str := texts (Dict.get r (py "id")).

Definition record_ids (rs : list dict) : list str := flat_map identifiers rs.

Fixpoint distinct (l : list str) : bool :=
  match l with
  | [] => true
  | x :: l' => negb (existsb (str_eqb x) l') && distinct l'
  end.

(** A roadmap with identifier [u] is in the collection; is in the
    in-memory mapping. *)
Definition mongo_has (st : state) (u : str) : bool :=
  existsb (fun d => eq_str (Dict.get (fields d) (py "id")) u) (mongo st).

(** A query for the identifier [u] finds a document of the
    collection. *)
Definition mongo_finds (st : state) (u : str) : bool :=
  existsb (fun d => field_matches (Dict.get (fields d) (py "id")) u) (mongo st).

Definition memory_has (st : state) (u : str) : bool :=
  Dict.mem u (_in_memory_roadmaps st).

(** In the in-memory mapping every roadmap is under its identifier, and
    no key occurs twice. *)
Definition keyed_by_id (store : Dict.t dict) : Prop :=
  NoDup (Dict.keys store)
  /\ forall k r, In (k, r) store -> record_id r = Some k.

(** The nodes and the edges of a roadmap graph. *)
Definition members (v : pyval) (k : str) : list pyval :=
  match v with
  | PDict d => match Dict.get d k with Some (PList l) => l | _ => [] end
  | _ => []
  end.

Definition member_str (v : pyval) (k : str) : str :=
  match v with
  | PDict d => match str_field d k with Some s => s | None => [] end
  | _ => []
  end.

Definition node_ids (roadmap : pyval) : list str :=
  map (fun n => member_str n (py "id")) (members roadmap (py "nodes")).

Definition edge_pairs (roadmap : pyval) : list (str * str) :=
  map (fun e => (member_str e (py "from"), member_str e (py "to")))
      (members roadmap (py "edges")).

(** The identifier member of an object, if it has one. *)
Definition top_id (v : pyval) : option pyval :=
  match v with
  | PDict d => Dict.get d (py "id")
  | _ => None
  end.


(** The status of an answer; [None] when the handler raises. *)
Definition status (out : result response * state) : option nat :=
  match fst out with
  | inr resp => Some (snd resp)
  | inl _ => None
  end.

(** The roadmaps of a response body: the entries of a list, or the one
    object. *)
Definition listed (resp : response) : list pyval :=
  match fst resp with
  | PList l => l
  | v => [v]
  end.

(** A roadmap as a response shows it, for one that is in a store. *)
Definition shown (st : state) (v : pyval) : Prop :=
  (exists d, In d (mongo st) /\ v = id_as_str d)
  \/ (exists r, In r (Dict.values (_in_memory_roadmaps st)) /\ v = PDict r).

(** The questions of a quiz, and the quiz the specification promises:
    [n] questions of four options each. *)
Definition four_options (q : pyval) : bool :=
  match q with
  | PDict d =>
      match Dict.get d (py "options") with
      | Some (PList [_; _; _; _]) => true
      | _ => false
      end
  | _ => false
  end.

Definition n_questions_of_four (quiz : pyval) (n : Z) : bool :=
  match quiz with
  | PDict d =>
      match Dict.get d (py "questions") with
      | Some (PList qs) => (Z.of_nat (length qs) =? n)%Z && forallb four_options qs
      | _ => false
      end
  | _ => false
  end.

(** The validation as the specification words it: an object containing
    [topic], [difficulty] and [questions], of length [n]. *)
Definition valid_quiz (v : pyval) (n : Z) : bool :=
  match v with
  | PDict d =>
      Dict.mem (py "topic") d && Dict.mem (py "difficulty") d
      && match Dict.get d (py "questions") with
         | Some (PStr s) => (Z.of_nat (length s) =? n)%Z
         | Some (PList l) => (Z.of_nat (length l) =? n)%Z
         | Some (PDict e) => (Z.of_nat (length e) =? n)%Z
         | _ => false
         end
  | _ => false
  end.

(** The three required members are there and true. *)
Definition complete (req : generate_request) : bool :=
  truth (goal req) && truth (background req) && truth (user_email req).

(** What the model and the normaliser make of a request. *)
Definition model_answer (w : env) (req : generate_request) : result pyval :=
  roadmap_json <- generate_content w
                    (roadmap_prompt w (goal req) (background req)
                                    (duration_weeks req)) ;;
  normalize (python w) roadmap_json.

(** A valid request whose model answer parses: the body is an object
    with the three required members, the Vertex SDK is there, and the
    answer of the model parses to [roadmap_data]. *)
Definition parsed (w : env) (get_json : result pyval) (req : generate_request)
           (roadmap_data : pyval) : Prop :=
  read_request get_json = inr req
  /\ complete req = true
  /\ vertexai_importable w = true
  /\ model_answer w req = inr roadmap_data.

(** The document [generate_roadmap] sets in the mapping. *)
Definition in_memory_copy (w : env) (doc : dict) : dict :=
  Dict.set doc (py "created_at") (PStr (isoformat (utcnow w))).

(** What a request is answered when the lookup finds nothing. *)
Definition nothing_found (w : env) (st : state) : response :=
  match db_available w st with
  | inl e => operation_failed e
  | inr true =>
      match collection_error w, find_error w with
      | Some e, _ => operation_failed e
      | None, Some e => operation_failed e
      | None, None => not_found
      end
  | inr false => not_found
  end.

(** What the [try] block of [create_quiz] comes to on a standard output
    that takes its messages. *)
Definition quiet_attempt (python : interpreter) (model : generative_model)
           (topic difficulty : str) (num_questions : Z) : result (option pyval) :=
  _ <- raise_if (setup model) ;;
  text <- answer model (quiz_prompt topic difficulty num_questions) ;;
  quiz_data <- json_loads python (Str.strip (clean_quiz_text text)) ;;
  validate_quiz quiz_data num_questions.

(** The progress messages of a call: the lines it prints on a standard
    output that takes every text. *)
Definition progress_messages (python : interpreter) (model : generative_model)
           (topic difficulty : str) (num_questions : Z) : list str :=
  fst (create_quiz (fun _ => None) python model topic difficulty num_questions).

(** The standard output takes these texts. *)
Definition takes (stdout : stream) (texts : list str) : Prop :=
  forall text, In text texts -> stdout text = None.

(** ** Sample data *)

Module Sample.

Definition no_mongo : Config :=
  {| MONGODB_URI := None; MONGODB_DB_NAME := None;
     MONGODB_ROADMAP_COLLECTION := None |}.

Definition with_mongo : Config :=
  {| MONGODB_URI := Some (py "mongodb://localhost:27017");
     MONGODB_DB_NAME := Some (py "edvanta");
     MONGODB_ROADMAP_COLLECTION := None |}.

Definition noon : datetime :=
  {| year := 2025; month := 3; day := 9;
     hour := 12; minute := 0; second := 5; microsecond := 4321 |}.

(** A fenced answer of the model. *)
Definition fenced_graph : str :=
  lines [ py "```json";
          pyq "{'nodes': [{'id': 'start'}], 'edges': []}";
          py "```" ].

Definition graph : pyval :=
  PDict [ (py "nodes", PList [PDict [(py "id", PStr (py "start"))]]);
          (py "edges", PList []) ].

(** An interpreter with the default limit of digits, whose stack has
    room for the documents that are decoded here. *)
Definition cpython : interpreter :=
  {| recursion_error := fun _ => None; int_max_str_digits := 4300 |}.

(** A driver whose database handles are true, as PyMongo 3, and a
    driver whose handles refuse the test, as PyMongo 4. *)
Definition handles_are_true : result bool := inr true.

Definition handles_refuse_bool : result bool :=
  inl (Raised (py "Database objects do not implement truth value testing or bool(). Please compare with None instead: database is not None")).

Definition world (reachable importable : bool) (answer : result str)
           (id : str) (insert_err : option exn) (raced : bool) : env :=
  {| mongo_reachable := reachable;
     database_bool := handles_are_true;
     collection_error := None;
     vertexai_importable := importable;
     generate_content := fun _ => answer;
     format_value := fun _ => py "?";
     python := cpython;
     uuid4 := id;
     utcnow := noon;
     new_object_id := py "65ec5a1f9b3e4c2d8a7f0b11";
     insert_error := insert_err;
     find_error := None;
     delete_error := None;
     insert_applied := false;
     delete_applied := false;
     delete_raced := raced;
     memory_raced := false |}.

(** The model answers, the database does too. *)
Definition fine (id : str) : env :=
  world true true (inr fenced_graph) id None false.

(** The database refuses the write. *)
Definition write_fails (id : str) : env :=
  world true true (inr fenced_graph) id
        (Some (Raised (py "connection closed"))) false.

(** The connection is lost after the database has applied the write. *)
Definition reply_lost (id : str) : env :=
  {| mongo_reachable := true;
     database_bool := handles_are_true;
     collection_error := None;
     vertexai_importable := true;
     generate_content := fun _ => inr fenced_graph;
     format_value := fun _ => py "?";
     python := cpython;
     uuid4 := id;
     utcnow := noon;
     new_object_id := py "65ec5a1f9b3e4c2d8a7f0b11";
     insert_error := Some (Raised (py "connection closed"));
     find_error := None;
     delete_error := None;
     insert_applied := true;
     delete_applied := false;
     delete_raced := false;
     memory_raced := false |}.

(** As [fine], with a driver whose handles refuse the truth test. *)
Definition pymongo4 (id : str) : env :=
  {| mongo_reachable := true;
     database_bool := handles_refuse_bool;
     collection_error := None;
     vertexai_importable := true;
     generate_content := fun _ => inr fenced_graph;
     format_value := fun _ => py "?";
     python := cpython;
     uuid4 := id;
     utcnow := noon;
     new_object_id := py "65ec5a1f9b3e4c2d8a7f0b11";
     insert_error := None;
     find_error := None;
     delete_error := None;
     insert_applied := false;
     delete_applied := false;
     delete_raced := false;
     memory_raced := false |}.

(** Another request thread pops the roadmap first. *)
Definition popped_meanwhile : env :=
  {| mongo_reachable := false;
     database_bool := handles_are_true;
     collection_error := None;
     vertexai_importable := true;
     generate_content := fun _ => inr fenced_graph;
     format_value := fun _ => py "?";
     python := cpython;
     uuid4 := py "r9";
     utcnow := noon;
     new_object_id := py "65ec5a1f9b3e4c2d8a7f0b11";
     insert_error := None;
     find_error := None;
     delete_error := None;
     insert_applied := false;
     delete_applied := false;
     delete_raced := false;
     memory_raced := true |}.

(** The Vertex SDK is not installed. *)
Definition no_vertexai : env :=
  world true false (inl (Raised (py "unused"))) (py "r0") None false.

(** The JSON body of a request. *)
Definition ml_engineer : pyval :=
  PDict [ (py "goal", PStr (py "Become an ML Engineer"));
          (py "background", PStr (py "Python programmer"));
          (py "duration_weeks", PInt 12);
          (py "user_email", PStr (py "a@x.com")) ].

Definition ml_engineer_request : generate_request :=
  {| goal := PStr (py "Become an ML Engineer");
     background := PStr (py "Python programmer");
     duration_weeks := PInt 12;
     user_email := PStr (py "a@x.com") |}.

Definition started : state :=
  {| db := None; collection_name := None;
     _in_memory_roadmaps := []; mongo := [] |}.

Definition roadmap (id email : str) : dict :=
  [ (py "id", PStr id); (py "user_email", PStr email);
    (py "title", PStr (py "Rocq")) ].

(** One roadmap of [a@x.com] in the in-memory mapping. *)
Definition one_in_memory : state :=
  {| db := None; collection_name := None;
     _in_memory_roadmaps := [(py "r1", roadmap (py "r1") (py "a@x.com"))];
     mongo := [] |}.

(** One roadmap of [a@x.com] in the collection. *)
Definition one_in_mongo : state :=
  {| db := Some (py "edvanta"); collection_name := Some (py "roadmaps");
     _in_memory_roadmaps := [];
     mongo := [{| _id := py "65ec5a1f9b3e4c2d8a7f0b10";
                  fields := roadmap (py "r1") (py "a@x.com") |}] |}.

(** Another client deletes the roadmap first. *)
Definition raced : env :=
  world true true (inr fenced_graph) (py "r9") None true.

(** Later requests: a generation whose write fails, a listing, and
    the deletion of [r1] by its owner. *)
Definition later : list (env * request) :=
  [ (write_fails (py "r2"), Generate (inr ml_engineer));
    (fine (py "r3"), UserRoadmaps (Some (py "a@x.com")));
    (fine (py "r4"), RoadmapById DELETE (py "r1") (Some (py "a@x.com"))) ].

(** A standard output in UTF-8, which refuses a surrogate, and one in
    ASCII, which refuses every character above 127. *)
Definition utf8 : stream :=
  encoding (py "utf-8") (py "surrogates not allowed")
           (fun c => (55296 <=? c) && (c <=? 57343))%N.

Definition ascii : stream :=
  encoding (py "ascii") (py "ordinal not in range(128)") (fun c => 127 <? c)%N.

(** A model that answers a quiz of two questions without options. *)
Definition two_bare_questions : generative_model :=
  {| setup := None;
     answer := fun _ =>
       inr (pyq "{'topic': 't', 'difficulty': 'd', 'questions': [1, 2]}") |}.

Definition bare_quiz : pyval :=
  PDict [ (py "topic", PStr (py "t")); (py "difficulty", PStr (py "d"));
          (py "questions", PList [PInt 1; PInt 2]) ].

(** A model that is down. *)
Definition down : generative_model :=
  {| setup := None;
     answer := fun _ => inl (Raised (py "503 Service Unavailable")) |}.

End Sample.

(** ** What the further properties speak of *)

(** The roadmaps a handler reads when the test of the handle gives
    [available]: those of the collection, or those of the mapping. *)
Definition active_records (available : bool) (st : state) : list dict :=
  if available then map as_dict (mongo st)
  else Dict.values (_in_memory_roadmaps st).


(** [x] is not older than [y], by the sort key of the listing. *)
Definition not_older (x y : document) : Prop :=
  key_leb (created_at y) (created_at x) = true.

(** The settings name a server and a database. *)
Definition configured (cfg : Config) : bool :=
  truthy (MONGODB_URI cfg) && truthy (MONGODB_DB_NAME cfg).

(** No exception of the database reaches the handler: the test of the
    handle gives [available], and neither the collection nor a query
    raises. *)
Definition database_answers (w : env) (available : bool) : Prop :=
  database_bool w = inr available
  /\ collection_error w = None /\ find_error w = None.

(** A write that raised was not applied by the database. *)
Definition failed_writes_are_lost (w : env) : Prop :=
  (insert_error w = None \/ insert_applied w = false)
  /\ (delete_error w = None \/ delete_applied w = false).

(** [a] is a piece of [s]: [s[i:j]] for some [i] and [j]. *)
Definition segment (a s : str) : Prop := exists pre post, s = pre ++ a ++ post.

(** ** Further sample data *)

Module Scenario.

(** A request without background. *)
Definition no_background : pyval :=
  PDict [ (py "goal", PStr (py "Become an ML Engineer"));
          (py "background", PStr []);
          (py "user_email", PStr (py "a@x.com")) ].

(** Two roadmaps of [a@x.com] and one of [b@x.com] in the mapping. *)
Definition three_in_memory : state :=
  {| db := None; collection_name := None;
     _in_memory_roadmaps :=
       [ (py "r1", Sample.roadmap (py "r1") (py "a@x.com"));
         (py "r2", Sample.roadmap (py "r2") (py "b@x.com"));
         (py "r3", Sample.roadmap (py "r3") (py "a@x.com")) ];
     mongo := [] |}.

Definition dated (oid id email : str) (d : nat) : document :=
  {| _id := oid;
     fields := [ (py "id", PStr id); (py "user_email", PStr email);
                 (py "created_at",
                   PDatetime {| year := 2025; month := 3; day := d;
                                hour := 0; minute := 0; second := 0;
                                microsecond := 0 |}) ] |}.

(** Three dated roadmaps in the collection, the oldest first. *)
Definition three_in_mongo : state :=
  {| db := Some (py "edvanta"); collection_name := Some (py "roadmaps");
     _in_memory_roadmaps := [];
     mongo := [ dated (py "0a") (py "r1") (py "a@x.com") 1;
                dated (py "0b") (py "r2") (py "b@x.com") 2;
                dated (py "0c") (py "r3") (py "a@x.com") 3 ] |}.

(** A quiz of one question, as a model may answer it. *)
Definition quiz_text : str :=
  pyq "{'topic': 't', 'difficulty': 'd', 'questions': [{'id': 1}]}".

Definition quiz_value : pyval :=
  PDict [ (py "topic", PStr (py "t")); (py "difficulty", PStr (py "d"));
          (py "questions", PList [PDict [(py "id", PInt 1)]]) ].

(** A model that answers that quiz in a tagged fence. *)
Definition fenced_quiz : generative_model :=
  {| setup := None;
     answer := fun _ => inr (json_fence ++ quiz_text ++ fence) |}.

End Scenario.

(** * Properties *)

Unset Implicit Arguments.

(** ** Strings *)

Lemma str_eqb_eq (a b : str) : str_eqb a b = true <-> a = b.
Proof.
  revert b; induction a as [|x a IH]; intros [|y b]; simpl;
    try (split; [discriminate | discriminate]); try tauto.
  rewrite andb_true_iff, N.eqb_eq, IH.
  split; [intros [-> ->]; reflexivity | intros H; inversion H; auto].
Qed.

Lemma str_eqb_refl (a : str) : str_eqb a a = true.
Proof. apply str_eqb_eq; reflexivity. Qed.

Lemma str_eqb_neq (a b : str) : a <> b -> str_eqb a b = false.
Proof.
  intros H. destruct (str_eqb a b) eqn:E; [|reflexivity].
  apply str_eqb_eq in E. contradiction.
Qed.

Lemma startswith_nil s : Str.startswith s [] = true.
Proof. destruct s; reflexivity. Qed.

Lemma startswith_length s p : Str.startswith s p = true -> length p <= length s.
Proof.
  revert s; induction p as [|c p IH]; intros [|d s]; simpl; try lia; try discriminate.
  intros H. apply andb_prop in H as [_ H]. apply IH in H. lia.
Qed.

(** Every character of a prefix, and of a substring, occurs in the
    string. *)
Lemma startswith_In s p c :
  Str.startswith s p = true -> In c p -> In c s.
Proof.
  revert s; induction p as [|x p IH]; intros [|y s]; simpl; try tauto; try discriminate.
  intros H [->|Hc]; apply andb_prop in H as [E H].
  - apply N.eqb_eq in E. left; exact E.
  - right. apply IH; assumption.
Qed.

Lemma contains_In sub s c :
  Str.contains sub s = true -> In c sub -> In c s.
Proof.
  induction s as [|y s IH]; simpl; intros H Hc.
  - rewrite orb_false_r in H. destruct sub; [contradiction | discriminate].
  - apply orb_prop in H as [H|H].
    + apply (startswith_In (y :: s) sub); assumption.
    + right. apply IH; assumption.
Qed.

(** Replacing one character by nothing filters it out. *)
Lemma replace_char s c :
  Str.replace s [c] [] = filter (fun x => negb (x =? c)%N) s.
Proof.
  unfold Str.replace. induction s as [|x s IH]; simpl; [reflexivity|].
  rewrite startswith_nil, andb_true_r. destruct (x =? c)%N; simpl; rewrite IH; reflexivity.
Qed.

Lemma filter_absent (c : N) s :
  ~ In c s -> filter (fun x => negb (x =? c)%N) s = s.
Proof.
  induction s as [|x s IH]; simpl; intros H; [reflexivity|].
  destruct (x =? c)%N eqn:E.
  - apply N.eqb_eq in E. exfalso; apply H; left; exact E.
  - simpl. rewrite IH; [reflexivity | tauto].
Qed.

Lemma filter_removes (c : N) s :
  ~ In c (filter (fun x => negb (x =? c)%N) s).
Proof.
  intros H. apply filter_In in H as [_ H].
  rewrite N.eqb_refl in H. discriminate.
Qed.

Lemma contains_char c s : Str.contains [c] s = true <-> In c s.
Proof.
  split.
  - intros H. apply (contains_In [c] s); [exact H | left; reflexivity].
  - induction s as [|x s IH]; simpl; [tauto|].
    intros [->|H].
    + rewrite N.eqb_refl, startswith_nil. reflexivity.
    + rewrite IH by exact H. apply orb_true_r.
Qed.

(** ** The decoder returns or reports: the fuel it is given suffices *)

Section Decoder.
Import Json.

Lemma skip_ws_length s idx : length (fst (skip_ws s idx)) <= length s.
Proof.
  revert idx; induction s as [|c s IH]; intros idx; simpl; [lia|].
  destruct (is_whitespace c); simpl; [specialize (IH (S idx)); lia | lia].
Qed.

Lemma scanstring_cases n : forall s idx b acc,
  length s <= n -> string_scanned s (scanstring s idx b acc).
Proof.
  induction n as [|n IH]; intros s idx b acc Hn.
  - destruct s; simpl in *; [exact I | lia].
  - assert (step : forall s' i a, length s' < length s ->
              string_scanned s (scanstring s' i b a)).
    { intros s' i a L. specialize (IH s' i b a).
      unfold string_scanned in *.
      destruct (scanstring s' i b a); auto; lia. }
    destruct s as [|c s1]; simpl; [exact I|].
    destruct (c =? 34)%N; [simpl; lia|].
    destruct (c =? 92)%N.
    2:{ destruct (c <=? 31)%N; [exact I|]. apply step; simpl; lia. }
    destruct s1 as [|e s2]; [exact I|].
    destruct (e =? 117)%N.
    2:{ destruct (unescape e); [|exact I]. apply step; simpl; lia. }
    destruct s2 as [|h1 [|h2 [|h3 [|h4 [|x s3]]]]]; try exact I.
    destruct (hex4 h1 h2 h3 h4) as [u|]; [|exact I].
    destruct s3 as [|e' [|g1 [|g2 [|g3 [|g4 [|y s4]]]]]];
      try (apply step; simpl; lia).
    destruct (is_high_surrogate u && (x =? 92)%N && (e' =? 117)%N).
    2:{ apply step; simpl; lia. }
    destruct (hex4 g1 g2 g3 g4) as [u2|]; [|exact I].
    destruct (is_low_surrogate u2); apply step; simpl; lia.
Qed.

Lemma digits_length s : length (snd (digits s)) <= length s.
Proof.
  induction s as [|c s IH]; simpl; [lia|].
  destruct (is_digit c); simpl; [|lia].
  destruct (digits s); simpl in *; lia.
Qed.

Lemma integer_part_length s ip r :
  integer_part s = Some (ip, r) -> length r < length s.
Proof.
  destruct s as [|c s]; simpl; [discriminate|].
  destruct (c =? 48)%N.
  { intros H; inversion H; subst; simpl; lia. }
  destruct (is_digit c) eqn:E; [|discriminate].
  intros H. inversion H as [H'].
  pose proof (digits_length s) as L. destruct (digits s) as [ds r']. 
  simpl in *. inversion H'; subst. lia.
Qed.

Lemma fraction_part_length s : length (snd (fraction_part s)) <= length s.
Proof.
  destruct s as [|c s]; simpl; [lia|].
  destruct (c =? 46)%N; simpl; [|lia].
  pose proof (digits_length s) as L. destruct (digits s) as [[|d ds] r]; simpl in *; lia.
Qed.

Lemma exponent_part_length s : length (snd (exponent_part s)) <= length s.
Proof.
  destruct s as [|c s]; [simpl; lia|].
  unfold exponent_part.
  destruct ((c =? 101)%N || (c =? 69)%N); [|simpl; lia].
  set (p := match s with
            | d :: r => if (d =? 45)%N || (d =? 43)%N then ([d], r) else ([], s)
            | [] => ([], s)
            end).
  assert (Hp : length (snd p) <= length s).
  { subst p. destruct s as [|d r]; simpl; [lia|].
    destruct ((d =? 45)%N || (d =? 43)%N); simpl; lia. }
  destruct p as [sign s2]. simpl in Hp.
  pose proof (digits_length s2) as L.
  destruct (digits s2) as [[|x ds] r']; simpl in *; lia.
Qed.

Lemma match_number_cases max_digits s idx :
  match match_number max_digits s idx with
  | Scanned _ rest _ => length rest < length s
  | StopIteration _ => True
  | Raises e =>
      exists digits,
        e = digits_error max_digits digits
        /\ too_many_digits max_digits digits = true
  | _ => False
  end.
Proof.
  unfold match_number.
  set (p := match s with
      | c :: s' => if (c =? 45)%N then (true, s') else (false, s)
      | [] => (false, s) end).
  assert (Hp : length (snd p) <= length s).
  { subst p. destruct s as [|c s']; simpl; [lia|]. destruct (c =? 45)%N; simpl; lia. }
  destruct p as [neg s0]. simpl in Hp.
  destruct (integer_part s0) as [[ip s1]|] eqn:E; [|exact I].
  apply integer_part_length in E.
  pose proof (fraction_part_length s1) as F. destruct (fraction_part s1) as [fp s2].
  pose proof (exponent_part_length s2) as G. destruct (exponent_part s2) as [ep s3].
  simpl in *.
  destruct fp; [destruct ep|]; try lia.
  destruct (too_many_digits max_digits (length ip)) eqn:T; [eauto | lia].
Qed.

Lemma constant_length s v n : constant s = Some (v, n) -> 0 < n <= length s.
Proof.
  unfold constant.
  repeat match goal with
  | |- context [Str.startswith s ?p] =>
      let E := fresh "E" in
      destruct (Str.startswith s p) eqn:E;
      [apply startswith_length in E;
       let k := eval vm_compute in (length p) in change (length p) with k in E;
       let H := fresh "H" in intros H; inversion H; subst; lia|]
  end.
  discriminate.
Qed.

Lemma consumes_shorter m s s' r :
  length s' <= length s -> consumes m s' r -> consumes m s r.
Proof. unfold consumes; destruct r; auto; lia. Qed.

Lemma scan_fuel m fuel :
  (forall s idx, 2 * length s + 1 <= fuel -> consumes m s (scan_once fuel m s idx))
  /\ (forall s idx pairs, 2 * length s + 1 <= fuel ->
        consumes m s (parse_pairs fuel m s idx pairs))
  /\ (forall s idx items, 2 * length s + 2 <= fuel ->
        consumes m s (parse_items fuel m s idx items)).
Proof.
  induction fuel as [|fuel (IHs & IHp & IHi)].
  - repeat split; intros; lia.
  - repeat apply conj.
    + intros s idx Hf. simpl.
      destruct s as [|c s1]; [exact I|].
      simpl in Hf.
      destruct (c =? 34)%N.
      { pose proof (@scanstring_cases (length s1) s1 (S idx) idx [] (le_n _)) as C.
        destruct (scanstring s1 (S idx) idx []); simpl in *; auto; try lia;
          contradiction. }
      destruct (c =? 123)%N.
      { pose proof (skip_ws_length s1 (S idx)) as L.
        destruct (skip_ws s1 (S idx)) as [[|c' s2] i2]; simpl in L.
        - apply consumes_shorter with (s' := []); [simpl; lia|]. apply IHp; simpl; lia.
        - destruct (c' =? 125)%N; [simpl; lia|].
          apply consumes_shorter with (s' := c' :: s2); [simpl; lia|].
          apply IHp; simpl in *; lia. }
      destruct (c =? 91)%N.
      { pose proof (skip_ws_length s1 (S idx)) as L.
        destruct (skip_ws s1 (S idx)) as [[|c' s2] i2]; simpl in L.
        - apply consumes_shorter with (s' := []); [simpl; lia|]. apply IHi; simpl; lia.
        - destruct (c' =? 93)%N; [simpl; lia|].
          apply consumes_shorter with (s' := c' :: s2); [simpl; lia|].
          apply IHi; simpl in *; lia. }
      destruct (constant (c :: s1)) as [[v n]|] eqn:E.
      { apply constant_length in E. unfold consumes. rewrite length_skipn. lia. }
      pose proof (match_number_cases m (c :: s1) idx) as M.
      destruct (match_number m (c :: s1) idx); simpl; auto.
    + intros s idx pairs Hf. simpl.
      destruct s as [|c s1]; [exact I|].
      simpl in Hf.
      destruct (c =? 34)%N; [|exact I].
      pose proof (@scanstring_cases (length s1) s1 (S idx) idx [] (le_n _)) as C.
      destruct (scanstring s1 (S idx) idx []) as [key s2 i2| | | |]; simpl in C;
        try contradiction; try exact I.
      pose proof (skip_ws_length s2 i2) as L3.
      destruct (skip_ws s2 i2) as [[|c3 s4] i3]; [exact I|]. simpl in L3.
      destruct (c3 =? 58)%N; [|exact I].
      pose proof (skip_ws_length s4 (S i3)) as L5.
      destruct (skip_ws s4 (S i3)) as [s5 i5]. simpl in L5.
      assert (V : consumes m s5 (scan_once fuel m s5 i5)) by (apply IHs; lia).
      destruct (scan_once fuel m s5 i5) as [v s6 i6| | | |]; simpl in V;
        try exact I; try exact V; try contradiction.
      pose proof (skip_ws_length s6 i6) as L7.
      destruct (skip_ws s6 i6) as [[|c7 s8] i7]; [exact I|]. simpl in L7.
      destruct (c7 =? 125)%N; [simpl; lia|].
      destruct (c7 =? 44)%N; [|exact I].
      pose proof (skip_ws_length s8 (S i7)) as L9.
      destruct (skip_ws s8 (S i7)) as [s9 i9]. simpl in L9.
      apply consumes_shorter with (s' := s9); [simpl; lia|].
      apply IHp. lia.
    + intros s idx items Hf. simpl.
      assert (V : consumes m s (scan_once fuel m s idx)) by (apply IHs; lia).
      destruct (scan_once fuel m s idx) as [v s1 i1| | | |]; simpl in V;
        try exact I; try exact V; try contradiction.
      pose proof (skip_ws_length s1 i1) as L2.
      destruct (skip_ws s1 i1) as [[|c2 s3] i2]; [exact I|]. simpl in L2.
      destruct (c2 =? 93)%N; [simpl; lia|].
      destruct (c2 =? 44)%N; [|exact I].
      pose proof (skip_ws_length s3 (S i2)) as L4.
      destruct (skip_ws s3 (S i2)) as [s4 i4]. simpl in L4.
      apply consumes_shorter with (s' := s4); [simpl; lia|].
      apply IHi. lia.
Qed.

(** An exception of [json.loads] is the decoder's, with the document,
    the [RecursionError] of the interpreter, or the [ValueError] of an
    integer with too many digits. *)
Lemma json_loads_error python s e :
  json_loads python s = inl e ->
  (exists msg pos, e = JSONDecodeError msg s pos)
  \/ (exists msg, e = RecursionError msg /\ recursion_error python s = Some msg)
  \/ (exists digits,
        e = digits_error (int_max_str_digits python) digits
        /\ too_many_digits (int_max_str_digits python) digits = true).
Proof.
  unfold json_loads, decode.
  destruct (recursion_error python s) as [msg|] eqn:R.
  { intros H; inversion H; subst. right; left; eauto. }
  destruct (Str.startswith s [65279%N]); [intros H; inversion H; eauto|].
  pose proof (skip_ws_length s 0) as L.
  destruct (skip_ws s 0) as [s1 i1]. simpl in L.
  destruct (scan_fuel (int_max_str_digits python) (2 * length s + 2)) as [F _].
  specialize (F s1 i1).
  destruct (scan_once (2 * length s + 2) (int_max_str_digits python) s1 i1)
    as [v s2 i2| | | |].
  - destruct (skip_ws s2 i2) as [[|c s3] i3]; intros H; inversion H; eauto.
  - intros H; inversion H; eauto.
  - intros H; inversion H; eauto.
  - intros H; inversion H; subst. right; right. apply F. lia.
  - exfalso. apply F. lia.
Qed.

End Decoder.

(** ** The response normaliser *)

Lemma clean_response_spec raw : clean_response raw = normalizer_spec raw.
Proof.
  unfold clean_response, normalizer_spec, remove_backticks, remove_marker.
  apply (replace_char _ 96%N).
Qed.

Lemma clean_response_no_backtick raw : ~ In 96%N (clean_response raw).
Proof.
  rewrite clean_response_spec. apply filter_removes.
Qed.

(** A text without backticks is left as it is. *)
Lemma clean_response_clean s : ~ In 96%N s -> clean_response s = s.
Proof.
  intros H. unfold clean_response.
  assert (F : forall sub, In 96%N sub -> Str.contains sub s = false).
  { intros sub Hs. destruct (Str.contains sub s) eqn:E; [|reflexivity].
    exfalso. apply H. apply (contains_In sub s); assumption. }
  rewrite (F json_fence) by (left; reflexivity).
  rewrite (F fence) by (left; reflexivity).
  change (py "`") with [96%N]. rewrite replace_char. apply filter_absent; exact H.
Qed.

(** C6, as amended: the normaliser of [generate_roadmap] cleans a raw
    answer as the specification words it (tagged fence: drop tagged and
    bare markers and strip; else bare fence: drop them and strip; then drop
    every backtick), and parses the cleaned text; when the parse fails,
    the exception is the decoder's and the document it carries is the
    cleaned text, or it is the [RecursionError] of an interpreter whose
    recursion limit is reached, or the [ValueError] of an integer with
    more digits than the interpreter converts, which carry no text. *)
Theorem normalizer_cleans_then_parses (python : interpreter) (raw : str) :
  clean_response raw = normalizer_spec raw
  /\ normalize python raw = json_loads python (normalizer_spec raw)
  /\ forall e, normalize python raw = inl e ->
       (exists msg pos, e = JSONDecodeError msg (clean_response raw) pos)
       \/ (exists msg,
             e = RecursionError msg
             /\ recursion_error python (clean_response raw) = Some msg)
       \/ (exists digits,
             e = Json.digits_error (int_max_str_digits python) digits
             /\ Json.too_many_digits (int_max_str_digits python) digits = true).
Proof.
  split; [apply clean_response_spec|].
  split; [unfold normalize; rewrite clean_response_spec; reflexivity|].
  intros e H. apply json_loads_error. exact H.
Qed.

Lemma normalizer_cleans_then_parses_witness :
  (exists msg pos,
     JSONDecodeError (py "Expecting value") (py "x") 0
     = JSONDecodeError msg (clean_response (py "```x")) pos)
  \/ (exists msg,
        JSONDecodeError (py "Expecting value") (py "x") 0 = RecursionError msg
        /\ recursion_error Sample.cpython (clean_response (py "```x")) = Some msg)
  \/ (exists digits,
        JSONDecodeError (py "Expecting value") (py "x") 0
        = Json.digits_error (int_max_str_digits Sample.cpython) digits
        /\ Json.too_many_digits (int_max_str_digits Sample.cpython) digits = true).
Proof.
  apply (proj2 (proj2 (normalizer_cleans_then_parses Sample.cpython (py "```x")))).
  reflexivity.
Defined.

(** C6, as stated, fails where it says that the parse error carries
    the original raw text: for the raw answer [```x] the decoder's
    exception carries the cleaned text [x]; and for an answer that is an
    integer of 4301 digits the exception is the [ValueError] of the
    conversion, which carries no text at all. *)
Lemma parse_error_carries_cleaned_text :
  (normalize Sample.cpython (py "```x")
   = inl (JSONDecodeError (py "Expecting value") (py "x") 0)
   /\ carried_doc (JSONDecodeError (py "Expecting value") (py "x") 0)
      <> Some (py "```x"))
  /\ (normalize Sample.cpython (repeat 49%N 4301)
      = inl (ValueError (py "Exceeds the limit (4300 digits) for integer string conversion: value has 4301 digits; use sys.set_int_max_str_digits() to increase the limit"))
      /\ carried_doc (Json.digits_error 4300 4301) = None).
Proof.
  split; [split; [reflexivity | discriminate]|].
  split; [vm_compute; reflexivity | reflexivity].
Qed.

(** C7, as amended: a text without any backtick is left unchanged by
    the cleaning, so it parses to the same value with and without the
    normaliser; and cleaning a cleaned text changes nothing, so
    normalising a normaliser output parses to the same value. *)
Theorem normalizer_idempotent (python : interpreter) (s : str) :
  (Str.contains (py "`") s = false ->
     clean_response s = s /\ normalize python s = json_loads python s)
  /\ clean_response (clean_response s) = clean_response s
  /\ normalize python (clean_response s) = normalize python s.
Proof.
  assert (I2 : clean_response (clean_response s) = clean_response s)
    by (apply clean_response_clean, clean_response_no_backtick).
  split; [|split; [exact I2 | unfold normalize; rewrite I2; reflexivity]].
  intros H.
  assert (C : clean_response s = s).
  { apply clean_response_clean. intros Hin.
    apply contains_char in Hin. change (py "`") with [96%N] in H. congruence. }
  split; [exact C | unfold normalize; rewrite C; reflexivity].
Qed.

Lemma normalizer_idempotent_witness :
  clean_response (pyq "{'a': 1}") = pyq "{'a': 1}"
  /\ normalize Sample.cpython (pyq "{'a': 1}")
     = json_loads Sample.cpython (pyq "{'a': 1}").
Proof.
  apply (proj1 (normalizer_idempotent Sample.cpython (pyq "{'a': 1}"))).
  reflexivity.
Defined.

(** C7, as stated, fails: a JSON text without fence markers whose string
    holds a backtick parses to another value after the normaliser. *)
Lemma backtick_in_json_string :
  Str.contains fence (pyq "'a`b'") = false
  /\ Str.contains json_fence (pyq "'a`b'") = false
  /\ json_loads Sample.cpython (pyq "'a`b'") = inr (PStr (py "a`b"))
  /\ normalize Sample.cpython (pyq "'a`b'") = inr (PStr (py "ab"))
  /\ normalize Sample.cpython (pyq "'a`b'")
     <> json_loads Sample.cpython (pyq "'a`b'").
Proof.
  repeat split; try reflexivity. discriminate.
Qed.

(** ** The quiz generator *)

Lemma range_length n : (0 <= n)%Z -> Z.of_nat (length (range n)) = n.
Proof.
  intros H. unfold range. rewrite length_map, length_seq. lia.
Qed.

Lemma range_nth n i :
  i < length (range n) -> nth_error (range n) i = Some (Z.of_nat i).
Proof.
  unfold range. rewrite length_map, length_seq. intros H.
  rewrite nth_error_map, nth_error_seq.
  destruct (Nat.ltb_spec i (Z.to_nat n)); [reflexivity | lia].
Qed.

(** The code's validation is the one the specification words. *)
Lemma validate_quiz_valid v n :
  valid_quiz v n = true -> validate_quiz v n = inr (Some v).
Proof.
  unfold valid_quiz, validate_quiz.
  destruct v as [| | | | | |d| |]; try discriminate.
  destruct (Dict.mem (py "topic") d && Dict.mem (py "difficulty") d);
    [|discriminate].
  simpl.
  destruct (Dict.get d (py "questions")) as [[| | | |q|l|e| |]|];
    try discriminate; simpl; intros ->; reflexivity.
Qed.

Lemma validate_quiz_invalid v n :
  valid_quiz v n = false ->
  validate_quiz v n = inr None \/ exists e, validate_quiz v n = inl e.
Proof.
  unfold valid_quiz, validate_quiz.
  destruct v as [| | | | | |d| |]; auto.
  destruct (Dict.mem (py "topic") d && Dict.mem (py "difficulty") d); auto.
  simpl.
  destruct (Dict.get d (py "questions")) as [[| | | |q|l|e| |]|];
    simpl; eauto; intros ->; auto.
Qed.

Lemma validate_quiz_some v n q :
  validate_quiz v n = inr (Some q) -> q = v /\ valid_quiz v n = true.
Proof.
  intros H. destruct (valid_quiz v n) eqn:E.
  - rewrite (validate_quiz_valid _ _ E) in H. inversion H; auto.
  - destruct (validate_quiz_invalid _ _ E) as [F|[e F]]; rewrite F in H; discriminate.
Qed.

Lemma hardcoded_quiz_valid topic difficulty n :
  (0 <= n)%Z -> valid_quiz (hardcoded_quiz topic difficulty n) n = true.
Proof.
  intros H. unfold valid_quiz, hardcoded_quiz.
  change ((Z.of_nat (length (map (hardcoded_question topic) (range n))) =? n)%Z = true).
  rewrite length_map, range_length by exact H. apply Z.eqb_refl.
Qed.

Lemma hardcoded_quiz_four topic difficulty n :
  (0 <= n)%Z -> n_questions_of_four (hardcoded_quiz topic difficulty n) n = true.
Proof.
  intros H. unfold n_questions_of_four, hardcoded_quiz.
  change ((Z.of_nat (length (map (hardcoded_question topic) (range n))) =? n)%Z
          && forallb four_options (map (hardcoded_question topic) (range n)) = true).
  rewrite length_map, range_length, Z.eqb_refl by exact H.
  apply forallb_forall. intros q Hq. apply in_map_iff in Hq as [i [<- _]].
  reflexivity.
Qed.

(** On a standard output that takes every message, the [try] block
    comes to the calls it makes, and [create_quiz] returns what the
    attempt let through, or the hardcoded quiz. *)
Lemma ai_generation_quiet stdout python model topic difficulty n :
  (forall text, stdout text = None) ->
  snd (ai_generation stdout python model topic difficulty n)
  = quiet_attempt python model topic difficulty n.
Proof.
  intros Q. unfold ai_generation, quiet_attempt, print, quiet, raise_if.
  rewrite !Q.
  destruct (setup model) as [e|]; [reflexivity|].
  destruct (answer model (quiz_prompt topic difficulty n)) as [e|text];
    [reflexivity|]. cbn [and_then bind].
  destruct (json_loads python (Str.strip (clean_quiz_text text))) as [e|v];
    [reflexivity|]. cbn [and_then bind].
  destruct (validate_quiz v n) as [e|[quiz|]]; reflexivity.
Qed.

Lemma create_quiz_cases stdout python model topic difficulty n :
  (forall text, stdout text = None) ->
  snd (create_quiz stdout python model topic difficulty n)
  = inr match quiet_attempt python model topic difficulty n with
        | inr (Some quiz) => quiz
        | _ => hardcoded_quiz topic difficulty n
        end.
Proof.
  intros Q. rewrite <- (ai_generation_quiet stdout python model topic difficulty n Q).
  unfold create_quiz, print, quiet. rewrite Q. cbn [and_then].
  destruct (ai_generation stdout python model topic difficulty n) as [out [e|[quiz|]]];
    cbn [try_except and_then snd]; rewrite ?Q; reflexivity.
Qed.

(** Closes a case of [create_quiz]: each message that is printed is
    one the standard output takes. *)
Ltac taken :=
  let T := fresh "T" in
  intros T;
  repeat (rewrite T by (simpl; auto 10);
          cbn [and_then try_except fst snd app]);
  reflexivity.

(** What is printed is all that the standard output has to take. *)
Lemma create_quiz_taken stdout python model topic difficulty n :
  takes stdout (progress_messages python model topic difficulty n) ->
  create_quiz stdout python model topic difficulty n
  = create_quiz (fun _ => None) python model topic difficulty n.
Proof.
  unfold takes, progress_messages, create_quiz, ai_generation, print, quiet, raise_if.
  destruct (setup model) as [e|]; cbn [and_then try_except fst snd app];
    [taken|].
  destruct (answer model (quiz_prompt topic difficulty n)) as [e|text];
    cbn [and_then try_except fst snd app]; [taken|].
  destruct (json_loads python (Str.strip (clean_quiz_text text))) as [e|v];
    cbn [and_then try_except fst snd app]; [taken|].
  destruct (validate_quiz v n) as [e|[quiz|]];
    cbn [and_then try_except fst snd app]; taken.
Qed.

(** C4, as amended: for every topic, difficulty and [n >= 0], whatever
    the generative call does, on a standard output that takes the
    progress messages of the call, [create_quiz] raises nothing and
    returns an object with [topic], [difficulty] and [questions], the
    latter of length [n]; it is either the hardcoded quiz, whose [n]
    questions have four options each, or the answer of the model that
    passed the validation, returned as it is, whose entries were not
    looked at. *)
Theorem create_quiz_total stdout python model topic difficulty n :
  (0 <= n)%Z ->
  takes stdout (progress_messages python model topic difficulty n) ->
  exists quiz,
    snd (create_quiz stdout python model topic difficulty n) = inr quiz
    /\ valid_quiz quiz n = true
    /\ ((quiz = hardcoded_quiz topic difficulty n
         /\ n_questions_of_four quiz n = true)
        \/ quiet_attempt python model topic difficulty n = inr (Some quiz)).
Proof.
  intros H T.
  rewrite (create_quiz_taken _ python model topic difficulty n T),
          (create_quiz_cases _ python model topic difficulty n (fun _ => eq_refl)).
  destruct (quiet_attempt python model topic difficulty n) as [e|[quiz|]] eqn:A.
  - eexists; split; [reflexivity|]. split; [apply hardcoded_quiz_valid; exact H|].
    left; split; [reflexivity | apply hardcoded_quiz_four; exact H].
  - exists quiz; split; [reflexivity|]. split; [|right; reflexivity].
    unfold quiet_attempt in A.
    destruct (raise_if (setup model)); [discriminate|]. cbn [bind] in A.
    destruct (answer model (quiz_prompt topic difficulty n)) as [e|text];
      [discriminate|]. cbn [bind] in A.
    destruct (json_loads python (Str.strip (clean_quiz_text text))) as [e|v];
      [discriminate|]. cbn [bind] in A.
    apply validate_quiz_some in A as [-> V]. exact V.
  - eexists; split; [reflexivity|]. split; [apply hardcoded_quiz_valid; exact H|].
    left; split; [reflexivity | apply hardcoded_quiz_four; exact H].
Qed.

Lemma create_quiz_total_witness :
  exists quiz,
    snd (create_quiz Sample.utf8 Sample.cpython Sample.two_bare_questions
                     (py "t") (py "d") 2) = inr quiz
    /\ valid_quiz quiz 2 = true
    /\ ((quiz = hardcoded_quiz (py "t") (py "d") 2
         /\ n_questions_of_four quiz 2 = true)
        \/ quiet_attempt Sample.cpython Sample.two_bare_questions (py "t") (py "d") 2
           = inr (Some quiz)).
Proof.
  assert (N : (0 <= 2)%Z) by lia.
  assert (T : takes Sample.utf8
                (progress_messages Sample.cpython Sample.two_bare_questions
                                   (py "t") (py "d") 2)).
  { intros text I. repeat (destruct I as [<-|I]; [reflexivity|]). destruct I. }
  exact (create_quiz_total Sample.utf8 Sample.cpython Sample.two_bare_questions
           (py "t") (py "d") 2 N T).
Defined.

(** C4, as stated, fails twice.  A model that answers two questions
    without options passes the validation, and [create_quiz] returns its
    answer, which has not two questions of four options.  And for a topic
    that holds a lone surrogate, the message of lines 22 and 23, which is
    printed before the [try], cannot be written to a standard output in
    UTF-8: [create_quiz] raises, having printed nothing. *)
Lemma create_quiz_unchecked_options :
  (snd (create_quiz Sample.utf8 Sample.cpython Sample.two_bare_questions
                    (py "t") (py "d") 2) = inr Sample.bare_quiz
   /\ n_questions_of_four Sample.bare_quiz 2 = false)
  /\ create_quiz Sample.utf8 Sample.cpython Sample.two_bare_questions
                 [55296%N] (py "d") 2
     = ([], inl (Raised (py "'utf-8' codec can't encode character '\ud800' in position 26: surrogates not allowed"))).
Proof.
  repeat split; reflexivity.
Qed.

(** X20: on a standard output that takes the progress messages of
    the call, when the attempt raises, in the set-up, in the call or in the parse, or the
    parsed value is not an object containing [topic], [difficulty] and
    [questions] of length [num_questions], [create_quiz] raises nothing
    and returns the hardcoded quiz: [num_questions] questions (as many as
    [range(num_questions)] has), the one at index [i] with id [i + 1],
    four options labelled A to D, and the first of them as
    [correctAnswer]. *)
Theorem create_quiz_falls_back stdout python model topic difficulty n :
  takes stdout (progress_messages python model topic difficulty n) ->
  ((exists e, setup model = Some e)
   \/ (exists e, answer model (quiz_prompt topic difficulty n) = inl e)
   \/ (exists text e,
         answer model (quiz_prompt topic difficulty n) = inr text
         /\ json_loads python (Str.strip (clean_quiz_text text)) = inl e)
   \/ (exists text v,
         answer model (quiz_prompt topic difficulty n) = inr text
         /\ json_loads python (Str.strip (clean_quiz_text text)) = inr v
         /\ valid_quiz v n = false)) ->
  exists questions,
    snd (create_quiz stdout python model topic difficulty n)
    = inr (PDict [ (py "topic", PStr topic);
                   (py "difficulty", PStr difficulty);
                   (py "questions", PList questions) ])
    /\ length questions = Z.to_nat n
    /\ ((0 <= n)%Z -> Z.of_nat (length questions) = n)
    /\ forall i, i < length questions ->
         let k := str_of_int (Z.of_nat i + 1) in
         nth_error questions i
         = Some (PDict [
             (py "id", PInt (Z.of_nat i + 1));
             (py "question",
               PStr (py "Sample question " ++ k ++ py " for " ++ topic ++ py "?"));
             (py "options",
               PList [PStr (py "Option A " ++ k); PStr (py "Option B " ++ k);
                      PStr (py "Option C " ++ k); PStr (py "Option D " ++ k)]);
             (py "correctAnswer", PStr (py "Option A " ++ k)) ]).
Proof.
  intros Q H.
  exists (map (hardcoded_question topic) (range n)).
  split; [|split; [|split]].
  - rewrite (create_quiz_taken _ python model topic difficulty n Q),
            (create_quiz_cases _ python model topic difficulty n (fun _ => eq_refl)).
    assert (A : forall quiz,
               quiet_attempt python model topic difficulty n <> inr (Some quiz)).
    { intros quiz. unfold quiet_attempt.
      destruct (setup model) as [e0|]; [discriminate|]. cbn [raise_if bind].
      destruct H as [[e H1]|[[e H1]|[(text & e & H1 & H2)|(text & v & H1 & H2 & V)]]];
        try discriminate;
        rewrite H1; cbn [bind]; try discriminate; rewrite H2; cbn [bind];
        try discriminate.
      destruct (validate_quiz_invalid _ _ V) as [F|[e F]]; rewrite F; discriminate. }
    destruct (quiet_attempt python model topic difficulty n) as [e|[quiz|]];
      [reflexivity | exfalso; apply (A quiz); reflexivity | reflexivity].
  - unfold range. rewrite !length_map, length_seq. reflexivity.
  - intros Hn. rewrite length_map. apply range_length; exact Hn.
  - intros i Hi k. rewrite length_map in Hi.
    rewrite nth_error_map, (range_nth n i Hi). reflexivity.
Qed.

Lemma create_quiz_falls_back_witness :
  exists questions,
    snd (create_quiz Sample.utf8 Sample.cpython Sample.down
                     (py "Rocq") (py "hard") 2)
    = inr (PDict [ (py "topic", PStr (py "Rocq"));
                   (py "difficulty", PStr (py "hard"));
                   (py "questions", PList questions) ])
    /\ length questions = 2
    /\ ((0 <= 2)%Z -> Z.of_nat (length questions) = 2%Z)
    /\ forall i, i < length questions ->
         let k := str_of_int (Z.of_nat i + 1) in
         nth_error questions i
         = Some (PDict [
             (py "id", PInt (Z.of_nat i + 1));
             (py "question",
               PStr (py "Sample question " ++ k ++ py " for " ++ py "Rocq" ++ py "?"));
             (py "options",
               PList [PStr (py "Option A " ++ k); PStr (py "Option B " ++ k);
                      PStr (py "Option C " ++ k); PStr (py "Option D " ++ k)]);
             (py "correctAnswer", PStr (py "Option A " ++ k)) ]).
Proof.
  assert (T : takes Sample.utf8
                (progress_messages Sample.cpython Sample.down
                                   (py "Rocq") (py "hard") 2)).
  { intros text I. repeat (destruct I as [<-|I]; [reflexivity|]). destruct I. }
  apply (create_quiz_falls_back Sample.utf8 Sample.cpython Sample.down
           (py "Rocq") (py "hard") 2 T).
  right; left. exists (Raised (py "503 Service Unavailable")). reflexivity.
Defined.

(** C5 at a failing input.  On a standard output in ASCII the first
    message of the [try] block cannot be written, so the attempt raises;
    the handler catches the exception, but its own message cannot be
    written either, and [create_quiz] raises where its docstring has it
    fall back to the hardcoded quiz. *)
Lemma create_quiz_fallback_raises :
  snd (ai_generation Sample.ascii Sample.cpython Sample.down
                     (py "Rocq") (py "hard") 2)
  = inl (Raised (py "'ascii' codec can't encode character '\U0001f916' in position 0: ordinal not in range(128)"))
  /\ create_quiz Sample.ascii Sample.cpython Sample.down (py "Rocq") (py "hard") 2
     = ([py "Creating quiz for topic: 'Rocq', difficulty: 'hard', questions: 2"],
        inl (Raised (py "'ascii' codec can't encode character '\u274c' in position 0: ordinal not in range(128)"))).
Proof.
  split; reflexivity.
Qed.

(** ** Dictionaries *)

Section DictFacts.
Variable V : Type.
Implicit Types (d : Dict.t V) (k u : str) (v : V).

Lemma get_set_same d k v : Dict.get (Dict.set d k v) k = Some v.
Proof.
  induction d as [|[k' v'] d IH]; simpl.
  - rewrite str_eqb_refl. reflexivity.
  - destruct (str_eqb k' k) eqn:E; simpl; rewrite E; [reflexivity | exact IH].
Qed.

Lemma get_set_other d k u v :
  u <> k -> Dict.get (Dict.set d k v) u = Dict.get d u.
Proof.
  intros H. induction d as [|[k' v'] d IH]; simpl.
  - rewrite str_eqb_neq by congruence. reflexivity.
  - destruct (str_eqb k' k) eqn:E; simpl.
    + apply str_eqb_eq in E; subst k'.
      rewrite str_eqb_neq by congruence. reflexivity.
    + rewrite IH. reflexivity.
Qed.

Lemma mem_set d k u v :
  Dict.mem u (Dict.set d k v) = true -> u = k \/ Dict.mem u d = true.
Proof.
  unfold Dict.mem. destruct (list_eq_dec N.eq_dec u k) as [->|N]; [auto|].
  rewrite get_set_other by exact N. auto.
Qed.

Lemma mem_pop d k u :
  Dict.mem u (Dict.pop d k) = true -> Dict.mem u d = true.
Proof.
  unfold Dict.mem. induction d as [|[k' v'] d IH]; simpl; [auto|].
  destruct (str_eqb k' k) eqn:E; simpl.
  - intros H. destruct (str_eqb k' u); [reflexivity | exact H].
  - destruct (str_eqb k' u); [reflexivity | exact IH].
Qed.

Lemma mem_pop_other d k u :
  u <> k -> Dict.mem u (Dict.pop d k) = Dict.mem u d.
Proof.
  intros H. unfold Dict.mem. induction d as [|[k' v'] d IH]; simpl; [auto|].
  destruct (str_eqb k' k) eqn:E; simpl.
  - apply str_eqb_eq in E; subst k'.
    rewrite (str_eqb_neq k u) by congruence. reflexivity.
  - destruct (str_eqb k' u); [reflexivity | exact IH].
Qed.

Lemma get_In d k v : Dict.get d k = Some v -> In (k, v) d.
Proof.
  induction d as [|[k' v'] d IH]; simpl; [discriminate|].
  destruct (str_eqb k' k) eqn:E.
  - apply str_eqb_eq in E; subst k'. intros H; inversion H; auto.
  - auto.
Qed.

End DictFacts.

(** ** The lazy reconnect touches no store *)

Lemma reconnect_stores cfg w st :
  mongo (reconnect cfg w st) = mongo st
  /\ _in_memory_roadmaps (reconnect cfg w st) = _in_memory_roadmaps st.
Proof.
  unfold reconnect. destruct (db st); [auto|].
  destruct (connect_to_mongodb cfg w); auto.
Qed.

Lemma shown_reconnect cfg w st v : shown (reconnect cfg w st) v <-> shown st v.
Proof.
  unfold shown. destruct (reconnect_stores cfg w st) as [-> ->]. tauto.
Qed.

(** ** Without the Vertex SDK *)

Lemma generate_fallback cfg w get_json req st :
  read_request get_json = inr req ->
  truth (goal req) = true -> truth (background req) = true ->
  truth (user_email req) = true -> vertexai_importable w = false ->
  generate_roadmap cfg w get_json st
  = (inr (jsonify (PDict [
            (py "roadmap", fallback w (goal req) (background req));
            (py "note", PStr (py "AI service not available; returned a basic fallback roadmap."))
          ]) 200), reconnect cfg w st).
Proof.
  intros D G B E A. unfold generate_roadmap, generate_roadmap_body.
  rewrite D, G, B, E, A. reflexivity.
Qed.

(** C8: for a valid request, when the Vertex SDK cannot be imported,
    [generate_roadmap] answers 200 with the fallback roadmap and a note;
    its nodes are [start], [fundamentals], [project] and [goal], its
    edges the chain from [start] to [goal]. *)
Theorem generate_without_vertexai cfg w get_json req st :
  read_request get_json = inr req ->
  truth (goal req) = true -> truth (background req) = true ->
  truth (user_email req) = true -> vertexai_importable w = false ->
  let roadmap := fallback w (goal req) (background req) in
  fst (generate_roadmap cfg w get_json st)
  = inr (PDict [ (py "roadmap", roadmap);
                 (py "note", PStr (py "AI service not available; returned a basic fallback roadmap.")) ],
         200)
  /\ node_ids roadmap = [py "start"; py "fundamentals"; py "project"; py "goal"]
  /\ edge_pairs roadmap
     = [ (py "start", py "fundamentals");
         (py "fundamentals", py "project");
         (py "project", py "goal") ].
Proof.
  intros D G B E A roadmap.
  rewrite (generate_fallback cfg w get_json req st D G B E A).
  repeat split.
Qed.

Lemma generate_without_vertexai_witness :
  let roadmap := fallback Sample.no_vertexai (PStr (py "Become an ML Engineer"))
                          (PStr (py "Python programmer")) in
  fst (generate_roadmap Sample.no_mongo Sample.no_vertexai (inr Sample.ml_engineer)
                        Sample.started)
  = inr (PDict [ (py "roadmap", roadmap);
                 (py "note", PStr (py "AI service not available; returned a basic fallback roadmap.")) ],
         200)
  /\ node_ids roadmap = [py "start"; py "fundamentals"; py "project"; py "goal"]
  /\ edge_pairs roadmap
     = [ (py "start", py "fundamentals");
         (py "fundamentals", py "project");
         (py "project", py "goal") ].
Proof.
  apply (generate_without_vertexai Sample.no_mongo Sample.no_vertexai
           (inr Sample.ml_engineer) Sample.ml_engineer_request Sample.started);
    reflexivity.
Defined.

(** ** What the reading handlers show is in a store *)

Lemma insert_desc_In d l x : In x (insert_desc d l) -> x = d \/ In x l.
Proof.
  induction l as [|y l IH]; simpl.
  - intros [<-|[]]; auto.
  - destruct (key_leb (created_at y) (created_at d)); simpl.
    + intros [<-|[<-|H]]; auto.
    + intros [<-|H]; [auto|]. destruct (IH H); auto.
Qed.

Lemma sort_created_desc_In l x : In x (sort_created_desc l) -> In x l.
Proof.
  induction l as [|d l IH]; simpl; [auto|].
  intros H. apply insert_desc_In in H as [->|H]; auto.
Qed.

Lemma get_user_roadmaps_shown w email st v :
  snd (get_user_roadmaps_body w email st) = 200 ->
  In v (listed (get_user_roadmaps_body w email st)) -> shown st v.
Proof.
  unfold get_user_roadmaps_body, shown.
  destruct (truthy email); simpl; [|discriminate].
  destruct (db_available w st) as [e|[|]]; cbn [bind]; [discriminate| |].
  - destruct (get_collection w); cbn [bind]; [discriminate|].
    destruct (raise_if (find_error w)); cbn [bind]; [discriminate|].
    simpl. intros _ H. apply in_map_iff in H as [d [<- H]].
    apply sort_created_desc_In, filter_In in H as [H _].
    left; exists d; auto.
  - simpl. intros _ H. apply in_map_iff in H as [r [<- H]].
    apply filter_In in H as [H _]. right; exists r; auto.
Qed.

Lemma find_in_memory_In store rid email r :
  find_in_memory store rid email = Some r -> In r (Dict.values store).
Proof.
  unfold find_in_memory. intros H. apply find_some in H as [H _]. exact H.
Qed.

Lemma get_roadmap_shown w rid email st v :
  fst (get_roadmap_by_id_body w GET rid email st) = (v, 200) -> shown st v.
Proof.
  unfold get_roadmap_by_id_body, by_id_in_mongo, by_id_in_memory, shown,
    not_found, operation_failed, error, jsonify.
  destruct (truthy (Some rid)); simpl; [|discriminate].
  destruct (truthy email); simpl; [|discriminate].
  destruct (db_available w st) as [e|[|]]; [discriminate| |].
  - destruct (get_collection w); [discriminate|].
    destruct (find_error w); simpl; [discriminate|].
    destruct (find_one _ _) as [d|] eqn:F; simpl; [|discriminate].
    intros H; inversion H; subst.
    apply find_some in F as [F _]. left; exists d; auto.
  - destruct (find_in_memory _ _ _) as [[|kv r]|] eqn:F; simpl; try discriminate.
    intros H; inversion H; subst.
    apply find_in_memory_In in F. right; eexists; split; [exact F | reflexivity].
Qed.

(** C10: on the fallback path [generate_roadmap] does nothing but the
    lazy reconnect: the collection and the in-memory mapping are as
    before, neither the body nor the fallback roadmap has an [id], and
    whatever [get_user_roadmaps] and [get_roadmap_by_id] show afterwards
    was in a store before. *)
Theorem fallback_is_not_persisted cfg w get_json req st :
  read_request get_json = inr req ->
  truth (goal req) = true -> truth (background req) = true ->
  truth (user_email req) = true -> vertexai_importable w = false ->
  let out := generate_roadmap cfg w get_json st in
  snd out = reconnect cfg w st
  /\ mongo (snd out) = mongo st
  /\ _in_memory_roadmaps (snd out) = _in_memory_roadmaps st
  /\ (exists body, fst out = inr (body, 200) /\ top_id body = None)
  /\ top_id (fallback w (goal req) (background req)) = None
  /\ (forall cfg' w' email v,
        snd (fst (get_user_roadmaps cfg' w' email (snd out))) = 200 ->
        In v (listed (fst (get_user_roadmaps cfg' w' email (snd out)))) ->
        shown st v)
  /\ (forall cfg' w' rid email v,
        fst (get_roadmap_by_id cfg' w' GET rid email (snd out)) = (v, 200) ->
        shown st v).
Proof.
  intros D G B E A out. subst out.
  rewrite (generate_fallback cfg w get_json req st D G B E A). simpl fst; simpl snd.
  destruct (reconnect_stores cfg w st) as [M R].
  repeat split; auto.
  - eexists. split; reflexivity.
  - intros cfg' w' email v S H.
    apply (shown_reconnect cfg w st), (shown_reconnect cfg' w' (reconnect cfg w st)).
    apply (get_user_roadmaps_shown w' email); assumption.
  - intros cfg' w' rid email v H.
    apply (shown_reconnect cfg w st), (shown_reconnect cfg' w' (reconnect cfg w st)).
    apply (get_roadmap_shown w' rid email). exact H.
Qed.

Lemma fallback_is_not_persisted_witness :
  let out := generate_roadmap Sample.no_mongo Sample.no_vertexai
               (inr Sample.ml_engineer) Sample.one_in_memory in
  snd out = reconnect Sample.no_mongo Sample.no_vertexai Sample.one_in_memory
  /\ mongo (snd out) = mongo Sample.one_in_memory
  /\ _in_memory_roadmaps (snd out) = _in_memory_roadmaps Sample.one_in_memory
  /\ (exists body, fst out = inr (body, 200) /\ top_id body = None)
  /\ top_id (fallback Sample.no_vertexai (PStr (py "Become an ML Engineer"))
                      (PStr (py "Python programmer"))) = None
  /\ (forall cfg' w' email v,
        snd (fst (get_user_roadmaps cfg' w' email (snd out))) = 200 ->
        In v (listed (fst (get_user_roadmaps cfg' w' email (snd out)))) ->
        shown Sample.one_in_memory v)
  /\ (forall cfg' w' rid email v,
        fst (get_roadmap_by_id cfg' w' GET rid email (snd out)) = (v, 200) ->
        shown Sample.one_in_memory v).
Proof.
  apply (fallback_is_not_persisted Sample.no_mongo Sample.no_vertexai
           (inr Sample.ml_engineer) Sample.ml_engineer_request
           Sample.one_in_memory); reflexivity.
Defined.

(** ** Where a generated roadmap is written *)

Lemma complete_members req :
  complete req = true ->
  truth (goal req) = true /\ truth (background req) = true
  /\ truth (user_email req) = true.
Proof.
  unfold complete. intros H. apply andb_prop in H as [H E].
  apply andb_prop in H as [G B]. auto.
Qed.

(** A valid request whose model answer parses is answered by the test
    of line 156 and what follows it. *)
Lemma generate_parsed cfg w get_json req st roadmap_data :
  parsed w get_json req roadmap_data ->
  let st0 := reconnect cfg w st in
  let doc := roadmap_document w req roadmap_data in
  generate_roadmap cfg w get_json st
  = match db_available w st0 with
    | inr available =>
        (inr (fst (save w roadmap_data doc available st0)),
         snd (save w roadmap_data doc available st0))
    | inl e =>
        (inr (error (py "Roadmap generation failed: " ++ str_of_exn e) 500), st0)
    end.
Proof.
  intros (D & C & A & P) st0 doc. unfold generate_roadmap, generate_roadmap_body.
  fold st0. apply complete_members in C as (G & B & E).
  rewrite D, G, B, E, A. cbn [negb orb].
  unfold model_answer in P.
  destruct (generate_content w _) as [e|text]; [discriminate|]. cbn [bind] in *.
  rewrite P. cbn [bind]. fold doc.
  destruct (db_available w st0) as [e|available]; cbn [bind]; [reflexivity|].
  destruct (save w roadmap_data doc available st0). reflexivity.
Qed.



(** ** Ownership *)

Lemma eq_str_field r k v :
  eq_str (Dict.get r k) v = true <-> str_field r k = Some v.
Proof.
  unfold eq_str, str_field.
  destruct (Dict.get r k) as [[| | | |t| | | |]|];
    try (split; discriminate).
  rewrite str_eqb_eq. split; [intros ->; reflexivity | intros H; inversion H; auto].
Qed.

Lemma existsb_str_eqb x l : existsb (str_eqb x) l = true <-> In x l.
Proof.
  rewrite existsb_exists. split.
  - intros [y [H E]]. apply str_eqb_eq in E. subst; exact H.
  - intros H. exists x. split; [exact H | apply str_eqb_refl].
Qed.

(** A query matches a field by one of its texts. *)
Lemma field_matches_texts v s : field_matches v s = true <-> In s (texts v).
Proof.
  unfold field_matches, texts.
  destruct v as [[| | | |t|l| | |]|];
    try (simpl; split; [discriminate | intros []]).
  - rewrite str_eqb_eq. simpl. split; [auto | intros [H|[]]; exact H].
  - induction l as [|x l IH]; simpl; [split; [discriminate | intros []]|].
    rewrite orb_true_iff, in_app_iff, IH.
    destruct x as [| | | |t| | | |]; simpl;
      try (split; [intros [H|H]; [discriminate | auto] | intros [[]|H]; auto]).
    rewrite str_eqb_eq. split.
    + intros [->|H]; auto.
    + intros [[->|[]]|H]; auto.
Qed.

Lemma eq_str_matches v s : eq_str v s = true -> field_matches v s = true.
Proof.
  unfold eq_str, field_matches.
  destruct v as [[| | | |t| | | |]|]; try discriminate. auto.
Qed.

Lemma str_field_texts r k s : str_field r k = Some s -> texts (Dict.get r k) = [s].
Proof.
  unfold str_field, texts.
  destruct (Dict.get r k) as [[| | | |t| | | |]|]; try discriminate.
  intros H; inversion H; reflexivity.
Qed.

Lemma record_id_identifiers r k : record_id r = Some k -> identifiers r = [k].
Proof. apply str_field_texts. Qed.

Lemma record_ids_In rs r k :
  In r rs -> In k (identifiers r) -> In k (record_ids rs).
Proof.
  intros H E. unfold record_ids. apply in_flat_map. exists r. auto.
Qed.

Lemma record_ids_has rs k :
  In k (record_ids rs) -> exists r, In r rs /\ In k (identifiers r).
Proof. unfold record_ids. intros H. apply in_flat_map in H. exact H. Qed.

Lemma record_ids_app l l' : record_ids (l ++ l') = record_ids l ++ record_ids l'.
Proof. unfold record_ids. apply flat_map_app. Qed.

Lemma distinct_NoDup l : distinct l = true <-> NoDup l.
Proof.
  induction l as [|x l IH]; simpl.
  - split; [constructor | reflexivity].
  - rewrite andb_true_iff, negb_true_iff, IH. split.
    + intros [H N]. constructor; [|exact N].
      intros I. apply existsb_str_eqb in I. congruence.
    + intros N. inversion N as [|? ? H N']; subst. split; [|exact N'].
      destruct (existsb (str_eqb x) l) eqn:E; [|reflexivity].
      apply existsb_str_eqb in E. contradiction.
Qed.

Lemma NoDup_apart (A : Type) (l l' : list A) x :
  NoDup (l ++ l') -> In x l -> In x l' -> False.
Proof.
  induction l as [|a l IH]; simpl; intros N I I'; [contradiction|].
  inversion N as [|? ? H N']; subst. destruct I as [->|I].
  - apply H. apply in_or_app. right. exact I'.
  - exact (IH N' I I').
Qed.

(** Where identifiers are distinct, an identifier names one roadmap. *)
Lemma distinct_ids_one rs r0 r k :
  distinct (record_ids rs) = true ->
  In r0 rs -> In k (identifiers r0) ->
  In r rs -> In k (identifiers r) -> r = r0.
Proof.
  intros D. apply distinct_NoDup in D. revert D.
  induction rs as [|x rs IH]; simpl; [tauto|].
  intros D H0 E0 H E.
  change (record_ids (x :: rs)) with (identifiers x ++ record_ids rs) in D.
  destruct H0 as [->|H0], H as [->|H].
  - reflexivity.
  - exfalso. apply (NoDup_apart _ _ _ k D E0). apply (record_ids_In rs r); assumption.
  - exfalso. apply (NoDup_apart _ _ _ k D E). apply (record_ids_In rs r0); assumption.
  - apply IH; try assumption. exact (NoDup_app_remove_l _ _ D).
Qed.

Lemma matches_id_owner d rid email :
  matches [(py "id", rid); (py "user_email", email)] d = true
  <-> In rid (identifiers d) /\ In email (texts (Dict.get d (py "user_email"))).
Proof.
  unfold matches, identifiers. simpl.
  rewrite andb_true_r, andb_true_iff, !field_matches_texts. tauto.
Qed.

Lemma truthy_nonempty (s : str) : s <> [] -> truthy (Some s) = true.
Proof. destruct s; [contradiction | reflexivity]. Qed.

(** The lookup of both paths finds nothing when no roadmap of the
    stores has this identifier and this owner; on the document-store
    path an exception of the driver is reported first. *)
Lemma lookup_fails w m (rid email : str) st :
  rid <> [] -> email <> [] ->
  (forall r, In r (all_records st) ->
             In rid (identifiers r) ->
             In email (texts (Dict.get r (py "user_email"))) -> False) ->
  get_roadmap_by_id_body w m rid (Some email) st = (nothing_found w st, st).
Proof.
  intros Hr He N. unfold get_roadmap_by_id_body, nothing_found.
  rewrite (truthy_nonempty rid Hr), (truthy_nonempty email He). cbn [negb text_of].
  destruct (db_available w st) as [e|[|]]; [reflexivity| |].
  - unfold by_id_in_mongo, get_collection.
    destruct (collection_error w); [reflexivity|].
    destruct (find_error w); [reflexivity|].
    destruct (find_one _ _) as [d|] eqn:E; [|reflexivity].
    exfalso. apply find_some in E as [E M].
    apply matches_id_owner in M as [M1 M2].
    apply (N (as_dict d)); [|exact M1 | exact M2].
    unfold all_records. apply in_or_app. left. apply in_map. exact E.
  - unfold by_id_in_memory.
    assert (F : find_in_memory (_in_memory_roadmaps st) rid email = None).
    { destruct (find_in_memory _ _ _) as [r|] eqn:E; [|reflexivity].
      exfalso. pose proof (find_in_memory_In _ _ _ _ E) as I.
      unfold find_in_memory in E. apply find_some in E as [_ M].
      apply andb_prop in M as [M1 M2].
      apply eq_str_field in M1, M2.
      apply (N r).
      - unfold all_records. apply in_or_app. right. exact I.
      - rewrite (record_id_identifiers _ _ M1). left; reflexivity.
      - rewrite (str_field_texts _ _ _ M2). left; reflexivity. }
    rewrite F. reflexivity.
Qed.

Lemma all_records_reconnect cfg w st :
  all_records (reconnect cfg w st) = all_records st.
Proof.
  unfold all_records. destruct (reconnect_stores cfg w st) as [-> ->]. reflexivity.
Qed.

(** C3: where identifiers are distinct, a request for the roadmap of
    [a] by its identifier, with another, non-empty email [b], is
    answered "Roadmap not found or access denied", 404, for GET and for
    DELETE, when the database answers (neither the test of the handle nor
    the driver raises), and changes no store; and, always, a request for
    an identifier that no roadmap has is answered the same. *)
Theorem ownership_isolation cfg w m (rid a b : str) (r0 : dict) st :
  rid <> [] -> b <> [] -> b <> a ->
  distinct (record_ids (all_records st)) = true ->
  In r0 (all_records st) -> record_id r0 = Some rid -> owner r0 = Some a ->
  (forall available,
     db_available w (reconnect cfg w st) = inr available ->
     collection_error w = None -> find_error w = None ->
     get_roadmap_by_id cfg w m rid (Some b) st
     = ((PDict [(py "error", PStr (py "Roadmap not found or access denied"))], 404),
        reconnect cfg w st))
  /\ forall rid',
       rid' <> [] -> ~ In rid' (record_ids (all_records st)) ->
       get_roadmap_by_id cfg w m rid' (Some b) st
       = get_roadmap_by_id cfg w m rid (Some b) st.
Proof.
  intros Hr Hb Hab D H0 E0 O0.
  pose proof (all_records_reconnect cfg w st) as R.
  assert (L : get_roadmap_by_id cfg w m rid (Some b) st
              = (nothing_found w (reconnect cfg w st), reconnect cfg w st)).
  { unfold get_roadmap_by_id. apply lookup_fails; try assumption.
    rewrite R. intros r H E O.
    assert (r = r0).
    { apply (distinct_ids_one (all_records st) r0 r rid); try assumption.
      rewrite (record_id_identifiers _ _ E0). left; reflexivity. }
    subst r. unfold owner in O0. rewrite (str_field_texts _ _ _ O0) in O.
    destruct O as [O|[]]. congruence. }
  split.
  - intros available A C F. rewrite L. unfold nothing_found.
    rewrite A, C, F. destruct available; reflexivity.
  - intros rid' Hr' N. rewrite L.
    unfold get_roadmap_by_id. apply lookup_fails; try assumption.
    rewrite R. intros r H E O. apply N. apply (record_ids_In _ r); assumption.
Qed.

Lemma ownership_isolation_witness :
  get_roadmap_by_id Sample.with_mongo (Sample.fine (py "r2")) DELETE
                    (py "r1") (Some (py "b@x.com")) Sample.one_in_mongo
  = ((PDict [(py "error", PStr (py "Roadmap not found or access denied"))], 404),
     reconnect Sample.with_mongo (Sample.fine (py "r2")) Sample.one_in_mongo).
Proof.
  assert (A : py "r1" <> []) by discriminate.
  assert (B : py "b@x.com" <> []) by discriminate.
  assert (C : py "b@x.com" <> py "a@x.com") by discriminate.
  exact (proj1 (ownership_isolation Sample.with_mongo (Sample.fine (py "r2"))
                  DELETE (py "r1") (py "a@x.com") (py "b@x.com")
                  (as_dict {| _id := py "65ec5a1f9b3e4c2d8a7f0b10";
                              fields := Sample.roadmap (py "r1") (py "a@x.com") |})
                  Sample.one_in_mongo A B C eq_refl (or_introl eq_refl)
                  eq_refl eq_refl)
               true eq_refl eq_refl eq_refl).
Defined.

(** ** Deleting *)

Section PopFacts.
Variable V : Type.
Implicit Types (d : Dict.t V) (k : str).

Lemma pop_length d k :
  In k (Dict.keys d) -> length (Dict.pop d k) + 1 = length d.
Proof.
  induction d as [|[k' v] d IH]; simpl; [tauto|].
  destruct (str_eqb k' k) eqn:E; [lia|].
  intros [->|H]; [rewrite str_eqb_refl in E; discriminate|].
  simpl. rewrite <- (IH H). lia.
Qed.

Lemma mem_keys d k : Dict.mem k d = true <-> In k (Dict.keys d).
Proof.
  unfold Dict.mem. induction d as [|[k' v] d IH]; simpl.
  - split; [discriminate | tauto].
  - destruct (str_eqb k' k) eqn:E.
    + apply str_eqb_eq in E. split; auto.
    + rewrite IH. split; [auto|].
      intros [->|H]; [rewrite str_eqb_refl in E; discriminate | exact H].
Qed.

Lemma pop_gone d k :
  NoDup (Dict.keys d) -> Dict.mem k (Dict.pop d k) = false.
Proof.
  induction d as [|[k' v] d IH]; simpl; [reflexivity|].
  intros N. inversion N as [|? ? N1 N2]; subst.
  destruct (str_eqb k' k) eqn:E.
  - apply str_eqb_eq in E; subst k'.
    destruct (Dict.mem k d) eqn:M; [|reflexivity].
    apply mem_keys in M. contradiction.
  - unfold Dict.mem in *. simpl. rewrite E. apply IH. exact N2.
Qed.

End PopFacts.

(** C9 at a failing input.  A process without a database has stored
    the roadmap [r1] of [a@x.com]; two requests delete it at the same
    time, and the other one pops it between this handler's loop and its
    [pop]: the existence check has succeeded, the [pop] of this handler
    removes nothing, and the answer is success.  On the document-store
    path, where another client deletes the stored roadmap between
    [find_one] and [delete_one], the same race is answered "Failed to
    delete roadmap", 500. *)
Lemma in_memory_delete_unchecked :
  let generation := Generate (inr Sample.ml_engineer) in
  let deletion := RoadmapById DELETE (py "r1") (Some (py "a@x.com")) in
  let in_memory :=
    snd (handle Sample.no_mongo (Sample.fine (py "r1")) generation
                (initial Sample.no_mongo (Sample.fine (py "r0")) [])) in
  let in_mongo :=
    snd (handle Sample.with_mongo (Sample.fine (py "r1")) generation
                (initial Sample.with_mongo (Sample.fine (py "r0")) [])) in
  let r :=
    in_memory_copy (Sample.fine (py "r1"))
      (roadmap_document (Sample.fine (py "r1")) Sample.ml_engineer_request
                        Sample.graph) in
  let left_by_the_other := pop_roadmap (_in_memory_roadmaps in_memory) r in
  find_in_memory (_in_memory_roadmaps in_memory) (py "r1") (py "a@x.com") = Some r
  /\ left_by_the_other = []
  /\ pop_roadmap left_by_the_other r = left_by_the_other
  /\ fst (handle Sample.no_mongo Sample.popped_meanwhile deletion in_memory)
     = inr (PDict [(py "success", PBool true);
                   (py "message", PStr (py "Roadmap deleted successfully"))],
            200)
  /\ mongo_has in_mongo (py "r1") = true
  /\ fst (handle Sample.with_mongo Sample.raced deletion in_mongo)
     = inr (PDict [(py "error", PStr (py "Failed to delete roadmap"))], 500).
Proof.
  repeat split; reflexivity.
Qed.

(** ** One store for a roadmap *)

Lemma get_as_dict_id d : Dict.get (as_dict d) (py "id") = Dict.get (fields d) (py "id").
Proof. reflexivity. Qed.

Lemma delete_one_In coll filter d :
  In d (fst (delete_one coll filter)) -> In d coll.
Proof.
  induction coll as [|x coll IH]; [simpl; auto|].
  cbn [delete_one].
  destruct (matches filter (as_dict x)); [simpl; auto|].
  destruct (delete_one coll filter) as [rest n]; simpl in *.
  intros [->|H]; auto.
Qed.

(** Deleting by another identifier leaves the roadmaps of [u]. *)
Lemma delete_one_other coll (rid email u : str) :
  rid <> u ->
  existsb (fun d => eq_str (Dict.get (fields d) (py "id")) u)
          (fst (delete_one coll [(py "id", rid); (py "user_email", email)]))
  = existsb (fun d => eq_str (Dict.get (fields d) (py "id")) u) coll.
Proof.
  intros N. induction coll as [|x coll IH]; [reflexivity|].
  cbn [delete_one].
  destruct (matches [(py "id", rid); (py "user_email", email)] (as_dict x)) eqn:M.
  - cbn [fst existsb].
    apply matches_id_owner in M as [M _]. unfold identifiers in M.
    rewrite get_as_dict_id in M. unfold eq_str at 2.
    destruct (Dict.get (fields x) (py "id")) as [[| | | |t| | | |]|];
      try reflexivity.
    destruct M as [M|[]]. subst t. rewrite str_eqb_neq by exact N. reflexivity.
  - destruct (delete_one coll [(py "id", rid); (py "user_email", email)])
      as [rest n].
    cbn [fst existsb] in *. rewrite IH. reflexivity.
Qed.

Lemma existsb_incl {A : Type} (f : A -> bool) (l l' : list A) :
  (forall x, In x l -> In x l') -> existsb f l = true -> existsb f l' = true.
Proof.
  intros I H. apply existsb_exists in H as [x [H F]].
  apply existsb_exists. exists x. auto.
Qed.

(** Closes a branch of a handler that returns with both stores as the
    reconnect left them. *)
Ltac untouched M R := simpl; rewrite M, R; auto.

(** The stores after lines 156 to 180: the collection as it was, or
    with one more document, of the generated identifier; the mapping as it
    was, or with a roadmap set under the generated identifier. *)
Lemma save_stores w req roadmap_data available st :
  let st' := snd (save w roadmap_data (roadmap_document w req roadmap_data)
                       available st) in
  (mongo st' = mongo st
   \/ exists d, mongo st' = mongo st ++ [d]
                /\ eq_str (Dict.get (fields d) (py "id")) (uuid4 w) = true)
  /\ (_in_memory_roadmaps st' = _in_memory_roadmaps st
      \/ exists r, _in_memory_roadmaps st'
                   = Dict.set (_in_memory_roadmaps st) (uuid4 w) r).
Proof.
  unfold save, get_collection, insert_one, saved_with_warning, store_in_memory.
  assert (I : eq_str (Dict.get (stored_fields (roadmap_document w req roadmap_data))
                               (py "id")) (uuid4 w) = true).
  { simpl. apply str_eqb_refl. }
  destruct available; cbn.
  - destruct (collection_error w); cbn.
    + split; [auto | right; eexists; reflexivity].
    + destruct (insert_error w); cbn.
      * destruct (insert_applied w); cbn;
          (split; [|right; eexists; reflexivity]); [right|left; reflexivity].
        eexists; split; [reflexivity | exact I].
      * split; [right; eexists; split; [reflexivity | exact I] | auto].
  - split; [auto | right; eexists; reflexivity].
Qed.

Lemma generate_stores cfg w get_json st :
  let st' := snd (generate_roadmap cfg w get_json st) in
  (mongo st' = mongo st
   \/ exists d, mongo st' = mongo st ++ [d]
                /\ eq_str (Dict.get (fields d) (py "id")) (uuid4 w) = true)
  /\ (_in_memory_roadmaps st' = _in_memory_roadmaps st
      \/ exists r, _in_memory_roadmaps st'
                   = Dict.set (_in_memory_roadmaps st) (uuid4 w) r).
Proof.
  destruct (reconnect_stores cfg w st) as [M R].
  unfold generate_roadmap, generate_roadmap_body.
  destruct (read_request get_json) as [e|req]; [untouched M R|].
  destruct (negb (truth (goal req)) || negb (truth (background req)));
    [untouched M R|].
  destruct (negb (truth (user_email req))); [untouched M R|].
  destruct (negb (vertexai_importable w)); [untouched M R|].
  destruct (generate_content w _) as [e|text]; [untouched M R|].
  cbn [bind]. destruct (normalize (python w) text) as [e|data]; [untouched M R|].
  cbn [bind]. destruct (db_available w (reconnect cfg w st)) as [e|available];
    [untouched M R|].
  cbn [bind].
  pose proof (save_stores w req data available (reconnect cfg w st)) as S.
  cbv zeta in S. rewrite M, R in S.
  destruct (save w data (roadmap_document w req data) available (reconnect cfg w st)).
  exact S.
Qed.

(** The stores after the generation of a roadmap whose model answer
    parses, when the test of the handle does not raise and a write that
    raised was not applied: the document is appended to the collection,
    or set in the mapping under the generated identifier. *)
Lemma generate_parsed_stores cfg w get_json req st roadmap_data available :
  parsed w get_json req roadmap_data ->
  db_available w (reconnect cfg w st) = inr available ->
  (insert_error w = None \/ insert_applied w = false) ->
  let st1 := snd (generate_roadmap cfg w get_json st) in
  (mongo st1
   = mongo st ++ [{| _id := new_object_id w;
                     fields := stored_fields (roadmap_document w req roadmap_data) |}]
   /\ _in_memory_roadmaps st1 = _in_memory_roadmaps st)
  \/ (mongo st1 = mongo st
      /\ exists r, _in_memory_roadmaps st1
                   = Dict.set (_in_memory_roadmaps st) (uuid4 w) r).
Proof.
  intros P D L st1. subst st1.
  rewrite (generate_parsed cfg w get_json req st roadmap_data P), D.
  destruct (reconnect_stores cfg w st) as [M R].
  unfold save, get_collection, insert_one, saved_with_warning, store_in_memory.
  destruct available; cbn.
  - destruct (collection_error w); cbn.
    + rewrite M, R. right. split; [reflexivity | eexists; reflexivity].
    + destruct (insert_error w) as [e|]; cbn.
      * destruct L as [L|L]; [discriminate|]. rewrite L. cbn. rewrite M, R.
        right. split; [reflexivity | eexists; reflexivity].
      * rewrite M, R. left. auto.
  - rewrite M, R. right. split; [reflexivity | eexists; reflexivity].
Qed.

(** The stores after [get_roadmap_by_id]: as they were, or, for a
    DELETE, the collection after one or two [delete_one] with the filter
    of the request, or the mapping after the pop of the identifier. *)
Lemma by_id_stores cfg w m (rid : str) email st :
  let st' := snd (get_roadmap_by_id cfg w m rid email st) in
  let filter := [(py "id", rid); (py "user_email", text_of email)] in
  (mongo st' = mongo st
   \/ m = DELETE
      /\ (mongo st' = fst (delete_one (mongo st) filter)
          \/ mongo st' = fst (delete_one (fst (delete_one (mongo st) filter)) filter)))
  /\ (_in_memory_roadmaps st' = _in_memory_roadmaps st
      \/ m = DELETE
         /\ (_in_memory_roadmaps st' = Dict.pop (_in_memory_roadmaps st) rid
             \/ _in_memory_roadmaps st'
                = Dict.pop (Dict.pop (_in_memory_roadmaps st) rid) rid)).
Proof.
  destruct (reconnect_stores cfg w st) as [M R].
  unfold get_roadmap_by_id, get_roadmap_by_id_body. cbv zeta.
  set (filter := [(py "id", rid); (py "user_email", text_of email)]).
  set (st0 := reconnect cfg w st) in *.
  destruct (negb (truthy (Some rid))); [untouched M R|].
  destruct (negb (truthy email)); [untouched M R|].
  destruct (db_available w st0) as [e|[|]]; [untouched M R| |].
  - unfold by_id_in_mongo. fold filter.
    destruct (get_collection w); [untouched M R|].
    destruct (find_error w); [untouched M R|].
    destruct (find_one (mongo st0) filter); [|untouched M R].
    destruct m; [untouched M R|].
    rewrite M. cbv zeta.
    assert (K : forall coll,
              let out :=
                let (coll', deleted_count) := delete_one coll filter in
                match delete_error w with
                | Some e =>
                    (operation_failed e,
                     with_mongo st0 (if delete_applied w then coll' else coll))
                | None =>
                    if 0 <? deleted_count then (deleted, with_mongo st0 coll')
                    else (error (py "Failed to delete roadmap") 500,
                          with_mongo st0 coll')
                end in
              (mongo (snd out) = fst (delete_one coll filter)
               \/ mongo (snd out) = coll)
              /\ _in_memory_roadmaps (snd out) = _in_memory_roadmaps st).
    { intros coll. cbv zeta. destruct (delete_one coll filter) as [coll' n].
      destruct (delete_error w).
      - destruct (delete_applied w); simpl; auto.
      - destruct (0 <? n); simpl; auto. }
    cbv zeta in K.
    destruct (delete_raced w).
    + destruct (K (fst (delete_one (mongo st) filter))) as [[K1|K1] K2];
        rewrite K1, K2; auto.
    + destruct (K (mongo st)) as [[K1|K1] K2]; rewrite K1, K2; auto.
  - unfold by_id_in_memory.
    destruct (find_in_memory _ _ _) as [[|kv r]|] eqn:F;
      try (untouched M R).
    destruct m; [untouched M R|].
    unfold find_in_memory in F. apply find_some in F as [_ F].
    apply andb_prop in F as [F _]. apply eq_str_field in F.
    assert (P : forall store, pop_roadmap store (kv :: r) = Dict.pop store rid).
    { intros store. unfold pop_roadmap. unfold str_field in F.
      destruct (Dict.get (kv :: r) (py "id")) as [[| | | |t| | | |]|];
        try discriminate.
      inversion F; reflexivity. }
    rewrite !P. simpl. rewrite M, R. split; [auto | right; split; [reflexivity|]].
    destruct (memory_raced w); auto.
Qed.

(** The stores after any request: those after the handler it is routed
    to, or as they were. *)
Lemma handle_cases cfg w r st :
  (exists get_json,
     r = Generate get_json
     /\ snd (handle cfg w r st) = snd (generate_roadmap cfg w get_json st))
  \/ snd (handle cfg w r st) = reconnect cfg w st
  \/ snd (handle cfg w r st) = st
  \/ (exists m rid email,
        r = RoadmapById m rid email
        /\ snd (handle cfg w r st) = snd (get_roadmap_by_id cfg w m rid email st)).
Proof.
  destruct r as [get_json|email|m rid email]; cbn [handle].
  - left. eauto.
  - right; left. reflexivity.
  - destruct (negb (is_segment rid)); [right; right; left; reflexivity|].
    destruct m.
    + destruct (str_eqb rid (py "user")); [right; left; reflexivity|].
      right; right; right. eauto.
    + right; right; right. eauto.
Qed.

(** No request but a generation that draws [u] puts a roadmap [u] into
    a store. *)
Lemma handle_no_gain cfg w r st u :
  uuid4 w <> u ->
  (mongo_has (snd (handle cfg w r st)) u = true -> mongo_has st u = true)
  /\ (memory_has (snd (handle cfg w r st)) u = true -> memory_has st u = true).
Proof.
  intros N. unfold mongo_has, memory_has.
  destruct (handle_cases cfg w r st)
    as [(get_json & _ & ->)|[->|[->|(m & rid & email & _ & ->)]]].
  - destruct (generate_stores cfg w get_json st) as [[->|[d [-> D]]] [->|[r' ->]]];
      try (split; auto; fail).
    + split; [auto|]. intros H. apply mem_set in H as [H|H]; [congruence | exact H].
    + split; [|auto]. rewrite existsb_app. simpl. rewrite orb_false_r.
      intros H. apply orb_prop in H as [H|H]; [exact H|].
      exfalso. apply N. apply eq_str_field in D, H. congruence.
    + split.
      * rewrite existsb_app. simpl. rewrite orb_false_r.
        intros H. apply orb_prop in H as [H|H]; [exact H|].
        exfalso. apply N. apply eq_str_field in D, H. congruence.
      * intros H. apply mem_set in H as [H|H]; [congruence | exact H].
  - destruct (reconnect_stores cfg w st) as [-> ->]. auto.
  - auto.
  - destruct (by_id_stores cfg w m rid email st) as [Hm Hr]. split.
    + destruct Hm as [->|[_ [->| ->]]]; [auto | |];
        apply existsb_incl; intros x Hx;
        repeat apply delete_one_In in Hx; exact Hx.
    + destruct Hr as [->|[_ [->| ->]]]; [auto | apply mem_pop |].
      intros H. apply mem_pop, mem_pop in H. exact H.
Qed.

Lemma run_no_gain cfg trace : forall st u,
  forallb (fun wr => negb (str_eqb (uuid4 (fst wr)) u)) trace = true ->
  (mongo_has (run cfg trace st) u = true -> mongo_has st u = true)
  /\ (memory_has (run cfg trace st) u = true -> memory_has st u = true).
Proof.
  induction trace as [|[w r] trace IH]; intros st u F; simpl; [auto|].
  simpl in F. apply andb_prop in F as [N F]. apply negb_true_iff in N.
  assert (N' : uuid4 w <> u).
  { intros E. rewrite E, str_eqb_refl in N. discriminate. }
  destruct (IH (snd (handle cfg w r st)) u F) as [A B].
  destruct (handle_no_gain cfg w r st u N') as [C D].
  split; auto.
Qed.

(** Only the DELETE of [u] takes the roadmaps of [u] out of a store. *)
Lemma handle_loss cfg w r st u :
  (mongo_has st u = true /\ mongo_has (snd (handle cfg w r st)) u = false)
  \/ (memory_has st u = true /\ memory_has (snd (handle cfg w r st)) u = false) ->
  exists email, r = RoadmapById DELETE u email.
Proof.
  unfold mongo_has, memory_has.
  destruct (handle_cases cfg w r st)
    as [(get_json & _ & ->)|[->|[->|(m & rid & email & -> & ->)]]].
  - destruct (generate_stores cfg w get_json st) as [Hm Hr].
    intros [[A B]|[A B]]; exfalso.
    + destruct Hm as [E|[d [E _]]]; rewrite E in B; [congruence|].
      rewrite existsb_app, A in B. discriminate.
    + destruct Hr as [E|[r' E]]; rewrite E in B; [congruence|].
      destruct (list_eq_dec N.eq_dec u (uuid4 w)) as [->|N'].
      * unfold Dict.mem in B. rewrite get_set_same in B. discriminate.
      * unfold Dict.mem in A, B. rewrite get_set_other in B by exact N'. congruence.
  - destruct (reconnect_stores cfg w st) as [-> ->].
    intros [[A B]|[A B]]; congruence.
  - intros [[A B]|[A B]]; congruence.
  - destruct (by_id_stores cfg w m rid email st) as [Hm Hr].
    destruct (list_eq_dec N.eq_dec rid u) as [->|N'].
    + intros [[A B]|[A B]].
      * destruct Hm as [E|[-> _]]; [rewrite E in B; congruence | eauto].
      * destruct Hr as [E|[-> _]]; [rewrite E in B; congruence | eauto].
    + intros [[A B]|[A B]]; exfalso.
      * destruct Hm as [E|[_ [E|E]]]; rewrite E in B;
          rewrite ?delete_one_other in B by exact N'; congruence.
      * destruct Hr as [E|[_ [E|E]]]; rewrite E in B; [congruence| |];
          rewrite ?mem_pop_other in B by congruence; congruence.
Qed.

(** C2, as amended: a roadmap that a successful [generate_roadmap]
    creates under a fresh identifier is, right after, in exactly one of
    the collection and the in-memory mapping, provided that a write which
    raised was not applied by the database; as long as no later
    generation draws the same identifier, no request puts it into a
    store, so it is never in both and never moves from one to the other;
    and the one request that takes it out of its store is the DELETE of
    this identifier. *)
Theorem one_store_for_life cfg w get_json req st roadmap_data available :
  parsed w get_json req roadmap_data ->
  db_available w (reconnect cfg w st) = inr available ->
  (insert_error w = None \/ insert_applied w = false) ->
  mongo_has st (uuid4 w) = false -> memory_has st (uuid4 w) = false ->
  let u := uuid4 w in
  let st1 := snd (generate_roadmap cfg w get_json st) in
  xorb (mongo_has st1 u) (memory_has st1 u) = true
  /\ (forall trace,
        forallb (fun wr => negb (str_eqb (uuid4 (fst wr)) u)) trace = true ->
        let st2 := run cfg trace st1 in
        (mongo_has st2 u = true -> mongo_has st1 u = true)
        /\ (memory_has st2 u = true -> memory_has st1 u = true)
        /\ mongo_has st2 u && memory_has st2 u = false)
  /\ (forall w' r st',
        (mongo_has st' u = true /\ mongo_has (snd (handle cfg w' r st')) u = false)
        \/ (memory_has st' u = true
            /\ memory_has (snd (handle cfg w' r st')) u = false) ->
        exists email, r = RoadmapById DELETE u email).
Proof.
  intros P D L Fm Fr u st1.
  assert (X : xorb (mongo_has st1 u) (memory_has st1 u) = true).
  { destruct (generate_parsed_stores cfg w get_json req st roadmap_data available
                P D L)
      as [[Hm Hr]|[Hm [r Hr]]];
      fold st1 in Hm, Hr; unfold mongo_has, memory_has in *;
      rewrite Hm, Hr.
    - rewrite existsb_app. simpl. rewrite str_eqb_refl, orb_true_r.
      fold u in Fr. rewrite Fr. reflexivity.
    - fold u in Fm. rewrite Fm. unfold Dict.mem. subst u.
      rewrite get_set_same. reflexivity. }
  split; [exact X|]. split.
  - intros trace F st2. destruct (run_no_gain cfg trace st1 u F) as [Hm Hr].
    fold st2 in Hm, Hr. repeat split; auto.
    destruct (mongo_has st2 u) eqn:M2; [|reflexivity].
    destruct (memory_has st2 u) eqn:R2; [|reflexivity].
    rewrite (Hm eq_refl), (Hr eq_refl) in X. discriminate.
  - intros w' r st'. apply handle_loss.
Qed.

Lemma one_store_for_life_witness :
  let st1 := snd (generate_roadmap Sample.with_mongo (Sample.fine (py "r1"))
                                   (inr Sample.ml_engineer) Sample.started) in
  let st2 := run Sample.with_mongo Sample.later st1 in
  xorb (mongo_has st1 (py "r1")) (memory_has st1 (py "r1")) = true
  /\ mongo_has st2 (py "r1") && memory_has st2 (py "r1") = false.
Proof.
  assert (P : parsed (Sample.fine (py "r1")) (inr Sample.ml_engineer)
                     Sample.ml_engineer_request Sample.graph)
    by (repeat split; reflexivity).
  destruct (one_store_for_life Sample.with_mongo (Sample.fine (py "r1"))
              (inr Sample.ml_engineer) Sample.ml_engineer_request Sample.started
              Sample.graph true P eq_refl (or_introl eq_refl) eq_refl eq_refl)
    as (X & L & _).
  split; [exact X|].
  destruct (L Sample.later) as (_ & _ & Z); [reflexivity | exact Z].
Defined.

(** C2, as stated, fails: when [insert_one] raises after the database
    has applied the write, as when the connection is lost before the
    reply, the roadmap is in the collection and the handler sets it in the
    mapping too; the answer is 200. *)
Lemma generate_in_both_stores :
  let out := generate_roadmap Sample.with_mongo (Sample.reply_lost (py "r1"))
               (inr Sample.ml_engineer) Sample.started in
  status out = Some 200
  /\ mongo_has (snd out) (py "r1") = true
  /\ memory_has (snd out) (py "r1") = true.
Proof.
  repeat split; reflexivity.
Qed.

(** ** The scenarios of the specification *)

Example normalize_fenced :
  normalize Sample.cpython (lines [py "```json"; pyq "{'a':1}"; py "```"])
  = inr (PDict [(py "a", PInt 1)]).
Proof. reflexivity. Qed.

Example normalize_bare_fence :
  normalize Sample.cpython (lines [py "```"; pyq "[true, null, 'x']"; py "```"])
  = inr (PList [PBool true; PNone; PStr (py "x")]).
Proof. reflexivity. Qed.

Example parse_failure_message :
  fst (generate_roadmap Sample.no_mongo
         (Sample.world false true (inr (py "```x")) (py "r1") None false)
         (inr Sample.ml_engineer) Sample.started)
  = inr (PDict [(py "error",
                 PStr (py "Roadmap generation failed: Expecting value: line 1 column 1 (char 0)"))],
         500).
Proof. reflexivity. Qed.

Example delete_then_get :
  let w := Sample.fine (py "r2") in
  let owner := Some (py "a@x.com") in
  let (answer, st) :=
    get_roadmap_by_id Sample.no_mongo w DELETE (py "r1") owner Sample.one_in_memory in
  answer = deleted
  /\ fst (get_roadmap_by_id Sample.no_mongo w GET (py "r1") owner st) = not_found.
Proof. split; reflexivity. Qed.

Example generated_then_listed :
  let st := snd (generate_roadmap Sample.no_mongo (Sample.fine (py "r1"))
                                  (inr Sample.ml_engineer) Sample.started) in
  match get_user_roadmaps Sample.no_mongo (Sample.fine (py "r2"))
                          (Some (py "a@x.com")) st with
  | ((PList [PDict r], 200), _) => record_id r = Some (py "r1")
  | _ => False
  end.
Proof. reflexivity. Qed.

(** A body that is not an object is not caught by the handler. *)
Example body_is_a_list :
  fst (generate_roadmap Sample.no_mongo (Sample.fine (py "r1"))
                        (inr (PList [])) Sample.started)
  = inl (AttributeError (py "'list' object has no attribute 'get'")).
Proof. reflexivity. Qed.

(** With a driver whose handles refuse the truth test, a connected
    service answers 500 to a valid request and stores nothing. *)
Example handle_refuses_bool :
  generate_roadmap Sample.with_mongo (Sample.pymongo4 (py "r1"))
                   (inr Sample.ml_engineer) Sample.one_in_mongo
  = (inr (PDict [(py "error",
                  PStr (py "Roadmap generation failed: Database objects do not implement truth value testing or bool(). Please compare with None instead: database is not None"))],
          500),
     Sample.one_in_mongo).
Proof. reflexivity. Qed.

(** [GET /api/roadmap/user] is the listing. *)
Example user_is_the_listing :
  fst (handle Sample.no_mongo (Sample.fine (py "r2"))
              (RoadmapById GET (py "user") (Some (py "a@x.com")))
              Sample.one_in_memory)
  = inr (PList [PDict (Sample.roadmap (py "r1") (py "a@x.com"))], 200).
Proof. reflexivity. Qed.

Example isoformat_noon : isoformat Sample.noon = py "2025-03-09T12:00:05.004321".
Proof. reflexivity. Qed.

Example stored_noon :
  stored (PDatetime Sample.noon)
  = PDatetime {| year := 2025; month := 3; day := 9;
                 hour := 12; minute := 0; second := 5; microsecond := 4000 |}.
Proof. reflexivity. Qed.

Example hardcoded_quiz_of_two :
  create_quiz Sample.utf8 Sample.cpython Sample.down (py "Rocq") (py "hard") 2
  = ([ py "Creating quiz for topic: 'Rocq', difficulty: 'hard', questions: 2";
       robot :: py " Attempting AI generation...";
       arrows :: py " Sending request to AI model...";
       cross_mark :: py " AI generation failed: 503 Service Unavailable";
       arrows :: py " Using hardcoded quiz" ],
     inr (PDict [
      (py "topic", PStr (py "Rocq"));
      (py "difficulty", PStr (py "hard"));
      (py "questions", PList [
         PDict [ (py "id", PInt 1);
                 (py "question", PStr (py "Sample question 1 for Rocq?"));
                 (py "options", PList [PStr (py "Option A 1"); PStr (py "Option B 1");
                                       PStr (py "Option C 1"); PStr (py "Option D 1")]);
                 (py "correctAnswer", PStr (py "Option A 1")) ];
         PDict [ (py "id", PInt 2);
                 (py "question", PStr (py "Sample question 2 for Rocq?"));
                 (py "options", PList [PStr (py "Option A 2"); PStr (py "Option B 2");
                                       PStr (py "Option C 2"); PStr (py "Option D 2")]);
                 (py "correctAnswer", PStr (py "Option A 2")) ] ]) ])).
Proof. reflexivity. Qed.

Example quiz_for_minus_one :
  snd (create_quiz Sample.utf8 Sample.cpython Sample.down
                   (py "Rocq") (py "hard") (-1))
  = inr (PDict [ (py "topic", PStr (py "Rocq"));
                 (py "difficulty", PStr (py "hard"));
                 (py "questions", PList []) ]).
Proof. reflexivity. Qed.

(** * Further properties *)

(** ** The status of a generation *)


(** ** A request that fails changes nothing *)

Lemma find_one_deleted coll filter d :
  find_one coll filter = Some d -> snd (delete_one coll filter) = 1.
Proof.
  unfold find_one. induction coll as [|x coll IH]; simpl; [discriminate|].
  destruct (matches filter (as_dict x)); [reflexivity|].
  intros H. apply IH in H. destruct (delete_one coll filter). exact H.
Qed.




(** ** The connection *)

Lemma save_globals w data doc available st :
  db (snd (save w data doc available st)) = db st
  /\ collection_name (snd (save w data doc available st)) = collection_name st.
Proof.
  unfold save, saved_with_warning, insert_one, store_in_memory.
  destruct available; [|auto].
  destruct (get_collection w); [auto|].
  destruct (insert_error w); [|auto].
  destruct (insert_applied w); auto.
Qed.

(** A handler leaves the globals as the lazy reconnect set them; a
    request without a route leaves the state as it was. *)
Lemma handle_globals cfg w r st :
  (db (snd (handle cfg w r st)) = db (reconnect cfg w st)
   /\ collection_name (snd (handle cfg w r st))
      = collection_name (reconnect cfg w st))
  \/ snd (handle cfg w r st) = st.
Proof.
  assert (B : forall m rid email,
            db (snd (get_roadmap_by_id cfg w m rid email st))
            = db (reconnect cfg w st)
            /\ collection_name (snd (get_roadmap_by_id cfg w m rid email st))
               = collection_name (reconnect cfg w st)).
  { intros m rid email.
    unfold get_roadmap_by_id, get_roadmap_by_id_body. cbv zeta.
    destruct (negb (truthy (Some rid))); [auto|].
    destruct (negb (truthy email)); [auto|].
    destruct (db_available w (reconnect cfg w st)) as [e|[|]]; [auto| |].
    - unfold by_id_in_mongo.
      destruct (get_collection w); [auto|].
      destruct (find_error w); [auto|].
      destruct (find_one _ _); [|auto].
      destruct m; [auto|].
      destruct (delete_one _ _) as [coll' n].
      destruct (delete_error w); [auto|]. destruct (0 <? n); auto.
    - unfold by_id_in_memory.
      destruct (find_in_memory _ _ _) as [[|kv r']|]; auto.
      destruct m; auto. }
  destruct r as [get_json|email|m rid email]; cbn [handle].
  - left. unfold generate_roadmap, generate_roadmap_body.
    destruct (read_request get_json) as [e|req]; [auto|].
    destruct (negb (truth (goal req)) || negb (truth (background req)));
      [auto|].
    destruct (negb (truth (user_email req))); [auto|].
    destruct (negb (vertexai_importable w)); [auto|].
    destruct (generate_content w _) as [e|text]; [auto|].
    cbn [bind]. destruct (normalize (python w) text) as [e|data]; [auto|].
    cbn [bind]. destruct (db_available w (reconnect cfg w st)) as [e|available];
      [auto|].
    cbn [bind].
    pose proof (save_globals w data (roadmap_document w req data) available
                  (reconnect cfg w st)) as S.
    destruct (save w data _ available (reconnect cfg w st)). exact S.
  - left. auto.
  - destruct (negb (is_segment rid)); [right; reflexivity|]. left.
    destruct m; [|apply B].
    destruct (str_eqb rid (py "user")); [auto | apply B].
Qed.

Lemma reconnect_connected cfg w st : db st <> None -> reconnect cfg w st = st.
Proof.
  unfold reconnect. destruct (db st); [reflexivity | contradiction].
Qed.

(** The handle, once set, stays, with its collection name. *)
Lemma handle_stays_connected cfg w r st :
  db st <> None ->
  db (snd (handle cfg w r st)) = db st
  /\ collection_name (snd (handle cfg w r st)) = collection_name st.
Proof.
  intros D. destruct (handle_globals cfg w r st) as [[Hd Hc]| ->]; [|auto].
  rewrite (reconnect_connected cfg w st D) in Hd, Hc. auto.
Qed.

Lemma run_stays_connected cfg trace : forall st,
  db st <> None ->
  db (run cfg trace st) = db st
  /\ collection_name (run cfg trace st) = collection_name st.
Proof.
  induction trace as [|[w r] trace IH]; intros st D; simpl; [auto|].
  destruct (handle_stays_connected cfg w r st D) as [Hd Hc].
  destruct (IH (snd (handle cfg w r st))) as [A B]; [congruence|].
  split; congruence.
Qed.

Lemma unconfigured_connect cfg w :
  configured cfg = false -> connect_to_mongodb cfg w = (None, None).
Proof.
  unfold configured, connect_to_mongodb. intros H.
  apply andb_false_iff in H as [-> | ->]; simpl; [reflexivity|].
  rewrite orb_true_r. reflexivity.
Qed.

(** Without a handle a handler does not touch the collection. *)
Lemma handle_without_handle cfg w r st :
  db (reconnect cfg w st) = None -> mongo (snd (handle cfg w r st)) = mongo st.
Proof.
  intros D. destruct (reconnect_stores cfg w st) as [M _].
  assert (A : db_available w (reconnect cfg w st) = inr false)
    by (unfold db_available; rewrite D; reflexivity).
  assert (B : forall m rid email,
            mongo (snd (get_roadmap_by_id cfg w m rid email st)) = mongo st).
  { intros m rid email.
    unfold get_roadmap_by_id, get_roadmap_by_id_body. cbv zeta. rewrite A.
    destruct (negb (truthy (Some rid))); [auto|].
    destruct (negb (truthy email)); [auto|].
    unfold by_id_in_memory.
    destruct (find_in_memory _ _ _) as [[|kv r']|]; auto.
    destruct m; auto. }
  destruct r as [get_json|email|m rid email]; cbn [handle].
  - unfold generate_roadmap, generate_roadmap_body. rewrite A.
    destruct (read_request get_json) as [e|req]; [auto|].
    destruct (negb (truth (goal req)) || negb (truth (background req)));
      [auto|].
    destruct (negb (truth (user_email req))); [auto|].
    destruct (negb (vertexai_importable w)); [auto|].
    destruct (generate_content w _) as [e|text]; [auto|].
    cbn [bind]. destruct (normalize (python w) text) as [e|data]; auto.
  - auto.
  - destruct (negb (is_segment rid)); [reflexivity|].
    destruct m; [|apply B].
    destruct (str_eqb rid (py "user")); [auto | apply B].
Qed.

(** X3: when [MONGODB_URI] or [MONGODB_DB_NAME] is unset or empty, the
    service never gets a database handle and never touches the
    collection: after any sequence of requests [db] is [None] and the
    collection is as it was when the process started. *)
Theorem unconfigured_never_connects cfg w0 coll trace :
  configured cfg = false ->
  db (run cfg trace (initial cfg w0 coll)) = None
  /\ mongo (run cfg trace (initial cfg w0 coll)) = coll.
Proof.
  intros U.
  assert (G : forall st, db st = None ->
                db (run cfg trace st) = None /\ mongo (run cfg trace st) = mongo st).
  { induction trace as [|[w r] trace IH]; intros st D; simpl; [auto|].
    assert (D' : db (reconnect cfg w st) = None).
    { unfold reconnect. rewrite D, (unconfigured_connect cfg w U). reflexivity. }
    assert (Hd : db (snd (handle cfg w r st)) = None).
    { destruct (handle_globals cfg w r st) as [[Hd _]| ->]; congruence. }
    destruct (IH _ Hd) as [A B]. split; [exact A|].
    rewrite B. apply handle_without_handle. exact D'. }
  unfold initial. rewrite (unconfigured_connect cfg w0 U). apply G. reflexivity.
Qed.

Lemma unconfigured_never_connects_witness :
  db (run Sample.no_mongo Sample.later
          (initial Sample.no_mongo (Sample.fine (py "r0")) (mongo Sample.one_in_mongo)))
  = None
  /\ mongo (run Sample.no_mongo Sample.later
                (initial Sample.no_mongo (Sample.fine (py "r0"))
                         (mongo Sample.one_in_mongo)))
     = mongo Sample.one_in_mongo.
Proof.
  apply (unconfigured_never_connects Sample.no_mongo (Sample.fine (py "r0"))
           (mongo Sample.one_in_mongo) Sample.later).
  reflexivity.
Defined.

(** ** Routing *)

Lemma is_segment_nonempty (path : str) : is_segment path = true -> path <> [].
Proof. destruct path; [discriminate | discriminate]. Qed.

(** A segment other than [user] is a roadmap identifier for both
    methods. *)
Lemma handle_by_id cfg w m (rid : str) email st :
  is_segment rid = true -> rid <> py "user" ->
  handle cfg w (RoadmapById m rid email) st
  = answered (get_roadmap_by_id cfg w m rid email st).
Proof.
  intros S N. cbn [handle]. rewrite S, (str_eqb_neq _ _ N). cbn [negb].
  destruct m; reflexivity.
Qed.

Lemma available_connected w st :
  db_available w st = inr true ->
  db st <> None /\ truthy (collection_name st) = true.
Proof.
  unfold db_available. destruct (db st); [|discriminate].
  intros D. split; [discriminate|].
  destruct (database_bool w) as [x|[|]]; simpl in D; try discriminate.
  inversion D. reflexivity.
Qed.

Lemma connected_available w st :
  db st <> None -> truthy (collection_name st) = true ->
  database_bool w = inr true -> db_available w st = inr true.
Proof.
  unfold db_available. intros D C B. destruct (db st); [|contradiction].
  rewrite B. simpl. rewrite C. reflexivity.
Qed.

(** ** After a failed write *)

Lemma find_one_absent coll (u email : str) :
  existsb (fun d => field_matches (Dict.get (fields d) (py "id")) u) coll = false ->
  find_one coll [(py "id", u); (py "user_email", email)] = None.
Proof.
  intros H. unfold find_one.
  destruct (find _ coll) as [d|] eqn:F; [|reflexivity].
  apply find_some in F as [I M]. unfold matches in M. cbn [forallb fst snd] in M.
  apply andb_prop in M as [M _]. rewrite get_as_dict_id in M.
  assert (X : existsb (fun d => field_matches (Dict.get (fields d) (py "id")) u) coll
              = true); [|congruence].
  apply existsb_exists. exists d. auto.
Qed.

(** No request but a generation that draws [u] adds a document that a
    query for the identifier [u] finds. *)
Lemma handle_no_find cfg w r st u :
  uuid4 w <> u ->
  mongo_finds (snd (handle cfg w r st)) u = true -> mongo_finds st u = true.
Proof.
  intros N. unfold mongo_finds.
  destruct (handle_cases cfg w r st)
    as [[get_json [_ ->]]|[->|[->|[m [rid [email [_ ->]]]]]]].
  - destruct (generate_stores cfg w get_json st) as [[->|[d [-> I]]] _]; [auto|].
    rewrite existsb_app. cbn [existsb]. rewrite orb_false_r.
    intros H. apply orb_prop in H as [H|H]; [exact H|].
    exfalso. apply N. apply eq_str_field in I. unfold str_field in I.
    destruct (Dict.get (fields d) (py "id")) as [[]|]; try discriminate.
    inversion I; subst. simpl in H. apply str_eqb_eq in H. exact H.
  - destruct (reconnect_stores cfg w st) as [-> _]. auto.
  - auto.
  - destruct (by_id_stores cfg w m rid email st) as [[->|[_ [->| ->]]] _];
      [auto| |]; apply existsb_incl; intros x H;
      repeat apply delete_one_In in H; exact H.
Qed.

Lemma run_no_find cfg trace : forall st u,
  forallb (fun wr => negb (str_eqb (uuid4 (fst wr)) u)) trace = true ->
  mongo_finds (run cfg trace st) u = true -> mongo_finds st u = true.
Proof.
  induction trace as [|[w r] trace IH]; intros st u T; simpl; [auto|].
  simpl in T. apply andb_prop in T as [T1 T2].
  intros H. apply (IH _ _ T2) in H.
  apply (handle_no_find cfg w r st u); [|exact H].
  intros E. rewrite E, str_eqb_refl in T1. discriminate.
Qed.

(** X4: the handle, once set, stays: a roadmap that went to the
    in-memory mapping because [insert_one] raised, the write not applied,
    is in the mapping, but while the truth test of the handle holds no
    later request reads the mapping; so as long as its identifier is not
    drawn again, every later GET or DELETE of it with an email is answered
    404 when the database answers. *)
Theorem fallback_after_failed_write_is_unreadable
        cfg w get_json req st roadmap_data db_error trace w' m (e : str) :
  parsed w get_json req roadmap_data ->
  db_available w (reconnect cfg w st) = inr true ->
  collection_error w = None ->
  insert_error w = Some db_error -> insert_applied w = false ->
  is_segment (uuid4 w) = true -> uuid4 w <> py "user" ->
  e <> [] -> mongo_finds st (uuid4 w) = false ->
  forallb (fun wr => negb (str_eqb (uuid4 (fst wr)) (uuid4 w))) trace = true ->
  database_answers w' true ->
  let st1 := snd (generate_roadmap cfg w get_json st) in
  memory_has st1 (uuid4 w) = true
  /\ fst (handle cfg w' (RoadmapById m (uuid4 w) (Some e)) (run cfg trace st1))
     = inr (PDict [(py "error", PStr (py "Roadmap not found or access denied"))],
            404).
Proof.
  intros P D C I L Sg Nu He Fm T [B [C' F]] st1.
  pose proof (is_segment_nonempty _ Sg) as U.
  pose proof (generate_parsed cfg w get_json req st roadmap_data P) as S.
  cbv zeta in S. rewrite D in S.
  unfold save, get_collection, insert_one in S. rewrite C, I, L in S.
  assert (S1 : st1 = store_in_memory w
                 (roadmap_document w req roadmap_data
                  ++ [(py "_id", PObjectId (new_object_id w))])
                 (reconnect cfg w st)).
  { unfold st1. rewrite S. reflexivity. }
  destruct (reconnect_stores cfg w st) as [M R].
  destruct (available_connected _ _ D) as [Dd Dn].
  split.
  - rewrite S1. unfold memory_has, Dict.mem. simpl. rewrite get_set_same. reflexivity.
  - set (st2 := run cfg trace st1).
    assert (G1 : db st1 = db (reconnect cfg w st)
                 /\ collection_name st1 = collection_name (reconnect cfg w st))
      by (rewrite S1; auto).
    destruct G1 as [G1 G2].
    destruct (run_stays_connected cfg trace st1) as [H1 H2]; [congruence|].
    fold st2 in H1, H2.
    assert (X2 : db st2 <> None) by congruence.
    assert (D2 : db_available w' st2 = inr true).
    { apply connected_available; [exact X2 | congruence | exact B]. }
    assert (M2 : mongo_finds st2 (uuid4 w) = false).
    { destruct (mongo_finds st2 (uuid4 w)) eqn:X; [|reflexivity].
      apply (run_no_find cfg trace st1 (uuid4 w) T) in X.
      rewrite S1 in X. unfold mongo_finds in X, Fm. simpl in X. rewrite M in X.
      congruence. }
    rewrite (handle_by_id cfg w' m _ _ _ Sg Nu). unfold answered. cbn [fst].
    f_equal.
    unfold get_roadmap_by_id. rewrite (reconnect_connected cfg w' st2 X2).
    unfold get_roadmap_by_id_body, by_id_in_mongo, get_collection.
    rewrite (truthy_nonempty _ U), (truthy_nonempty _ He), D2, C', F. simpl.
    unfold mongo_finds in M2.
    rewrite (find_one_absent _ _ _ M2). reflexivity.
Qed.

Lemma fallback_after_failed_write_is_unreadable_witness :
  let st1 := snd (generate_roadmap Sample.with_mongo (Sample.write_fails (py "r1"))
                                   (inr Sample.ml_engineer) Sample.started) in
  memory_has st1 (py "r1") = true
  /\ fst (handle Sample.with_mongo (Sample.fine (py "r5"))
            (RoadmapById GET (py "r1") (Some (py "a@x.com")))
            (run Sample.with_mongo
                 [(Sample.fine (py "r2"), UserRoadmaps (Some (py "a@x.com")))] st1))
     = inr (PDict [(py "error", PStr (py "Roadmap not found or access denied"))],
            404).
Proof.
  assert (P : parsed (Sample.write_fails (py "r1")) (inr Sample.ml_engineer)
                     Sample.ml_engineer_request Sample.graph)
    by (repeat split; reflexivity).
  assert (U : py "r1" <> py "user") by discriminate.
  assert (E : py "a@x.com" <> []) by discriminate.
  assert (A : database_answers (Sample.fine (py "r5")) true)
    by (repeat split; reflexivity).
  exact (fallback_after_failed_write_is_unreadable
           Sample.with_mongo (Sample.write_fails (py "r1")) (inr Sample.ml_engineer)
           Sample.ml_engineer_request Sample.started Sample.graph
           (Raised (py "connection closed"))
           [(Sample.fine (py "r2"), UserRoadmaps (Some (py "a@x.com")))]
           (Sample.fine (py "r5")) GET (py "a@x.com")
           P eq_refl eq_refl eq_refl eq_refl eq_refl U E eq_refl eq_refl A).
Defined.

(** ** The in-memory mapping keeps its roadmaps under their identifiers *)

Section MappingFacts.
Variable V : Type.
Implicit Types (d : Dict.t V) (k u : str) (v : V).

Lemma set_In d k v kv :
  In kv (Dict.set d k v) -> kv = (k, v) \/ In kv d.
Proof.
  induction d as [|[k' v'] d IH]; simpl.
  - intros [<-|[]]; auto.
  - destruct (str_eqb k' k) eqn:E; simpl.
    + apply str_eqb_eq in E; subst k'. intros [<-|H]; auto.
    + intros [<-|H]; [auto|]. destruct (IH H); auto.
Qed.

Lemma set_fresh d k v :
  Dict.mem k d = false -> Dict.set d k v = d ++ [(k, v)].
Proof.
  unfold Dict.mem. induction d as [|[k' v'] d IH]; simpl; [reflexivity|].
  destruct (str_eqb k' k); [discriminate|].
  intros H. rewrite (IH H). reflexivity.
Qed.

Lemma keys_set d k v :
  NoDup (Dict.keys d) -> NoDup (Dict.keys (Dict.set d k v)).
Proof.
  destruct (Dict.mem k d) eqn:M.
  - assert (E : Dict.keys (Dict.set d k v) = Dict.keys d); [|rewrite E; auto].
    unfold Dict.mem in M. induction d as [|[k' v'] d IH]; simpl in *.
    + discriminate.
    + destruct (str_eqb k' k) eqn:E; simpl; [reflexivity|].
      f_equal. apply IH. exact M.
  - rewrite (set_fresh d k v M). unfold Dict.keys. rewrite map_app. simpl.
    intros N. apply NoDup_app; [exact N | repeat constructor; tauto |].
    intros x Hx [<-|[]].
    apply (mem_keys V) in Hx. congruence.
Qed.

Lemma pop_In d k kv : In kv (Dict.pop d k) -> In kv d.
Proof.
  induction d as [|[k' v'] d IH]; simpl; [auto|].
  destruct (str_eqb k' k); simpl; [auto|].
  intros [<-|H]; auto.
Qed.

Lemma keys_pop d k : NoDup (Dict.keys d) -> NoDup (Dict.keys (Dict.pop d k)).
Proof.
  induction d as [|[k' v'] d IH]; simpl; [auto|].
  intros N. inversion N as [|? ? N1 N2]; subst.
  destruct (str_eqb k' k); simpl; [exact N2|].
  constructor; [|apply IH; exact N2].
  intros H. apply N1. apply in_map_iff in H as [[k1 v1] [E H]].
  simpl in E; subst k1. apply pop_In in H.
  apply in_map_iff. exists (k', v1). auto.
Qed.

(** The entries under other keys stay. *)
Lemma pop_keeps d k kv : fst kv <> k -> In kv d -> In kv (Dict.pop d k).
Proof.
  intros N. induction d as [|[k' v'] d IH]; simpl; [auto|].
  destruct (str_eqb k' k) eqn:E.
  - apply str_eqb_eq in E; subst k'.
    intros [<-|H]; [simpl in N; congruence | exact H].
  - intros [<-|H]; [left; reflexivity | right; apply IH; exact H].
Qed.

Lemma values_In d v : In v (Dict.values d) -> exists k, In (k, v) d.
Proof.
  intros H. apply in_map_iff in H as [[k v'] [E H]].
  simpl in E; subst v'. exists k. exact H.
Qed.

(** With distinct keys, an entry is the one found under its key. *)
Lemma NoDup_keys_one d k v v' :
  NoDup (Dict.keys d) -> In (k, v) d -> In (k, v') d -> v = v'.
Proof.
  induction d as [|[k0 v0] d IH]; simpl; [tauto|].
  intros N. inversion N as [|? ? N1 N2]; subst.
  intros [H|H] [H'|H'].
  - congruence.
  - inversion H; subst. exfalso. apply N1.
    apply in_map_iff. exists (k, v'). auto.
  - inversion H'; subst. exfalso. apply N1.
    apply in_map_iff. exists (k, v). auto.
  - apply IH; assumption.
Qed.

End MappingFacts.

Lemma keyed_set store k r :
  keyed_by_id store -> record_id r = Some k -> keyed_by_id (Dict.set store k r).
Proof.
  intros [N K] E. split; [apply keys_set; exact N|].
  intros k' r' H. apply set_In in H as [H|H]; [inversion H; subst; exact E | auto].
Qed.

Lemma keyed_pop store k : keyed_by_id store -> keyed_by_id (Dict.pop store k).
Proof.
  intros [N K]. split; [apply keys_pop; exact N|].
  intros k' r' H. apply pop_In in H. auto.
Qed.

Lemma record_id_in_memory_copy w doc u :
  record_id doc = Some u -> record_id (in_memory_copy w doc) = Some u.
Proof.
  unfold record_id, str_field, in_memory_copy.
  rewrite get_set_other by discriminate. auto.
Qed.


(** What lines 156 to 180 set in the mapping is a copy of the document,
    or of the document with its [_id]. *)
Lemma save_memory w req roadmap_data available st :
  let doc := roadmap_document w req roadmap_data in
  let st' := snd (save w roadmap_data doc available st) in
  _in_memory_roadmaps st' = _in_memory_roadmaps st
  \/ exists doc',
       (doc' = doc \/ doc' = doc ++ [(py "_id", PObjectId (new_object_id w))])
       /\ _in_memory_roadmaps st'
          = Dict.set (_in_memory_roadmaps st) (uuid4 w) (in_memory_copy w doc').
Proof.
  cbv zeta.
  unfold save, get_collection, insert_one, saved_with_warning, store_in_memory,
    in_memory_copy.
  destruct available; cbn.
  - destruct (collection_error w); cbn.
    + right. eexists. split; [left; reflexivity | reflexivity].
    + destruct (insert_error w); cbn; [|auto].
      right. eexists. split; [right; reflexivity|].
      destruct (insert_applied w); reflexivity.
  - right. eexists. split; [left; reflexivity | reflexivity].
Qed.

(** What [generate_roadmap] sets in the mapping has the generated
    identifier. *)
Lemma generate_memory cfg w get_json st :
  _in_memory_roadmaps (snd (generate_roadmap cfg w get_json st))
  = _in_memory_roadmaps st
  \/ exists r,
       _in_memory_roadmaps (snd (generate_roadmap cfg w get_json st))
       = Dict.set (_in_memory_roadmaps st) (uuid4 w) r
       /\ record_id r = Some (uuid4 w).
Proof.
  destruct (reconnect_stores cfg w st) as [M R].
  unfold generate_roadmap, generate_roadmap_body.
  destruct (read_request get_json) as [e|req]; [auto|].
  destruct (negb (truth (goal req)) || negb (truth (background req)));
    [auto|].
  destruct (negb (truth (user_email req))); [auto|].
  destruct (negb (vertexai_importable w)); [auto|].
  destruct (generate_content w _) as [e|text]; [auto|].
  cbn [bind]. destruct (normalize (python w) text) as [e|data]; [auto|].
  cbn [bind]. destruct (db_available w (reconnect cfg w st)) as [e|available];
    [auto|].
  cbn [bind].
  pose proof (save_memory w req data available (reconnect cfg w st)) as S.
  cbv zeta in S.
  destruct (save w data _ available (reconnect cfg w st)) as [resp st'].
  cbn [snd] in *. rewrite R in S.
  destruct S as [S|[doc' [D S]]]; [auto|]. right.
  exists (in_memory_copy w doc'). split; [exact S|].
  apply record_id_in_memory_copy. destruct D as [-> | ->]; reflexivity.
Qed.

Lemma handle_keyed cfg w r st :
  keyed_by_id (_in_memory_roadmaps st) ->
  keyed_by_id (_in_memory_roadmaps (snd (handle cfg w r st))).
Proof.
  intros K.
  destruct (handle_cases cfg w r st)
    as [[get_json [_ ->]]|[->|[->|[m [rid [email [_ ->]]]]]]].
  - destruct (generate_memory cfg w get_json st) as [->|[r' [-> E]]];
      [exact K | apply keyed_set; assumption].
  - destruct (reconnect_stores cfg w st) as [_ ->]. exact K.
  - exact K.
  - destruct (by_id_stores cfg w m rid email st) as [_ [->|[_ [->| ->]]]];
      [exact K | apply keyed_pop; exact K | repeat apply keyed_pop; exact K].
Qed.

(** X5: in every state a process reaches, the in-memory mapping holds
    each roadmap under the roadmap's own identifier, and no key twice:
    [generate_roadmap] sets and DELETE pops by identifier only. *)
Theorem mapping_is_keyed_by_id cfg w0 coll trace :
  keyed_by_id (_in_memory_roadmaps (run cfg trace (initial cfg w0 coll))).
Proof.
  assert (G : forall st, keyed_by_id (_in_memory_roadmaps st) ->
                keyed_by_id (_in_memory_roadmaps (run cfg trace st))).
  { induction trace as [|[w r] trace IH]; intros st K; simpl; [exact K|].
    apply IH. apply handle_keyed. exact K. }
  apply G. unfold initial. destruct (connect_to_mongodb cfg w0). simpl.
  split; [constructor | intros k r []].
Qed.

(** ** Fetching a roadmap *)

Lemma get_shown_other (oid : str) (d : dict) k :
  k <> py "_id" -> Dict.get ((py "_id", PStr oid) :: d) k = Dict.get d k.
Proof.
  intros N. cbn [Dict.get]. rewrite (str_eqb_neq (py "_id") k) by congruence.
  reflexivity.
Qed.

Lemma get_as_dict_other d k :
  k <> py "_id" -> Dict.get (as_dict d) k = Dict.get (fields d) k.
Proof.
  intros N. unfold as_dict. cbn [Dict.get].
  rewrite (str_eqb_neq (py "_id") k) by congruence. reflexivity.
Qed.

(** X6: whatever the state, a GET of a roadmap identifier that is
    answered 200 carries a roadmap of a store whose [id] matches the
    requested identifier and whose [user_email] matches the email of the
    request, by the equality of a query: the text itself in the mapping;
    the text itself, or an array that holds it, in the collection. *)
Theorem get_returns_the_owners_roadmap cfg w (rid : str) email st v :
  rid <> py "user" ->
  fst (handle cfg w (RoadmapById GET rid email) st) = inr (v, 200) ->
  exists r e,
    v = PDict r /\ email = Some e
    /\ field_matches (Dict.get r (py "id")) rid = true
    /\ field_matches (Dict.get r (py "user_email")) e = true
    /\ shown st v.
Proof.
  intros Nu H. cbn [handle] in H.
  destruct (negb (is_segment rid)); [discriminate|].
  rewrite (str_eqb_neq _ _ Nu) in H. unfold answered in H. cbn [fst] in H.
  assert (H' : fst (get_roadmap_by_id cfg w GET rid email st) = (v, 200))
    by congruence.
  clear H.
  assert (S : shown st v).
  { apply (shown_reconnect cfg w st). apply (get_roadmap_shown w rid email). exact H'. }
  unfold get_roadmap_by_id, get_roadmap_by_id_body in H'. cbv zeta in H'.
  destruct (truthy (Some rid)); cbn [negb] in H'; [|discriminate].
  destruct email as [e|]; [|discriminate].
  destruct (truthy (Some e)); cbn [negb text_of] in H'; [|discriminate].
  destruct (db_available w (reconnect cfg w st)) as [x|[|]]; [discriminate| |].
  - unfold by_id_in_mongo in H'.
    destruct (get_collection w); [discriminate|].
    destruct (find_error w); [discriminate|].
    destruct (find_one _ _) as [d|] eqn:F; [|discriminate].
    cbn [fst] in H'. inversion H'; subst v. clear H'.
    apply find_some in F as [_ M]. unfold matches in M. cbn [forallb fst snd] in M.
    apply andb_prop in M as [M1 M2]. apply andb_prop in M2 as [M2 _].
    rewrite get_as_dict_other in M1, M2 by discriminate.
    exists ((py "_id", PStr (_id d)) :: fields d), e.
    rewrite !get_shown_other by discriminate. auto.
  - unfold by_id_in_memory in H'.
    destruct (find_in_memory _ _ _) as [[|kv r]|] eqn:F; try discriminate.
    cbn [fst] in H'. inversion H'; subst v. clear H'.
    unfold find_in_memory in F. apply find_some in F as [_ M].
    apply andb_prop in M as [M1 M2]. apply eq_str_matches in M1, M2.
    exists (kv :: r), e. auto.
Qed.

Lemma get_returns_the_owners_roadmap_witness :
  exists r e,
    PDict (Sample.roadmap (py "r1") (py "a@x.com")) = PDict r
    /\ Some (py "a@x.com") = Some e
    /\ field_matches (Dict.get r (py "id")) (py "r1") = true
    /\ field_matches (Dict.get r (py "user_email")) e = true
    /\ shown Sample.one_in_memory (PDict (Sample.roadmap (py "r1") (py "a@x.com"))).
Proof.
  assert (N : py "r1" <> py "user") by discriminate.
  exact (get_returns_the_owners_roadmap Sample.no_mongo (Sample.fine (py "r2"))
           (py "r1") (Some (py "a@x.com")) Sample.one_in_memory
           (PDict (Sample.roadmap (py "r1") (py "a@x.com"))) N eq_refl).
Defined.



(** ** A generated roadmap is read back *)






(** ** Listing *)



Lemma key_leb_total a : forall b, key_leb a b = false -> key_leb b a = true.
Proof.
  induction a as [|x a IH]; intros [|y b]; simpl; try discriminate; try reflexivity.
  intros H. apply orb_false_iff in H as [L H].
  apply Nat.ltb_ge in L.
  destruct (Nat.eqb_spec x y) as [->|N].
  - simpl in H. rewrite Nat.eqb_refl. simpl. rewrite (IH b H). apply orb_true_r.
  - assert (T : (y <? x) = true) by (apply Nat.ltb_lt; lia).
    rewrite T. reflexivity.
Qed.

Lemma insert_desc_head d l x :
  HdRel not_older x l -> not_older x d -> HdRel not_older x (insert_desc d l).
Proof.
  intros H R. destruct l as [|y l]; simpl; [constructor; exact R|].
  destruct (key_leb (created_at y) (created_at d)); constructor;
    [exact R | inversion H; assumption].
Qed.

Lemma insert_desc_sorted d l :
  Sorted not_older l -> Sorted not_older (insert_desc d l).
Proof.
  induction l as [|x l IH]; simpl; intros S.
  - repeat constructor.
  - destruct (key_leb (created_at x) (created_at d)) eqn:K.
    + constructor; [exact S | constructor; exact K].
    + inversion S as [|? ? S' H]; subst. constructor; [apply IH; exact S'|].
      apply insert_desc_head; [exact H | apply key_leb_total; exact K].
Qed.

Lemma insert_desc_perm d l : Permutation (insert_desc d l) (d :: l).
Proof.
  induction l as [|x l IH]; simpl; [reflexivity|].
  destruct (key_leb (created_at x) (created_at d)); [reflexivity|].
  rewrite IH. apply perm_swap.
Qed.

Lemma sort_created_desc_sorted l :
  Sorted not_older (sort_created_desc l) /\ Permutation (sort_created_desc l) l.
Proof.
  induction l as [|d l [S P]]; simpl; [split; constructor|].
  split; [apply insert_desc_sorted; exact S|].
  rewrite insert_desc_perm. constructor. exact P.
Qed.

(** X10: when the truth test of the handle holds and the database
    answers, the listing for a non-empty email is 200 with the documents
    of the collection whose [user_email] matches that email by the
    equality of a query (the text itself, or an array that holds it), all
    of them and no other, each once, ordered by [created_at], the newest
    first, with [_id] as text. *)
Theorem listing_is_the_users_newest_first cfg w (e : str) st :
  e <> [] -> db_available w (reconnect cfg w st) = inr true ->
  collection_error w = None -> find_error w = None ->
  exists docs,
    fst (get_user_roadmaps cfg w (Some e) st) = (PList (map id_as_str docs), 200)
    /\ Permutation docs
         (filter (fun d => field_matches (Dict.get (fields d) (py "user_email")) e)
                 (mongo st))
    /\ Sorted not_older docs.
Proof.
  intros He D C F. unfold get_user_roadmaps, get_user_roadmaps_body, get_collection.
  cbv zeta. cbn [fst]. rewrite D, C, F, (truthy_nonempty _ He).
  cbn [negb text_of bind raise_if].
  destruct (reconnect_stores cfg w st) as [-> _].
  eexists. split; [reflexivity|].
  destruct (sort_created_desc_sorted
              (filter (fun d => matches [(py "user_email", e)] (as_dict d)) (mongo st)))
    as [S P].
  split; [|exact S].
  rewrite P. erewrite filter_ext; [reflexivity|].
  intros d. unfold matches. cbn [forallb fst snd].
  rewrite get_as_dict_other by discriminate.
  apply andb_true_r.
Qed.

Lemma listing_is_the_users_newest_first_witness :
  exists docs,
    fst (get_user_roadmaps Sample.with_mongo (Sample.fine (py "r5"))
                           (Some (py "a@x.com")) Scenario.three_in_mongo)
    = (PList (map id_as_str docs), 200)
    /\ Permutation docs
         (filter (fun d => field_matches (Dict.get (fields d) (py "user_email"))
                                         (py "a@x.com"))
                 (mongo Scenario.three_in_mongo))
    /\ Sorted not_older docs.
Proof.
  assert (E : py "a@x.com" <> []) by discriminate.
  exact (listing_is_the_users_newest_first Sample.with_mongo (Sample.fine (py "r5"))
           (py "a@x.com") Scenario.three_in_mongo E eq_refl eq_refl eq_refl).
Defined.

(** ** What a DELETE removes *)

Lemma delete_one_keeps coll filter d :
  In d coll -> matches filter (as_dict d) = false ->
  In d (fst (delete_one coll filter)).
Proof.
  induction coll as [|x coll IH]; [simpl; auto|].
  cbn [delete_one]. intros [->|H] M.
  - rewrite M. destruct (delete_one coll filter). left; reflexivity.
  - destruct (matches filter (as_dict x)); [exact H|].
    specialize (IH H M). destruct (delete_one coll filter). right; exact IH.
Qed.

Lemma pop_roadmap_found store (rid e : str) r0 :
  find_in_memory store rid e = Some r0 ->
  forall store', pop_roadmap store' r0 = Dict.pop store' rid.
Proof.
  intros F store'. unfold find_in_memory in F. apply find_some in F as [_ F].
  apply andb_prop in F as [F _]. apply eq_str_field in F.
  unfold pop_roadmap. unfold str_field in F.
  destruct (Dict.get r0 (py "id")) as [[]|]; try discriminate.
  inversion F; reflexivity.
Qed.

(** The mapping after [get_roadmap_by_id]: as it was, or, a roadmap of
    this identifier and this owner having been found, without the entry
    under the identifier. *)
Lemma by_id_memory cfg w m (rid : str) email st :
  _in_memory_roadmaps (snd (get_roadmap_by_id cfg w m rid email st))
  = _in_memory_roadmaps st
  \/ exists r0,
       find_in_memory (_in_memory_roadmaps st) rid (text_of email) = Some r0
       /\ (_in_memory_roadmaps (snd (get_roadmap_by_id cfg w m rid email st))
           = Dict.pop (_in_memory_roadmaps st) rid
           \/ _in_memory_roadmaps (snd (get_roadmap_by_id cfg w m rid email st))
              = Dict.pop (Dict.pop (_in_memory_roadmaps st) rid) rid).
Proof.
  destruct (reconnect_stores cfg w st) as [M R].
  unfold get_roadmap_by_id, get_roadmap_by_id_body. cbv zeta.
  destruct (negb (truthy (Some rid))); [auto|].
  destruct (negb (truthy email)); [auto|].
  destruct (db_available w (reconnect cfg w st)) as [x|[|]]; [auto| |].
  - unfold by_id_in_mongo.
    destruct (get_collection w); [auto|].
    destruct (find_error w); [auto|].
    destruct (find_one _ _); [|auto].
    destruct m; [auto|].
    destruct (delete_one _ _) as [coll' n].
    destruct (delete_error w); [auto|]. destruct (0 <? n); auto.
  - unfold by_id_in_memory. rewrite R.
    destruct (find_in_memory _ _ _) as [[|kv r]|] eqn:F; auto.
    destruct m; [auto|].
    right. exists (kv :: r). split; [reflexivity|].
    cbn [snd with_memory _in_memory_roadmaps].
    rewrite !(pop_roadmap_found _ _ _ _ F).
    destruct (memory_raced w); auto.
Qed.

(** X11: a DELETE removes nothing but a roadmap that the identifier
    and the email of the request match: where the mapping holds its
    roadmaps under their identifiers, every roadmap of either store that
    the filter of the request does not match is still there afterwards,
    whatever the answer, and whatever other clients do meanwhile to the
    roadmap the request is for. *)
Theorem delete_spares_the_others cfg w (rid : str) email st (r : dict) :
  keyed_by_id (_in_memory_roadmaps st) ->
  In r (all_records st) ->
  matches [(py "id", rid); (py "user_email", text_of email)] r = false ->
  In r (all_records (snd (handle cfg w (RoadmapById DELETE rid email) st))).
Proof.
  intros [N K] I X. cbn [handle].
  destruct (negb (is_segment rid)); [exact I|].
  unfold answered. cbn [snd].
  unfold all_records in *.
  apply in_app_or in I as [I|I]; apply in_or_app.
  - left. apply in_map_iff in I as [d [<- I]]. apply in_map.
    destruct (by_id_stores cfg w DELETE rid email st) as [[->|[_ [->| ->]]] _];
      [exact I | |]; repeat apply delete_one_keeps; assumption.
  - right.
    destruct (by_id_memory cfg w DELETE rid email st) as [->|[r0 [F S]]];
      [exact I|].
    apply values_In in I as [k I].
    assert (Nk : k <> rid).
    { intros ->.
      pose proof (find_in_memory_In _ _ _ _ F) as I0.
      apply values_In in I0 as [k0 I0].
      unfold find_in_memory in F. apply find_some in F as [_ F].
      apply andb_prop in F as [F1 F2].
      pose proof (K _ _ I0) as E0. unfold record_id in E0.
      rewrite (proj1 (eq_str_field _ _ _) F1) in E0.
      inversion E0; subst k0.
      assert (r = r0) by (apply (NoDup_keys_one _ _ rid r r0 N); assumption).
      subst r0. unfold matches in X. cbn [forallb fst snd] in X.
      rewrite (eq_str_matches _ _ F1), (eq_str_matches _ _ F2) in X.
      discriminate. }
    apply in_map_iff. exists (k, r). split; [reflexivity|].
    destruct S as [-> | ->]; repeat (apply pop_keeps; [exact Nk|]); exact I.
Qed.

Lemma delete_spares_the_others_witness :
  In (Sample.roadmap (py "r2") (py "b@x.com"))
     (all_records
        (snd (handle Sample.no_mongo (Sample.fine (py "r5"))
                (RoadmapById DELETE (py "r1") (Some (py "a@x.com")))
                Scenario.three_in_memory))).
Proof.
  assert (K : keyed_by_id (_in_memory_roadmaps Scenario.three_in_memory)).
  { split.
    - repeat constructor; simpl; intuition discriminate.
    - intros k r [H|[H|[H|[]]]]; inversion H; reflexivity. }
  assert (I : In (Sample.roadmap (py "r2") (py "b@x.com"))
                 (all_records Scenario.three_in_memory))
    by (right; left; reflexivity).
  exact (delete_spares_the_others Sample.no_mongo (Sample.fine (py "r5"))
           (py "r1") (Some (py "a@x.com")) Scenario.three_in_memory _ K I eq_refl).
Defined.

(** ** A deleted roadmap is gone *)

(** Where identifiers are distinct, deleting the roadmap found by
    [find_one] leaves no roadmap that the identifier finds. *)
Lemma delete_one_removes_id coll (rid e : str) d :
  NoDup (record_ids (map as_dict coll)) ->
  find_one coll [(py "id", rid); (py "user_email", e)] = Some d ->
  ~ In rid (record_ids
              (map as_dict
                   (fst (delete_one coll [(py "id", rid); (py "user_email", e)])))).
Proof.
  unfold find_one. induction coll as [|x coll IH]; [discriminate|].
  cbn [find delete_one map]. intros N F.
  change (record_ids (as_dict x :: map as_dict coll))
    with (identifiers (as_dict x) ++ record_ids (map as_dict coll)) in N.
  destruct (matches _ (as_dict x)) eqn:M.
  - apply matches_id_owner in M as [M _]. cbn [fst].
    intros I. exact (NoDup_apart _ _ _ rid N M I).
  - pose proof (NoDup_app_remove_l _ _ N) as N'.
    specialize (IH N' F).
    destruct (delete_one coll _) as [rest n]. cbn [fst map] in *.
    change (record_ids (as_dict x :: map as_dict rest))
      with (identifiers (as_dict x) ++ record_ids (map as_dict rest)).
    intros I. apply in_app_or in I as [I|I]; [|contradiction].
    apply find_some in F as [I' M']. apply matches_id_owner in M' as [M' _].
    apply (NoDup_apart _ _ _ rid N I).
    apply (record_ids_In _ (as_dict d)); [apply in_map; exact I' | exact M'].
Qed.

Lemma delete_one_nothing coll (rid e : str) :
  ~ In rid (record_ids (map as_dict coll)) ->
  snd (delete_one coll [(py "id", rid); (py "user_email", e)]) = 0.
Proof.
  intros A. induction coll as [|x coll IH]; [reflexivity|].
  cbn [delete_one].
  destruct (matches _ (as_dict x)) eqn:M.
  - exfalso. apply A. apply matches_id_owner in M as [M _].
    apply (record_ids_In _ (as_dict x)); [left; reflexivity | exact M].
  - assert (A' : ~ In rid (record_ids (map as_dict coll))).
    { intros I. apply A. apply record_ids_has in I as [r [I E]].
      apply (record_ids_In _ r); [right; exact I | exact E]. }
    specialize (IH A'). destruct (delete_one coll _). exact IH.
Qed.

(** A request for an identifier that finds no roadmap is answered 404,
    when the database answers. *)
Lemma absent_not_found cfg w m (rid e : str) st available :
  rid <> [] -> e <> [] ->
  db_available w (reconnect cfg w st) = inr available ->
  collection_error w = None -> find_error w = None ->
  ~ In rid (record_ids (all_records st)) ->
  fst (get_roadmap_by_id cfg w m rid (Some e) st) = not_found.
Proof.
  intros Hr He D C F A. unfold get_roadmap_by_id.
  rewrite lookup_fails; [| assumption | assumption |].
  - cbn [fst]. unfold nothing_found. rewrite D, C, F.
    destruct available; reflexivity.
  - rewrite all_records_reconnect. intros r I E _. apply A.
    apply (record_ids_In _ r); assumption.
Qed.

(** X12: where the identifiers the roadmaps are found by are distinct
    and the mapping holds its roadmaps under their identifiers, a DELETE
    that is answered 200 leaves no roadmap that the identifier finds in
    either store, so every later GET or DELETE of it, by the same email,
    is answered 404 when the database answers. *)
Theorem deleted_roadmap_is_gone cfg w w' m (rid : str) email st available :
  keyed_by_id (_in_memory_roadmaps st) ->
  distinct (record_ids (all_records st)) = true ->
  rid <> py "user" ->
  status (handle cfg w (RoadmapById DELETE rid email) st) = Some 200 ->
  let st1 := snd (handle cfg w (RoadmapById DELETE rid email) st) in
  db_available w' (reconnect cfg w' st1) = inr available ->
  collection_error w' = None -> find_error w' = None ->
  ~ In rid (record_ids (all_records st1))
  /\ fst (handle cfg w' (RoadmapById m rid email) st1)
     = inr (PDict [(py "error", PStr (py "Roadmap not found or access denied"))],
            404).
Proof.
  intros [N K] D Nu H st1 D' C' F'.
  apply distinct_NoDup in D. unfold all_records in D. rewrite record_ids_app in D.
  destruct (reconnect_stores cfg w st) as [M R].
  assert (Sg : is_segment rid = true).
  { unfold status in H. cbn [handle] in H.
    destruct (is_segment rid); [reflexivity | discriminate]. }
  assert (S1 : st1 = snd (get_roadmap_by_id cfg w DELETE rid email st)).
  { unfold st1. rewrite (handle_by_id cfg w DELETE _ _ _ Sg Nu). reflexivity. }
  rewrite (handle_by_id cfg w DELETE _ _ _ Sg Nu) in H.
  unfold status, answered in H. cbn [fst] in H.
  assert (G : (exists e, email = Some e /\ e <> [])
              /\ ~ In rid (record_ids (all_records st1))).
  { rewrite S1. clear S1 D' st1.
    unfold get_roadmap_by_id, get_roadmap_by_id_body in *. cbv zeta in *.
    rewrite (truthy_nonempty _ (is_segment_nonempty _ Sg)) in *.
    destruct email as [[|c' e]|]; try discriminate.
    split; [eexists; split; [reflexivity | discriminate]|].
    cbn [truthy negb text_of] in *.
    set (e' := c' :: e) in *.
    unfold all_records. rewrite record_ids_app.
    destruct (db_available w (reconnect cfg w st)) as [x|[|]]; [discriminate| |].
    - unfold by_id_in_mongo in *.
      destruct (get_collection w); [discriminate|].
      destruct (find_error w); [discriminate|].
      rewrite M in *.
      destruct (find_one (mongo st) _) as [d|] eqn:X; [|discriminate].
      pose proof (delete_one_removes_id _ _ _ _ (NoDup_app_remove_r _ _ D) X) as Z.
      assert (Zm : ~ In rid (record_ids (Dict.values (_in_memory_roadmaps st)))).
      { intros I. apply find_some in X as [I' M']. apply matches_id_owner in M' as [M' _].
        apply (NoDup_apart _ _ _ rid D);
          [apply (record_ids_In _ (as_dict d)); [apply in_map; exact I' | exact M']
          | exact I]. }
      destruct (delete_raced w).
      + pose proof (delete_one_nothing _ _ e' Z) as Z0.
        destruct (delete_one (fst (delete_one (mongo st) _)) _) as [coll' n].
        cbn [snd] in Z0. subst n.
        destruct (delete_error w); discriminate.
      + destruct (delete_one (mongo st) _) as [coll' n]. cbn [fst] in Z.
        destruct (delete_error w); [discriminate|].
        destruct (0 <? n); [|discriminate].
        cbn [snd with_mongo mongo _in_memory_roadmaps]. rewrite R.
        intros I. apply in_app_or in I as [I|I]; contradiction.
    - unfold by_id_in_memory in *. rewrite R in *.
      destruct (find_in_memory _ _ _) as [[|kv r]|] eqn:X; try discriminate.
      pose proof (find_in_memory_In _ _ _ _ X) as I0.
      pose proof (pop_roadmap_found _ _ _ _ X) as P.
      unfold find_in_memory in X. apply find_some in X as [_ X].
      apply andb_prop in X as [X _]. apply eq_str_field in X.
      cbn [snd with_memory mongo _in_memory_roadmaps]. rewrite !P, M.
      intros I. apply in_app_or in I as [I|I].
      + apply (NoDup_apart _ _ _ rid D); [exact I|].
        apply (record_ids_In _ (kv :: r)); [exact I0|].
        rewrite (record_id_identifiers _ _ X). left; reflexivity.
      + apply record_ids_has in I as [r' [I E]].
        apply values_In in I as [k I].
        assert (I' : In (k, r') (Dict.pop (_in_memory_roadmaps st) rid)).
        { destruct (memory_raced w); [apply pop_In in I|]; exact I. }
        pose proof (K _ _ (pop_In _ _ _ _ I')) as E'.
        rewrite (record_id_identifiers _ _ E') in E. destruct E as [->|[]].
        assert (Y : Dict.mem rid (Dict.pop (_in_memory_roadmaps st) rid) = true).
        { apply mem_keys. apply in_map_iff. exists (rid, r'). auto. }
        rewrite (pop_gone _ _ _ N) in Y. discriminate. }
  destruct G as ((e & -> & He) & A).
  split; [exact A|].
  rewrite (handle_by_id cfg w' m _ _ _ Sg Nu). unfold answered. cbn [fst].
  f_equal.
  exact (absent_not_found cfg w' m rid e st1 available
           (is_segment_nonempty _ Sg) He D' C' F' A).
Qed.

Lemma deleted_roadmap_is_gone_witness :
  let st1 := snd (handle Sample.with_mongo (Sample.fine (py "r5"))
                    (RoadmapById DELETE (py "r3") (Some (py "a@x.com")))
                    Scenario.three_in_mongo) in
  ~ In (py "r3") (record_ids (all_records st1))
  /\ fst (handle Sample.with_mongo (Sample.fine (py "r6"))
            (RoadmapById GET (py "r3") (Some (py "a@x.com"))) st1)
     = inr (PDict [(py "error", PStr (py "Roadmap not found or access denied"))],
            404).
Proof.
  assert (K : keyed_by_id (_in_memory_roadmaps Scenario.three_in_mongo))
    by (split; [constructor | intros k r []]).
  assert (N : py "r3" <> py "user") by discriminate.
  exact (deleted_roadmap_is_gone Sample.with_mongo (Sample.fine (py "r5"))
           (Sample.fine (py "r6")) GET (py "r3") (Some (py "a@x.com"))
           Scenario.three_in_mongo true K eq_refl N eq_refl
           eq_refl eq_refl eq_refl).
Defined.

(** ** Fenced answers *)

(** *** Prefixes, suffixes and padding *)

Lemma startswith_app p rest : Str.startswith (p ++ rest) p = true.
Proof.
  induction p as [|c p IH]; cbn [app Str.startswith]; [apply startswith_nil|].
  rewrite N.eqb_refl. exact IH.
Qed.

Lemma endswith_app s p : Str.endswith (s ++ p) p = true.
Proof. unfold Str.endswith. rewrite rev_app_distr. apply startswith_app. Qed.

Lemma drop_app (p rest : str) : Str.drop (length p) (p ++ rest) = rest.
Proof. unfold Str.drop. induction p; simpl; auto. Qed.

Lemma drop_end_app (s p : str) : Str.drop_end (length p) (s ++ p) = s.
Proof.
  unfold Str.drop_end. rewrite length_app, Nat.add_sub.
  rewrite firstn_app, Nat.sub_diag, firstn_all. simpl. apply app_nil_r.
Qed.

(** [strip] removes the white space around a text that starts and ends
    with other characters, and nothing else. *)
Lemma lstrip_spaces ws s :
  forallb Str.isspace ws = true -> Str.lstrip (ws ++ s) = Str.lstrip s.
Proof.
  induction ws as [|c ws IH]; cbn [app forallb Str.lstrip]; [reflexivity|].
  intros H. apply andb_prop in H as [C H]. rewrite C. exact (IH H).
Qed.

Lemma lstrip_solid s c :
  hd_error s = Some c -> Str.isspace c = false -> Str.lstrip s = s.
Proof.
  destruct s as [|d s]; [discriminate|]. cbn [hd_error Str.lstrip].
  intros E C. inversion E; subst. rewrite C. reflexivity.
Qed.

Lemma forallb_rev (f : N -> bool) l :
  forallb f l = true -> forallb f (rev l) = true.
Proof.
  rewrite !forallb_forall. intros H x I. apply H.
  apply (proj2 (in_rev l x)). exact I.
Qed.

Lemma strip_padded ws ws' s c c' :
  forallb Str.isspace ws = true -> forallb Str.isspace ws' = true ->
  hd_error s = Some c -> Str.isspace c = false ->
  hd_error (rev s) = Some c' -> Str.isspace c' = false ->
  Str.strip (ws ++ s ++ ws') = s.
Proof.
  intros W W' E C E' C'. unfold Str.strip, Str.rstrip.
  rewrite (lstrip_spaces _ _ W).
  rewrite (lstrip_solid (s ++ ws') c);
    [| destruct s; [discriminate | exact E] | exact C].
  rewrite rev_app_distr, (lstrip_spaces _ _ (forallb_rev _ _ W')).
  rewrite (lstrip_solid _ _ E' C'). apply rev_involutive.
Qed.

Lemma startswith_continued body rest p c :
  Str.startswith body p = false -> hd_error rest = Some c -> ~ In c p ->
  Str.startswith (body ++ rest) p = false.
Proof.
  revert body. induction p as [|x p IH]; intros body H R N.
  - rewrite startswith_nil in H. discriminate.
  - destruct body as [|b body].
    + destruct rest as [|d rest]; [discriminate|]. inversion R; subst d.
      cbn [app Str.startswith]. destruct (c =? x)%N eqn:E; [|reflexivity].
      apply N.eqb_eq in E. exfalso. apply N. left. symmetry. exact E.
    + cbn [app Str.startswith] in *. destruct (b =? x)%N; [|reflexivity].
      cbn [andb] in *. apply IH; [exact H | exact R |].
      intros I. apply N. right. exact I.
Qed.

Lemma fenced_strip ws ws' opening body :
  forallb Str.isspace ws = true -> forallb Str.isspace ws' = true ->
  hd_error opening = Some 96%N ->
  Str.strip (ws ++ (opening ++ body ++ fence) ++ ws') = opening ++ body ++ fence.
Proof.
  intros W W' O.
  apply (strip_padded ws ws' _ 96%N 96%N); try assumption; try reflexivity.
  - destruct opening; [discriminate | exact O].
  - rewrite !rev_app_distr. reflexivity.
Qed.

(** X13: [create_quiz] unwraps a fenced answer.  An answer made of a
    tagged fence marker, a body and a closing marker, with white space
    around it, is cleaned to the body, whatever the body holds; with a
    bare opening marker the same holds when the body does not begin with
    [json]. *)
Theorem quiz_fence_is_unwrapped ws ws' body :
  forallb Str.isspace ws = true -> forallb Str.isspace ws' = true ->
  clean_quiz_text (ws ++ (json_fence ++ body ++ fence) ++ ws') = body
  /\ (Str.startswith body (py "json") = false ->
      clean_quiz_text (ws ++ (fence ++ body ++ fence) ++ ws') = body).
Proof.
  intros W W'. unfold clean_quiz_text. cbv zeta.
  rewrite !fenced_strip by (assumption || reflexivity).
  split.
  - rewrite startswith_app.
    change 7 with (length json_fence). rewrite drop_app.
    rewrite endswith_app. apply (drop_end_app body fence).
  - intros J.
    change (Str.startswith (fence ++ body ++ fence) json_fence)
      with (Str.startswith (body ++ fence) (py "json")).
    rewrite (startswith_continued body fence (py "json") 96%N J eq_refl)
      by (cbv; intuition discriminate).
    rewrite startswith_app.
    change 3 with (length fence). rewrite drop_app.
    rewrite endswith_app. apply (drop_end_app body fence).
Qed.

(** *** Pieces of a text *)

Lemma segment_refl s : segment s s.
Proof. exists [], []. rewrite app_nil_r. reflexivity. Qed.

Lemma segment_trans a b c : segment a b -> segment b c -> segment a c.
Proof.
  intros [p [q ->]] [p' [q' ->]]. exists (p' ++ p), (q ++ q').
  rewrite <- !app_assoc. reflexivity.
Qed.

Lemma lstrip_segment s : segment (Str.lstrip s) s.
Proof.
  induction s as [|c s IH]; [apply segment_refl|].
  cbn [Str.lstrip]. destruct (Str.isspace c); [|apply segment_refl].
  destruct IH as [p [q E]]. exists (c :: p), q. cbn [app]. congruence.
Qed.

Lemma rstrip_segment s : segment (Str.rstrip s) s.
Proof.
  unfold Str.rstrip. destruct (lstrip_segment (rev s)) as [p [q E]].
  exists (rev q), (rev p).
  rewrite <- (rev_involutive s) at 1.
  rewrite E at 1. rewrite !rev_app_distr, <- app_assoc. reflexivity.
Qed.

Lemma strip_segment s : segment (Str.strip s) s.
Proof.
  unfold Str.strip.
  exact (segment_trans _ _ _ (rstrip_segment _) (lstrip_segment s)).
Qed.

Lemma drop_segment n s : segment (Str.drop n s) s.
Proof.
  exists (firstn n s), []. rewrite app_nil_r. symmetry. apply firstn_skipn.
Qed.

Lemma drop_end_segment n s : segment (Str.drop_end n s) s.
Proof.
  exists [], (skipn (length s - n) s). symmetry. apply firstn_skipn.
Qed.

(** X14: the cleaning of [create_quiz] only cuts at the two ends: the
    cleaned text, and the text that is parsed, are pieces of the answer of
    the model, so that a marker inside the answer stays where it is. *)
Theorem quiz_cleaning_cuts_at_the_ends text :
  segment (clean_quiz_text text) text
  /\ segment (Str.strip (clean_quiz_text text)) text.
Proof.
  assert (C : segment (clean_quiz_text text) text).
  { unfold clean_quiz_text. cbv zeta.
    set (s := Str.strip text).
    assert (S : segment s text) by apply strip_segment.
    set (s' := if Str.startswith s json_fence then Str.drop 7 s
               else if Str.startswith s fence then Str.drop 3 s else s).
    assert (S' : segment s' text).
    { unfold s'. destruct (Str.startswith s json_fence);
        [|destruct (Str.startswith s fence)];
        try exact S; exact (segment_trans _ _ _ (drop_segment _ s) S). }
    destruct (Str.endswith s' fence); [|exact S'].
    exact (segment_trans _ _ _ (drop_end_segment _ s') S'). }
  split; [exact C|].
  exact (segment_trans _ _ _ (strip_segment _) C).
Qed.

(** X15: when the set-up of the model succeeds, the model answers,
    the cleaned answer parses and the value passes the validation, on a
    standard output that takes the four messages of that course,
    [create_quiz] prints them and returns that value as it is. *)
Theorem valid_answer_is_returned stdout python model topic difficulty n text v :
  let messages :=
    [ creating_message topic difficulty n;
      robot :: py " Attempting AI generation...";
      arrows :: py " Sending request to AI model...";
      check_mark :: py " AI generation successful!" ] in
  takes stdout messages ->
  setup model = None ->
  answer model (quiz_prompt topic difficulty n) = inr text ->
  json_loads python (Str.strip (clean_quiz_text text)) = inr v ->
  valid_quiz v n = true ->
  create_quiz stdout python model topic difficulty n = (messages, inr v).
Proof.
  intros messages Q S M J V.
  unfold create_quiz, ai_generation, print, quiet, raise_if.
  rewrite S, M. cbn [and_then bind]. rewrite J. cbn [and_then bind].
  rewrite (validate_quiz_valid _ _ V).
  rewrite !Q by (simpl; auto 10). reflexivity.
Qed.

Lemma valid_answer_is_returned_witness :
  snd (create_quiz Sample.utf8 Sample.cpython Scenario.fenced_quiz
                   (py "t") (py "d") 1)
  = inr Scenario.quiz_value.
Proof.
  assert (Q : takes Sample.utf8
                [ creating_message (py "t") (py "d") 1;
                  robot :: py " Attempting AI generation...";
                  arrows :: py " Sending request to AI model...";
                  check_mark :: py " AI generation successful!" ]).
  { intros text I. repeat (destruct I as [<-|I]; [reflexivity|]). destruct I. }
  exact (f_equal snd
           (valid_answer_is_returned Sample.utf8 Sample.cpython
              Scenario.fenced_quiz (py "t") (py "d") 1
              (json_fence ++ Scenario.quiz_text ++ fence) Scenario.quiz_value
              Q eq_refl eq_refl eq_refl eq_refl)).
Defined.

Lemma quiz_fence_is_unwrapped_witness :
  clean_quiz_text (py "  " ++ (json_fence ++ py "{}" ++ fence) ++ [10%N]) = py "{}"
  /\ clean_quiz_text (py "  " ++ (fence ++ py "{}" ++ fence) ++ [10%N]) = py "{}".
Proof.
  destruct (quiz_fence_is_unwrapped (py "  ") [10%N] (py "{}") eq_refl eq_refl)
    as [T B].
  split; [exact T | apply B; reflexivity].
Defined.


(** *** Replacing a marker *)

Lemma replace_from_skip old new (a rest : str) :
  Str.replace_from old new (length a) (a ++ rest) = Str.replace_from old new 0 rest.
Proof. induction a as [|c a IH]; [reflexivity | exact IH]. Qed.

Lemma replace_from_match o old new rest :
  Str.replace_from (o :: old) new 0 ((o :: old) ++ rest)
  = new ++ Str.replace_from (o :: old) new 0 rest.
Proof.
  cbn [app Str.replace_from].
  change (o :: old ++ rest) with ((o :: old) ++ rest). rewrite startswith_app.
  replace (length (o :: old) - 1) with (length old) by (simpl; lia).
  rewrite replace_from_skip. reflexivity.
Qed.

Lemma replace_from_keep o old new pre rest :
  ~ In o pre ->
  Str.replace_from (o :: old) new 0 (pre ++ rest)
  = pre ++ Str.replace_from (o :: old) new 0 rest.
Proof.
  induction pre as [|c pre IH]; intros H; [reflexivity|].
  cbn [app Str.replace_from Str.startswith].
  destruct (c =? o)%N eqn:E.
  - apply N.eqb_eq in E. exfalso. apply H. left. exact E.
  - cbn [andb]. rewrite IH; [reflexivity|]. intros I. apply H. right. exact I.
Qed.

Lemma replace_from_absent old new s :
  Str.contains old s = false -> Str.replace_from old new 0 s = s.
Proof.
  induction s as [|c s IH]; [reflexivity|].
  cbn [Str.contains Str.replace_from]. intros H.
  apply orb_false_elim in H as [A B]. rewrite A, (IH B). reflexivity.
Qed.

Lemma contains_without c sub s :
  In c sub -> ~ In c s -> Str.contains sub s = false.
Proof.
  intros I N. destruct (Str.contains sub s) eqn:E; [|reflexivity].
  exfalso. apply N. apply (contains_In sub s); assumption.
Qed.

Lemma contains_starts s sub :
  Str.startswith s sub = true -> Str.contains sub s = true.
Proof. destruct s; cbn [Str.contains]; intros ->; reflexivity. Qed.

Lemma contains_skip o old pre rest :
  ~ In o pre ->
  Str.contains (o :: old) (pre ++ rest) = Str.contains (o :: old) rest.
Proof.
  induction pre as [|c pre IH]; intros H; [reflexivity|].
  cbn [app Str.contains Str.startswith].
  destruct (c =? o)%N eqn:E.
  - apply N.eqb_eq in E. exfalso. apply H. left. exact E.
  - cbn [andb orb]. apply IH. intros I. apply H. right. exact I.
Qed.

Lemma startswith_past a s p :
  Str.startswith (a ++ s) (a ++ p) = Str.startswith s p.
Proof.
  induction a as [|c a IH]; [reflexivity|].
  cbn [app Str.startswith]. rewrite N.eqb_refl. exact IH.
Qed.

Lemma startswith_without c s p :
  In c p -> ~ In c s -> Str.startswith s p = false.
Proof.
  intros I N. destruct (Str.startswith s p) eqn:E; [|reflexivity].
  exfalso. apply N. apply (startswith_In s p); assumption.
Qed.

Lemma In_strip c s : In c (Str.strip s) -> In c s.
Proof.
  destruct (strip_segment s) as [p [q E]]. intros I. rewrite E.
  apply in_or_app. right. apply in_or_app. left. exact I.
Qed.

(** After a bare marker, a text that holds no backtick and does not
    begin with [json] shows no tagged marker. *)
Lemma no_tag_after_fence post :
  ~ In 96%N post -> Str.startswith post (py "json") = false ->
  Str.contains json_fence (fence ++ post) = false.
Proof.
  intros N J.
  assert (B : forall p, In 96%N p -> Str.startswith post p = false)
    by (intros p I; apply (startswith_without 96%N); assumption).
  change (Str.contains json_fence (fence ++ post))
    with (Str.startswith (fence ++ post) (fence ++ py "json")
          || (Str.startswith (py "``" ++ post) (py "``" ++ py "`json")
              || (Str.startswith (py "`" ++ post) (py "`" ++ py "``json")
                  || Str.contains json_fence post))).
  rewrite !startswith_past, J, !B by (left; reflexivity).
  apply (contains_without 96%N); [left; reflexivity | exact N].
Qed.

(** X16: [generate_roadmap] unwraps a fenced answer and keeps what is
    around it.  For texts without backticks before, inside and after the
    fence, the text after it not beginning with [json], a tagged fence is
    cleaned to the stripped concatenation of the three; so is a bare fence
    whose body does not begin with [json]. *)
Theorem roadmap_fence_is_unwrapped pre body post :
  ~ In 96%N pre -> ~ In 96%N body -> ~ In 96%N post ->
  Str.startswith post (py "json") = false ->
  clean_response (pre ++ json_fence ++ body ++ fence ++ post)
  = Str.strip (pre ++ body ++ post)
  /\ (Str.startswith body (py "json") = false ->
      clean_response (pre ++ fence ++ body ++ fence ++ post)
      = Str.strip (pre ++ body ++ post)).
Proof.
  intros Np Nb Nq J.
  assert (T : Str.contains json_fence (fence ++ post) = false)
    by (apply no_tag_after_fence; assumption).
  assert (F : Str.replace (pre ++ body ++ fence ++ post) fence []
              = pre ++ body ++ post).
  { unfold Str.replace. change fence with (96%N :: py "``").
    rewrite !replace_from_keep by assumption.
    rewrite replace_from_match. cbn [app].
    rewrite replace_from_absent; [reflexivity|].
    apply (contains_without 96%N); [left; reflexivity | exact Nq]. }
  assert (K : Str.replace (Str.strip (pre ++ body ++ post)) (py "`") []
              = Str.strip (pre ++ body ++ post)).
  { change (py "`") with [96%N]. rewrite replace_char. apply filter_absent.
    intros I. apply In_strip in I.
    apply in_app_or in I as [I|I]; [contradiction|].
    apply in_app_or in I as [I|I]; contradiction. }
  split.
  - unfold clean_response. cbv zeta.
    assert (C : Str.contains json_fence (pre ++ json_fence ++ body ++ fence ++ post)
                = true).
    { change json_fence with (96%N :: py "``json") at 1.
      rewrite contains_skip by exact Np.
      apply contains_starts, startswith_app. }
    rewrite C.
    assert (R : Str.replace (pre ++ json_fence ++ body ++ fence ++ post) json_fence []
                = pre ++ body ++ fence ++ post).
    { unfold Str.replace. change json_fence with (96%N :: py "``json").
      rewrite replace_from_keep by exact Np.
      rewrite replace_from_match. cbn [app].
      rewrite replace_from_keep by exact Nb.
      rewrite replace_from_absent; [reflexivity | exact T]. }
    rewrite R, F. exact K.
  - intros Jb. unfold clean_response. cbv zeta.
    assert (C : Str.contains json_fence (pre ++ fence ++ body ++ fence ++ post)
                = false).
    { change json_fence with (96%N :: py "``json") at 1.
      rewrite contains_skip by exact Np.
      change (96%N :: py "``json") with json_fence.
      destruct body as [|b body].
      - change (Str.contains json_fence (fence ++ [] ++ fence ++ post))
          with (Str.startswith (fence ++ fence ++ post) (fence ++ py "json")
                || (Str.startswith (py "``" ++ fence ++ post) (py "``" ++ py "`json")
                    || (Str.startswith (py "`" ++ fence ++ post)
                                       (py "`" ++ py "``json")
                        || Str.contains json_fence (fence ++ post)))).
        rewrite !startswith_past, T. reflexivity.
      - assert (Nb' : (b =? 96)%N = false).
        { apply N.eqb_neq. intros ->. apply Nb. left. reflexivity. }
        change (Str.contains json_fence (fence ++ (b :: body) ++ fence ++ post))
          with (Str.startswith (fence ++ (b :: body) ++ fence ++ post)
                               (fence ++ py "json")
                || (Str.startswith (py "``" ++ (b :: body) ++ fence ++ post)
                                   (py "``" ++ 96%N :: py "json")
                    || (Str.startswith (py "`" ++ (b :: body) ++ fence ++ post)
                                       (py "`" ++ 96%N :: py "`json")
                        || Str.contains json_fence
                             ((b :: body) ++ fence ++ post)))).
        rewrite !startswith_past.
        rewrite (startswith_continued (b :: body) (fence ++ post) (py "json") 96%N
                   Jb eq_refl) by (cbv; intuition discriminate).
        cbn [app Str.startswith]. rewrite Nb'. cbn [andb orb].
        change (b :: body ++ fence ++ post) with ((b :: body) ++ fence ++ post).
        change json_fence with (96%N :: py "``json").
        rewrite contains_skip by exact Nb. exact T. }
    rewrite C.
    assert (C' : Str.contains fence (pre ++ fence ++ body ++ fence ++ post) = true).
    { change fence with (96%N :: py "``") at 1.
      rewrite contains_skip by exact Np.
      apply contains_starts, startswith_app. }
    rewrite C'.
    assert (R : Str.replace (pre ++ fence ++ body ++ fence ++ post) fence []
                = pre ++ body ++ post).
    { unfold Str.replace. change fence with (96%N :: py "``").
      rewrite replace_from_keep by exact Np.
      rewrite replace_from_match, app_nil_l.
      rewrite replace_from_keep by exact Nb.
      rewrite replace_from_match, app_nil_l.
      rewrite replace_from_absent; [reflexivity|].
      apply (contains_without 96%N); [left; reflexivity | exact Nq]. }
    rewrite R. exact K.
Qed.

Lemma roadmap_fence_is_unwrapped_witness :
  clean_response (py "Here: " ++ json_fence ++ pyq "{'a': 1} " ++ fence ++ py " Enjoy!")
  = py "Here: " ++ pyq "{'a': 1} " ++ py " Enjoy!"
  /\ clean_response (py "Here: " ++ fence ++ pyq "{'a': 1} " ++ fence ++ py " Enjoy!")
     = py "Here: " ++ pyq "{'a': 1} " ++ py " Enjoy!".
Proof.
  assert (P : ~ In 96%N (py "Here: ")) by (cbv; intuition discriminate).
  assert (B : ~ In 96%N (pyq "{'a': 1} ")) by (cbv; intuition discriminate).
  assert (Q : ~ In 96%N (py " Enjoy!")) by (cbv; intuition discriminate).
  exact (let H := roadmap_fence_is_unwrapped
                    (py "Here: ") (pyq "{'a': 1} ") (py " Enjoy!") P B Q eq_refl in
         conj (proj1 H) (proj2 H eq_refl)).
Defined.

(** ** The owner deletes a roadmap *)

Lemma delete_one_length coll filter :
  length (fst (delete_one coll filter)) + snd (delete_one coll filter) = length coll.
Proof.
  induction coll as [|x coll IH]; [reflexivity|]. cbn [delete_one].
  destruct (matches filter (as_dict x)); [cbn; lia|].
  destruct (delete_one coll filter) as [rest n]. cbn in *. lia.
Qed.

(** X17: when the database answers and no other client interferes,
    the owner of a roadmap that the handlers read (in the collection when
    the truth test of the handle holds, else in the mapping, which holds
    its roadmaps under their identifiers) deletes it: the DELETE of its
    identifier with that email is answered 200 with the success flag, the
    store the handlers read holds one roadmap less, and the other store is
    as it was. *)
Theorem owner_deletes_the_roadmap cfg w (rid e : str) (r : dict) st available :
  is_segment rid = true -> e <> [] ->
  db_available w (reconnect cfg w st) = inr available ->
  collection_error w = None -> find_error w = None -> delete_error w = None ->
  delete_raced w = false -> memory_raced w = false ->
  keyed_by_id (_in_memory_roadmaps st) ->
  In r (active_records available st) ->
  record_id r = Some rid -> owner r = Some e ->
  let out := handle cfg w (RoadmapById DELETE rid (Some e)) st in
  fst out = inr (PDict [(py "success", PBool true);
                        (py "message", PStr (py "Roadmap deleted successfully"))],
                 200)
  /\ length (active_records available (snd out)) + 1
     = length (active_records available st)
  /\ (if available
      then _in_memory_roadmaps (snd out) = _in_memory_roadmaps st
      else mongo (snd out) = mongo st).
Proof.
  intros Sg He D C F De Rd Rm [N K] I E O out.
  pose proof (is_segment_nonempty _ Sg) as Hr.
  destruct (reconnect_stores cfg w st) as [M R].
  unfold out. cbn [handle]. rewrite Sg. cbn [negb].
  unfold answered, get_roadmap_by_id, get_roadmap_by_id_body.
  cbv zeta. rewrite !truthy_nonempty by assumption. cbn [negb text_of fst snd].
  rewrite D. unfold active_records in *.
  destruct available.
  - unfold by_id_in_mongo, get_collection. rewrite C, F, M, Rd, De.
    apply in_map_iff in I as [d [<- I]].
    destruct (find_one _ _) as [d'|] eqn:X.
    + pose proof (find_one_deleted _ _ _ X) as Cn.
      pose proof (delete_one_length (mongo st)
                    [(py "id", rid); (py "user_email", e)]) as L.
      destruct (delete_one (mongo st) _) as [coll' n]. cbn [fst snd] in *.
      subst n. cbn [Nat.ltb Nat.leb fst snd with_mongo mongo _in_memory_roadmaps].
      rewrite !length_map. auto.
    + exfalso. unfold find_one in X.
      pose proof (find_none _ _ X d I) as Nn. cbv beta in Nn.
      assert (Mt : matches [(py "id", rid); (py "user_email", e)] (as_dict d) = true).
      { apply matches_id_owner. rewrite (record_id_identifiers _ _ E).
        unfold owner in O. rewrite (str_field_texts _ _ _ O).
        split; left; reflexivity. }
      congruence.
  - unfold by_id_in_memory. rewrite R, Rm.
    destruct (find_in_memory _ _ _) as [r'|] eqn:X.
    + pose proof (pop_roadmap_found _ _ _ _ X) as P.
      pose proof (find_in_memory_In _ _ _ _ X) as I'.
      assert (Er : record_id r' = Some rid).
      { unfold find_in_memory in X. apply find_some in X as [_ X].
        apply andb_prop in X as [X _]. apply eq_str_field in X. exact X. }
      destruct r' as [|kv r']; [discriminate|].
      cbn [fst snd with_memory mongo _in_memory_roadmaps]. rewrite P.
      split; [reflexivity|]. split; [|exact M].
      apply values_In in I' as [k I'].
      pose proof (K _ _ I') as Ek. rewrite Er in Ek. inversion Ek; subst k.
      unfold Dict.values. rewrite !length_map. apply pop_length.
      apply in_map_iff. exists (rid, kv :: r'). auto.
    + exfalso. unfold find_in_memory in X.
      pose proof (find_none _ _ X r I) as Nn. cbv beta in Nn.
      apply eq_str_field in E, O.
      rewrite E, O in Nn. discriminate.
Qed.

Lemma owner_deletes_the_roadmap_witness :
  let out := handle Sample.no_mongo (Sample.fine (py "r5"))
               (RoadmapById DELETE (py "r3") (Some (py "a@x.com")))
               Scenario.three_in_memory in
  fst out = inr (PDict [(py "success", PBool true);
                        (py "message", PStr (py "Roadmap deleted successfully"))],
                 200)
  /\ length (active_records false (snd out)) + 1
     = length (active_records false Scenario.three_in_memory)
  /\ mongo (snd out) = mongo Scenario.three_in_memory.
Proof.
  assert (E : py "a@x.com" <> []) by discriminate.
  assert (K : keyed_by_id (_in_memory_roadmaps Scenario.three_in_memory)).
  { split.
    - repeat constructor; simpl; intuition discriminate.
    - intros k r [H|[H|[H|[]]]]; inversion H; reflexivity. }
  assert (I : In (Sample.roadmap (py "r3") (py "a@x.com"))
                 (active_records false Scenario.three_in_memory))
    by (right; right; left; reflexivity).
  exact (owner_deletes_the_roadmap Sample.no_mongo (Sample.fine (py "r5"))
           (py "r3") (py "a@x.com") _ Scenario.three_in_memory false
           eq_refl E eq_refl eq_refl eq_refl eq_refl eq_refl eq_refl K I
           eq_refl eq_refl).
Defined.

(** ** A handle that refuses its truth test *)

(** X18: with a database handle whose truth test raises, no handler
    reaches a store: a generation whose model answer parses, a listing
    and a GET or DELETE of a roadmap, each with its parameters, are
    answered 500 with the message of the exception, and the state is as
    the lazy reconnect left it. *)
Theorem truth_test_refusal cfg w st e :
  db (reconnect cfg w st) <> None -> database_bool w = inl e ->
  (forall get_json req roadmap_data,
     parsed w get_json req roadmap_data ->
     generate_roadmap cfg w get_json st
     = (inr (PDict [(py "error",
                     PStr (py "Roadmap generation failed: " ++ str_of_exn e))],
             500),
        reconnect cfg w st))
  /\ (forall email : str,
        email <> [] ->
        get_user_roadmaps cfg w (Some email) st
        = ((PDict [(py "error",
                    PStr (py "Failed to retrieve roadmaps: " ++ str_of_exn e))],
            500),
           reconnect cfg w st))
  /\ (forall m (rid email : str),
        rid <> [] -> email <> [] ->
        get_roadmap_by_id cfg w m rid (Some email) st
        = ((PDict [(py "error", PStr (py "Operation failed: " ++ str_of_exn e))],
            500),
           reconnect cfg w st)).
Proof.
  intros Dn B.
  assert (D : db_available w (reconnect cfg w st) = inl e).
  { unfold db_available. destruct (db (reconnect cfg w st)); [|contradiction].
    rewrite B. reflexivity. }
  split; [|split].
  - intros get_json req roadmap_data P.
    rewrite (generate_parsed cfg w get_json req st roadmap_data P), D.
    reflexivity.
  - intros email He. unfold get_user_roadmaps, get_user_roadmaps_body.
    cbv zeta. rewrite (truthy_nonempty _ He), D. reflexivity.
  - intros m rid email Hr He. unfold get_roadmap_by_id, get_roadmap_by_id_body.
    cbv zeta. rewrite (truthy_nonempty _ Hr), (truthy_nonempty _ He), D.
    reflexivity.
Qed.

Lemma truth_test_refusal_witness :
  get_roadmap_by_id Sample.with_mongo (Sample.pymongo4 (py "r2")) GET (py "r1")
                    (Some (py "a@x.com")) Sample.one_in_mongo
  = ((PDict [(py "error",
              PStr (py "Operation failed: Database objects do not implement truth value testing or bool(). Please compare with None instead: database is not None"))],
      500),
     Sample.one_in_mongo).
Proof.
  assert (D : db (reconnect Sample.with_mongo (Sample.pymongo4 (py "r2"))
                            Sample.one_in_mongo) <> None) by discriminate.
  assert (R : py "r1" <> []) by discriminate.
  assert (E : py "a@x.com" <> []) by discriminate.
  exact (proj2 (proj2 (truth_test_refusal Sample.with_mongo
                         (Sample.pymongo4 (py "r2")) Sample.one_in_mongo _
                         D eq_refl))
               GET (py "r1") (py "a@x.com") R E).
Defined.

(** ** The body of a generation *)

(** X19: [generate_roadmap] reads the members of the body before its
    [try]: for a JSON body that is not an object, as a list or [null],
    the [AttributeError] of [data.get] leaves the handler, and the state
    is as the lazy reconnect left it. *)
Theorem body_must_be_an_object cfg w v st :
  (forall d, v <> PDict d) ->
  generate_roadmap cfg w (inr v) st
  = (inl (AttributeError
            (py "'" ++ type_name v ++ py "' object has no attribute 'get'")),
     reconnect cfg w st).
Proof.
  intros H. unfold generate_roadmap, generate_roadmap_body, read_request.
  destruct v; try reflexivity.
  exfalso. exact (H _ eq_refl).
Qed.

Lemma body_must_be_an_object_witness :
  generate_roadmap Sample.no_mongo (Sample.fine (py "r1")) (inr PNone) Sample.started
  = (inl (AttributeError (py "'NoneType' object has no attribute 'get'")),
     reconnect Sample.no_mongo (Sample.fine (py "r1")) Sample.started).
Proof.
  assert (H : forall d, PNone <> PDict d) by discriminate.
  exact (body_must_be_an_object Sample.no_mongo (Sample.fine (py "r1")) PNone
           Sample.started H).
Defined.
